(** * GPAI: grounded step-by-step answers

    A shallow embedding of the grounding-and-verification core of the
    repository: the chunker of [backend/ingest.py], the retriever of
    [backend/retrieve.py], the solution parser of [backend/generator.py]
    and the step validator of [backend/validator.py].

    Conventions.
    - A Python [str] is a [string] whose characters are the code points
      below 256; the classes [isspace] and [isdigit] and the map [lower]
      are those of Python on these code points.
    - A Python [float] is an exact rational [Q]; a literal such as [0.85]
      stands for its decimal value.  Only comparisons, [1.0 - d] and
      products of scores are taken, and no NaN is ever produced by the
      collaborators.
    - The embedding model, the tokenizer, the vector store and the
      computer-algebra system are collaborators: they are [Variable]s of
      the section that uses them.
    - A raised exception is a value [Raise e] of the type [result]. *)

From Stdlib Require Import ZArith QArith List String Ascii Bool Lia Lqa.
From Stdlib Require Import DecimalString DecimalZ DecimalPos.
From stdpp Require Import gmap strings list sorting.

Local Open Scope string_scope.
Local Open Scope list_scope.

(** ** Python strings *)

Module Py.

(** [str.isspace] on one character: TAB, LF, VT, FF, CR, FS, GS, RS, US,
    the space, NEL and the no-break space. *)
Definition isspace (c : ascii) : bool :=
  let n := nat_of_ascii c in
  ((9 <=? n)%nat && (n <=? 13)%nat) || ((28 <=? n)%nat && (n <=? 32)%nat)
  || (n =? 133)%nat || (n =? 160)%nat.

(** [str.isdigit]: the ten digits and the superscripts two, three, one. *)
Definition isdigit (c : ascii) : bool :=
  let n := nat_of_ascii c in
  ((48 <=? n)%nat && (n <=? 57)%nat)
  || (n =? 178)%nat || (n =? 179)%nat || (n =? 185)%nat.

(** [str.lower] on one character: the letters A to Z and the accented
    capitals (192 to 222, the multiplication sign 215 excepted). *)
Definition lower_char (c : ascii) : ascii :=
  let n := nat_of_ascii c in
  if ((65 <=? n)%nat && (n <=? 90)%nat)
     || ((192 <=? n)%nat && (n <=? 222)%nat && negb (n =? 215)%nat)
  then ascii_of_nat (n + 32) else c.

(** [s.lower()] *)
Fixpoint lower (s : string) : string :=
  match s with
  | EmptyString => EmptyString
  | String c s' => String (lower_char c) (lower s')
  end.

(** [s.lstrip()], [s.rstrip()] and [s.strip()] *)
Fixpoint lstrip (s : string) : string :=
  match s with
  | EmptyString => EmptyString
  | String c s' => if isspace c then lstrip s' else s
  end.

Fixpoint rstrip (s : string) : string :=
  match s with
  | EmptyString => EmptyString
  | String c s' =>
      match rstrip s' with
      | EmptyString => if isspace c then EmptyString else String c EmptyString
      | r => String c r
      end
  end.

Definition strip (s : string) : string := rstrip (lstrip s).

(** Truth value of a string: [bool(s)], false exactly on the empty one. *)
Definition truthy (s : string) : bool :=
  match s with EmptyString => false | _ => true end.

(** [s.split()]: the maximal runs of non-space characters.  [cur] is the
    run being read, last character first. *)
Fixpoint rev_string (acc s : string) : string :=
  match s with
  | EmptyString => acc
  | String c s' => rev_string (String c acc) s'
  end.

Definition flush_run (cur : string) (rest : list string) : list string :=
  match cur with
  | EmptyString => rest
  | _ => rev_string EmptyString cur :: rest
  end.

Fixpoint split_runs (cur s : string) : list string :=
  match s with
  | EmptyString => flush_run cur []
  | String c s' =>
      if isspace c then flush_run cur (split_runs EmptyString s')
      else split_runs (String c cur) s'
  end.

Definition split (s : string) : list string := split_runs EmptyString s.

(** [s.split(sep)] for a one-character separator: empty pieces are kept. *)
Fixpoint split_on (sep : ascii) (s : string) : list string :=
  match s with
  | EmptyString => [EmptyString]
  | String c s' =>
      if Ascii.eqb c sep then EmptyString :: split_on sep s'
      else match split_on sep s' with
           | [] => [String c EmptyString]
           | p :: ps => String c p :: ps
           end
  end.

(** [sep.join(parts)] *)
Fixpoint join (sep : string) (parts : list string) : string :=
  match parts with
  | [] => EmptyString
  | [p] => p
  | p :: ps => p +:+ sep +:+ join sep ps
  end.

(** [s.startswith(p)] and [p in s] *)
Fixpoint startswith (p s : string) : bool :=
  match p, s with
  | EmptyString, _ => true
  | String _ _, EmptyString => false
  | String a p', String b s' => Ascii.eqb a b && startswith p' s'
  end.

Fixpoint contains (p s : string) : bool :=
  startswith p s ||
  match s with
  | EmptyString => false
  | String _ s' => contains p s'
  end.

(** [l[a:b]] for a list, with Python's treatment of negative and
    out-of-range bounds. *)
Definition clamp_index (len i : Z) : Z :=
  if (i <? 0)%Z then Z.max 0 (len + i) else Z.min i len.

Definition slice {A} (l : list A) (a b : Z) : list A :=
  let len := Z.of_nat (List.length l) in
  let a' := clamp_index len a in
  let b' := clamp_index len b in
  firstn (Z.to_nat (b' - a')) (skipn (Z.to_nat a') l).

(** [str(n)] for an integer. *)
Definition str_of_Z (n : Z) : string := NilZero.string_of_int (Z.to_int n).
Definition str_of_nat (n : nat) : string := NilZero.string_of_uint (Nat.to_uint n).

End Py.

(** ** Exceptions *)

Inductive exn : Type :=
| OSError (path : string)
| ValueError (msg : string).

Inductive result (A : Type) : Type :=
| Ok (a : A)
| Raise (e : exn).
Arguments Ok {A} a.
Arguments Raise {A} e.

#[global] Instance result_ret : MRet result := fun A a => Ok a.
#[global] Instance result_bind : MBind result := fun A B k m =>
  match m with
  | Ok a => k a
  | Raise e => Raise e
  end.

(** ** Records shared by the components *)

Inductive Status : Type := PASSED | PARTIAL | FAILED.
Inductive Confidence : Type := HIGH | MEDIUM | LOW.
Inductive SupportType : Type := textual | symbolic | none.

(** One entry of [validation_results] in [validate_solution]. *)
Record StepValidation : Type := mkStepValidation {
  step_num : Z;
  step_text : string;
  supported : bool;
  support_type : SupportType;
  confidence : Confidence;
  best_match_similarity : Q;
  best_match_chunk : option string;
  citations_found : list string;
  unsupported_flag : bool
}.

(** The metadata dictionary the vector store keeps with a chunk, read
    with [metadata.get(key)]. *)
Record Metadata : Type := mkMetadata {
  m_filename : option string;
  m_page : option Z;
  m_priority : option string;
  m_trusted : option bool
}.

(** A metadata filter of a query ([where=...]). *)
Definition Filter : Type := list (string * string).

(** One entry of ["results"] in the retrieval log. *)
Record RetrievalRow : Type := mkRetrievalRow {
  row_rank : nat;
  row_chunk_id : string;
  row_similarity : Q;
  row_boosted_similarity : Q;
  row_filename : option string;
  row_page : option Z;
  row_priority : option string;
  row_trusted : option bool
}.

(** ** The audit log

    One file per UTC day and per concern; every line is one record.  A
    path can be impossible to open for appending (missing directory,
    permissions, full disk): [open(path, 'a')] then raises. *)

Module Audit.

Record Clock : Type := mkClock {
  utc_isoformat : string;   (* datetime.utcnow().isoformat() *)
  utc_yyyymmdd : string     (* datetime.utcnow().strftime('%Y%m%d') *)
}.

(** [os.path.join(a, b)] on a POSIX system. *)
Fixpoint ends_with_slash (s : string) : bool :=
  match s with
  | EmptyString => false
  | String c EmptyString => Ascii.eqb c "/"
  | String _ s' => ends_with_slash s'
  end.

Definition path_join (a b : string) : string :=
  if Py.startswith "/" b then b
  else if negb (Py.truthy a) || ends_with_slash a then a +:+ b
  else a +:+ "/" +:+ b.

(** The two kinds of log line: [log_entry] of [_log_retrieval] and of
    [_log_validation]. *)
Inductive LogRecord : Type :=
| RetrievalRecord (timestamp query : string) (top_k : nat)
    (filters : option Filter) (results : list RetrievalRow)
| ValidationRecord (timestamp : string) (status : Status) (mode : string)
    (total_steps supported_steps : nat) (step_details : list StepValidation).

Record FS : Type := mkFS {
  files : gmap string (list LogRecord);
  unwritable : gset string
}.

(** [with open(path, 'a') as f: f.write(json.dumps(entry) + '\n')] *)
Definition append_line (fs : FS) (path : string) (line : LogRecord) : result FS :=
  if decide (path ∈ unwritable fs) then Raise (OSError path)
  else Ok (mkFS (<[path := default [] (files fs !! path) ++ [line]]> (files fs))
                (unwritable fs)).

End Audit.

(** ** The step validator ([backend/validator.py]) *)

Module Validator.

(** The sentence-embedding model and [sklearn]'s cosine similarity. *)
Class SentenceEncoder : Type := {
  embedding : Type;
  encode : string -> embedding;
  cosine_similarity : embedding -> embedding -> Q
}.

(** The regular-expression matches of [_extract_math_expressions], in the
    order in which the four patterns are tried, and [sympy]: [None] when
    parsing or simplification raises, else whether the difference of the
    two expressions simplifies to zero. *)
Class MathOracle : Type := {
  math_pattern_matches : string -> list string;
  sympy_difference_is_zero : string -> string -> option bool
}.

(** A solution step as the parser produces it: a dictionary, read with
    [step.get(key, default)]. *)
Record StepDict : Type := mkStep {
  s_step_num : option Z;
  s_text : option string;
  s_citations : option (list string);
  s_unsupported : option bool
}.

(** A retrieved chunk as the validator reads it. *)
Record ChunkDict : Type := mkChunk {
  c_chunk_text : string;
  c_chunk_id : option string
}.

Record StepValidator : Type := mkValidator {
  sim_threshold : Q;
  min_ngram_overlap : nat;
  log_dir : string
}.

(** The defaults of [__init__]. *)
Definition default_validator : StepValidator :=
  mkValidator (78 # 100)%Q 6 "./logs".

(** *** [_compute_ngram_overlap] *)

(** [' '.join(tokens[i:i+n])] for [i] in [range(len(tokens) - n + 1)] *)
Definition ngram_at (tokens : list string) (n i : nat) : string :=
  Py.join " " (Py.slice tokens (Z.of_nat i) (Z.of_nat i + Z.of_nat n)).

Definition ngram_list (tokens : list string) (n : nat) : list string :=
  map (ngram_at tokens n)
      (seq 0 (Z.to_nat (Z.of_nat (List.length tokens) - Z.of_nat n + 1))).

Definition ngrams (tokens : list string) (n : nat) : gset string :=
  list_to_set (ngram_list tokens n).

Definition _compute_ngram_overlap_n (text1 text2 : string) (n : nat) : nat :=
  let tokens1 := Py.split (Py.lower text1) in
  let tokens2 := Py.split (Py.lower text2) in
  let ngrams1 := ngrams tokens1 n in
  let ngrams2 := ngrams tokens2 n in
  size (ngrams1 ∩ ngrams2).

(** The default [n = 3]. *)
Definition _compute_ngram_overlap (text1 text2 : string) : nat :=
  _compute_ngram_overlap_n text1 text2 3.

(** *** [_check_textual_support] *)

Record TextSupport : Type := mkTextSupport {
  ts_supported : bool;
  ts_similarity : Q;
  ts_token_overlap : option nat;
  ts_confidence : Confidence;
  ts_chunk_id : option string
}.

(** [np.argmax]: the first index of a largest entry; [best] is the entry
    at [best_idx], [i] the index of the head of the list. *)
Fixpoint argmax_from (best_idx : nat) (best : Q) (i : nat) (l : list Q) : nat :=
  match l with
  | [] => best_idx
  | x :: l' =>
      if Qle_bool x best then argmax_from best_idx best (S i) l'
      else argmax_from i x (S i) l'
  end.

Definition argmax (l : list Q) : nat :=
  match l with
  | [] => 0%nat
  | x :: l' => argmax_from 0 x 1 l'
  end.

Definition similarities `{SentenceEncoder} (step_text : string)
  (chunk_texts : list string) : list Q :=
  let step_embedding := encode step_text in
  let chunk_embeddings := map encode chunk_texts in
  map (cosine_similarity step_embedding) chunk_embeddings.

Definition confidence_of (v : StepValidator) (best_similarity : Q) : Confidence :=
  if Qle_bool (85 # 100)%Q best_similarity then HIGH
  else if Qle_bool (sim_threshold v) best_similarity then MEDIUM
  else LOW.

(** [chunks_metadata] is the list [chunk_texts] was built from (the only
    caller is [_validate_step] under [validate_solution]), and [argmax]
    is an index of [chunk_texts]: the three subscripts are in range. *)
Definition _check_textual_support `{SentenceEncoder} (v : StepValidator)
  (step_text : string) (chunk_texts : list string)
  (chunks_metadata : list ChunkDict) : TextSupport :=
  match chunk_texts with
  | [] => mkTextSupport false 0%Q None LOW None
  | _ =>
      let sims := similarities step_text chunk_texts in
      let best_idx := argmax sims in
      let best_similarity := nth best_idx sims 0%Q in
      let best_chunk := nth best_idx chunk_texts EmptyString in
      let overlap := _compute_ngram_overlap step_text best_chunk in
      let supported :=
        Qle_bool (sim_threshold v) best_similarity
        && (min_ngram_overlap v <=? overlap)%nat in
      mkTextSupport supported best_similarity (Some overlap)
        (confidence_of v best_similarity)
        (match chunks_metadata with
         | [] => None
         | _ => Some (default "unknown"
                        (c_chunk_id (nth best_idx chunks_metadata
                                         (mkChunk EmptyString None))))
         end)
  end.

(** *** [_check_symbolic_support] *)

(** [_extract_math_expressions]: the pattern matches, stripped, the empty
    ones dropped. *)
Definition _extract_math_expressions `{MathOracle} (text : string) : list string :=
  map Py.strip
      (filter (fun expr => Py.truthy (Py.strip expr) = true)
              (math_pattern_matches text)).

(** [_normalize_expression]: white space removed, lower case, the
    multiplication signs [*] and (code 215) removed. *)
Fixpoint remove_chars (drop : ascii -> bool) (s : string) : string :=
  match s with
  | EmptyString => EmptyString
  | String c s' =>
      if drop c then remove_chars drop s' else String c (remove_chars drop s')
  end.

Definition _normalize_expression (expr : string) : string :=
  let expr := remove_chars Py.isspace expr in
  let expr := Py.lower expr in
  let expr := remove_chars (Ascii.eqb "*") expr in
  remove_chars (Ascii.eqb (ascii_of_nat 215)) expr.

Definition _are_symbolically_equivalent `{MathOracle} (expr1 expr2 : string) : bool :=
  match sympy_difference_is_zero expr1 expr2 with
  | Some b => b
  | None => String.eqb (_normalize_expression expr1) (_normalize_expression expr2)
  end.

Record SymbolicSupport : Type := mkSymbolicSupport {
  ss_supported : bool;
  ss_confidence : Confidence;
  ss_chunk_id : option string;
  ss_step_expr : option string;
  ss_chunk_expr : option string
}.

(** The two inner loops: the first pair, step expressions outermost. *)
Definition first_equivalent_pair `{MathOracle} (step_expressions chunk_expressions : list string)
  : option (string * string) :=
  head (filter (fun p => _are_symbolically_equivalent p.1 p.2 = true)
               (step_expr ← step_expressions;
                chunk_expr ← chunk_expressions;
                [(step_expr, chunk_expr)])).

(** The loop over [enumerate(chunk_texts)], from index [i] on. *)
Fixpoint symbolic_scan `{MathOracle} (step_expressions : list string) (i : nat)
  (chunk_texts : list string) : SymbolicSupport :=
  match chunk_texts with
  | [] => mkSymbolicSupport false LOW None None None
  | chunk_text :: rest =>
      match first_equivalent_pair step_expressions
              (_extract_math_expressions chunk_text) with
      | Some (step_expr, chunk_expr) =>
          mkSymbolicSupport true HIGH (Some ("chunk_" +:+ Py.str_of_nat i))
            (Some step_expr) (Some chunk_expr)
      | None => symbolic_scan step_expressions (S i) rest
      end
  end.

Definition _check_symbolic_support `{MathOracle} (step_text : string)
  (chunk_texts : list string) : SymbolicSupport :=
  match _extract_math_expressions step_text with
  | [] => mkSymbolicSupport false LOW None None None
  | step_expressions => symbolic_scan step_expressions 0 chunk_texts
  end.

(** *** [_validate_step] *)

Record StepCheck : Type := mkStepCheck {
  sc_supported : bool;
  sc_support_type : SupportType;
  sc_confidence : Confidence;
  sc_best_similarity : Q;
  sc_best_chunk_id : option string
}.

Definition _validate_step `{SentenceEncoder} `{MathOracle} (v : StepValidator)
  (step_text : string) (chunk_texts : list string)
  (chunks_metadata : list ChunkDict) : StepCheck :=
  let text_support := _check_textual_support v step_text chunk_texts chunks_metadata in
  let symbolic_support := _check_symbolic_support step_text chunk_texts in
  if ts_supported text_support then
    mkStepCheck true textual (ts_confidence text_support)
      (ts_similarity text_support) (ts_chunk_id text_support)
  else if ss_supported symbolic_support then
    mkStepCheck true symbolic (ss_confidence symbolic_support)
      0%Q (ss_chunk_id symbolic_support)
  else
    mkStepCheck false none LOW
      (ts_similarity text_support) (ts_chunk_id text_support).

(** *** [validate_solution] *)

Record SolutionValidation : Type := mkSolutionValidation {
  status : Status;
  message : string;
  mode : string;
  all_supported : bool;
  step_validations : list StepValidation;
  total_steps : nat;
  supported_steps : nat
}.

(** The dictionary appended to [validation_results]. *)
Definition validation_entry (step : StepDict) (step_text : string)
  (step_validation : StepCheck) : StepValidation :=
  mkStepValidation
    (default 0%Z (s_step_num step))
    step_text
    (sc_supported step_validation)
    (sc_support_type step_validation)
    (sc_confidence step_validation)
    (sc_best_similarity step_validation)
    (sc_best_chunk_id step_validation)
    (default [] (s_citations step))
    (default false (s_unsupported step)).

(** One turn of [for step in solution_steps]; the state is
    [(validation_results, all_supported)]. *)
Definition validate_one `{SentenceEncoder} `{MathOracle} (v : StepValidator)
  (chunk_texts : list string) (retrieved_chunks : list ChunkDict)
  (st : list StepValidation * bool) (step : StepDict)
  : list StepValidation * bool :=
  let step_text := default EmptyString (s_text step) in
  if negb (Py.truthy (Py.strip step_text)) then st
  else
    let step_validation := _validate_step v step_text chunk_texts retrieved_chunks in
    (st.1 ++ [validation_entry step step_text step_validation],
     if negb (sc_supported step_validation) then false else st.2).

(** [sum(1 for r in validation_results if r['supported'])] *)
Definition count_supported (validation_results : list StepValidation) : nat :=
  List.length (filter (fun r => supported r = true) validation_results).

(** The dictionary [result], before it is logged. *)
Definition validation_result `{SentenceEncoder} `{MathOracle} (v : StepValidator)
  (solution_steps : list StepDict) (retrieved_chunks : list ChunkDict)
  (mode : string) : SolutionValidation :=
  let chunk_texts := map c_chunk_text retrieved_chunks in
  let '(validation_results, all_supported) :=
    fold_left (validate_one v chunk_texts retrieved_chunks) solution_steps ([], true) in
  let '(status, message) :=
    if String.eqb mode "strict" && negb all_supported then
      (FAILED, "No supported solution found in resources.")
    else if String.eqb mode "strict" && all_supported then
      (PASSED, "All steps validated against resources.")
    else
      let supported_count := count_supported validation_results in
      let total_count := List.length validation_results in
      (if (supported_count <? total_count)%nat then PARTIAL else PASSED,
       Py.str_of_nat supported_count +:+ "/" +:+ Py.str_of_nat total_count
         +:+ " steps supported by resources.") in
  mkSolutionValidation status message mode all_supported validation_results
    (List.length validation_results) (count_supported validation_results).

(** [_log_validation] *)
Definition _log_validation (v : StepValidator) (clock : Audit.Clock)
  (validation_result : SolutionValidation) (fs : Audit.FS) : result Audit.FS :=
  let log_entry :=
    Audit.ValidationRecord (Audit.utc_isoformat clock)
      (status validation_result) (mode validation_result)
      (total_steps validation_result) (supported_steps validation_result)
      (step_validations validation_result) in
  let log_filename := "validation_" +:+ Audit.utc_yyyymmdd clock +:+ ".jsonl" in
  let log_path := Audit.path_join (log_dir v) log_filename in
  Audit.append_line fs log_path log_entry.

Definition validate_solution `{SentenceEncoder} `{MathOracle} (v : StepValidator)
  (clock : Audit.Clock) (solution_steps : list StepDict)
  (retrieved_chunks : list ChunkDict) (mode : string) (fs : Audit.FS)
  : result (SolutionValidation * Audit.FS) :=
  let result := validation_result v solution_steps retrieved_chunks mode in
  fs' ← _log_validation v clock result fs;
  mret (result, fs').

End Validator.

(** ** The retriever ([backend/retrieve.py]) *)

Module Retriever.

(** One hit of [collection.query]: the entries at one position of the
    parallel lists [ids], [documents], [metadatas] and [distances]. *)
Record Hit : Type := mkHit {
  h_id : string;
  h_document : string;
  h_metadata : Metadata;
  h_distance : Q
}.

(** The answer of the store; [q_has_distances] is ['distances' in results]. *)
Record QueryResult : Type := mkQueryResult {
  q_rows : list Hit;
  q_has_distances : bool
}.

(** [indexer.collection.query(query_texts=[query], n_results=n, where=f)] *)
Class VectorStore : Type := {
  collection_query : string -> nat -> option Filter -> QueryResult
}.

Record RetrievedChunk : Type := mkRetrieved {
  chunk_id : string;
  chunk_text : string;
  metadata : Metadata;
  distance : Q;
  similarity : Q;
  rank : nat;
  boosted_similarity : option Q;
  priority_boost : option Q
}.

Record DocumentRetriever : Type := mkRetriever {
  top_k : nat;
  log_dir : string
}.

(** [priority_weights.get(priority, 1.0)] *)
Definition priority_weight (priority : string) : Q :=
  if String.eqb priority "rubric" then (13 # 10)%Q
  else if String.eqb priority "slides" then (12 # 10)%Q
  else if String.eqb priority "textbook" then (11 # 10)%Q
  else if String.eqb priority "normal" then 1%Q
  else 1%Q.

(** The body of the first loop of [_apply_priority_boost]. *)
Definition boost_of (m : Metadata) : Q :=
  let priority := default "normal" (m_priority m) in
  let trusted := default true (m_trusted m) in
  let boost := priority_weight priority in
  if trusted then (boost * (11 # 10))%Q else boost.

Definition set_boost (chunk : RetrievedChunk) : RetrievedChunk :=
  let boost := boost_of (metadata chunk) in
  mkRetrieved (chunk_id chunk) (chunk_text chunk) (metadata chunk)
    (distance chunk) (similarity chunk) (rank chunk)
    (Some (similarity chunk * boost)%Q) (Some boost).

Definition set_rank (i : nat) (chunk : RetrievedChunk) : RetrievedChunk :=
  mkRetrieved (chunk_id chunk) (chunk_text chunk) (metadata chunk)
    (distance chunk) (similarity chunk) i
    (boosted_similarity chunk) (priority_boost chunk).

(** [chunks.sort(key=..., reverse=True)]: a stable sort, largest key
    first; entries with equal keys keep their order. *)
Fixpoint insert_desc {A} (key : A -> Q) (x : A) (l : list A) : list A :=
  match l with
  | [] => [x]
  | y :: l' =>
      if Qle_bool (key y) (key x) then x :: y :: l'
      else y :: insert_desc key x l'
  end.

Definition sort_desc {A} (key : A -> Q) (l : list A) : list A :=
  foldr (insert_desc key) [] l.

(** [x['boosted_similarity']] *)
Definition boosted_key (chunk : RetrievedChunk) : Q :=
  default 0%Q (boosted_similarity chunk).

Definition _apply_priority_boost (chunks : list RetrievedChunk) : list RetrievedChunk :=
  let chunks := map set_boost chunks in
  let chunks := sort_desc boosted_key chunks in
  imap set_rank chunks.

(** [n_results=k * 2 if priority_boost else k] *)
Definition n_results (k : nat) (priority_boost : bool) : nat :=
  if priority_boost then k * 2 else k.

Definition chunk_of_hit (has_distances : bool) (i : nat) (hit : Hit) : RetrievedChunk :=
  mkRetrieved (h_id hit) (h_document hit) (h_metadata hit)
    (if has_distances then h_distance hit else 0%Q)
    (if has_distances then (1 - h_distance hit)%Q else 1%Q)
    i None None.

(** [retrieve] up to the log call. *)
Definition retrieved_chunks `{VectorStore} (r : DocumentRetriever) (query : string)
  (top_k_arg : option nat) (filter_metadata : option Filter)
  (priority_boost : bool) : list RetrievedChunk :=
  let k := default (top_k r) top_k_arg in
  let results := collection_query query (n_results k priority_boost) filter_metadata in
  let retrieved_chunks := imap (chunk_of_hit (q_has_distances results)) (q_rows results) in
  let retrieved_chunks :=
    match retrieved_chunks with
    | [] => retrieved_chunks
    | _ => if priority_boost then _apply_priority_boost retrieved_chunks
           else retrieved_chunks
    end in
  firstn k retrieved_chunks.

Definition log_row (chunk : RetrievedChunk) : RetrievalRow :=
  mkRetrievalRow (rank chunk) (chunk_id chunk) (similarity chunk)
    (default (similarity chunk) (boosted_similarity chunk))
    (m_filename (metadata chunk)) (m_page (metadata chunk))
    (m_priority (metadata chunk)) (m_trusted (metadata chunk)).

Definition _log_retrieval (r : DocumentRetriever) (clock : Audit.Clock)
  (query : string) (chunks : list RetrievedChunk) (filters : option Filter)
  (fs : Audit.FS) : result Audit.FS :=
  let log_entry :=
    Audit.RetrievalRecord (Audit.utc_isoformat clock) query
      (List.length chunks) filters (map log_row chunks) in
  let log_filename := "retrieval_" +:+ Audit.utc_yyyymmdd clock +:+ ".jsonl" in
  let log_path := Audit.path_join (log_dir r) log_filename in
  Audit.append_line fs log_path log_entry.

Definition retrieve `{VectorStore} (r : DocumentRetriever) (clock : Audit.Clock)
  (query : string) (top_k_arg : option nat) (filter_metadata : option Filter)
  (priority_boost : bool) (fs : Audit.FS)
  : result (list RetrievedChunk * Audit.FS) :=
  let chunks := retrieved_chunks r query top_k_arg filter_metadata priority_boost in
  fs' ← _log_retrieval r clock query chunks filter_metadata fs;
  mret (chunks, fs').

End Retriever.

(** ** The chunker ([backend/ingest.py]) *)

Module Ingest.

(** [tiktoken.get_encoding("cl100k_base")] *)
Class Tokenizer : Type := {
  tok_encode : string -> list Z;
  tok_decode : list Z -> string
}.

(** The [metadata] of a chunk: [{}], [{"blocks": ...}] for a PDF page or
    [{"filepath": ...}] for an image. *)
Inductive ChunkMeta : Type :=
| NoMeta
| Blocks (blocks : list string)
| Filepath (filepath : string).

Record DocumentChunk : Type := mkDocumentChunk {
  chunk_id : string;
  filename : string;
  page : Z;
  chunk_text : string;
  token_count : nat;
  chunk_index : Z;
  file_type : string;
  priority : string;
  trusted : bool;
  metadata : ChunkMeta
}.

Record DocumentIngestor : Type := mkIngestor {
  chunk_size : Z;
  chunk_overlap : Z
}.

(** [DocumentIngestor.__init__]: the two numbers are stored as they come. *)
Definition DocumentIngestor_init (chunk_size chunk_overlap : Z) : DocumentIngestor :=
  mkIngestor chunk_size chunk_overlap.

Definition default_ingestor : DocumentIngestor := DocumentIngestor_init 600 100.

(** What is common to all the chunks of one call of [_chunk_text]. *)
Record Provenance : Type := mkProvenance {
  p_filename : string;
  p_page : Z;
  p_file_type : string;
  p_priority : string;
  p_trusted : bool;
  p_metadata : ChunkMeta
}.

(** The body of the [while] loop, up to [chunks.append(chunk)]. *)
Definition make_chunk `{Tokenizer} (ing : DocumentIngestor) (pv : Provenance)
  (tokens : list Z) (start chunk_idx : Z) : DocumentChunk :=
  let end_ := Z.min (start + chunk_size ing) (Z.of_nat (List.length tokens)) in
  let chunk_tokens := Py.slice tokens start end_ in
  let chunk_text := tok_decode chunk_tokens in
  let chunk_id :=
    p_filename pv +:+ "_p" +:+ Py.str_of_Z (p_page pv)
      +:+ "_c" +:+ Py.str_of_Z chunk_idx in
  mkDocumentChunk chunk_id (p_filename pv) (p_page pv) (Py.strip chunk_text)
    (List.length chunk_tokens) chunk_idx (p_file_type pv) (p_priority pv)
    (p_trusted pv) (p_metadata pv).

(** [while start < len(tokens): ...].  [fuel] bounds the number of turns;
    [None] means that the loop is still running after [fuel] turns. *)
Fixpoint chunk_loop `{Tokenizer} (ing : DocumentIngestor) (pv : Provenance)
  (tokens : list Z) (fuel : nat) (start chunk_idx : Z)
  : option (list DocumentChunk) :=
  if (start <? Z.of_nat (List.length tokens))%Z then
    match fuel with
    | O => None
    | S fuel' =>
        let chunk := make_chunk ing pv tokens start chunk_idx in
        chunks ← chunk_loop ing pv tokens fuel'
                   (start + (chunk_size ing - chunk_overlap ing))%Z
                   (chunk_idx + 1)%Z;
        Some (chunk :: chunks)
    end
  else Some [].

Definition _chunk_text `{Tokenizer} (ing : DocumentIngestor) (fuel : nat)
  (text filename : string) (page : Z) (file_type priority : string)
  (trusted : bool) (metadata : ChunkMeta) : option (list DocumentChunk) :=
  let tokens := tok_encode text in
  chunk_loop ing (mkProvenance filename page file_type priority trusted metadata)
    tokens fuel 0 0.

(** *** The files *)

(** What the extraction libraries find in a file. *)
Record PdfPage : Type := mkPdfPage {
  page_text : string;          (* page.get_text("text") *)
  page_blocks : list string    (* page.get_text("dict")["blocks"] *)
}.

Inductive Document : Type :=
| PdfDocument (pages : list PdfPage)
| DocxDocument (paragraphs : list string)
| PptxDocument (slides : list (list (option string)))
    (* per slide, per shape: [shape.text] when the shape has one *)
| TextDocument (text : string)
| ImageDocument.

(** [os.path.basename] *)
Fixpoint basename (p : string) : string :=
  match p with
  | EmptyString => EmptyString
  | String c p' =>
      if Py.contains "/" p then basename p' else p
  end.

(** [os.path.splitext(name)[1]] for a name without directory: the suffix
    from the last dot on, unless only dots come before it. *)
Fixpoint ext_from (seen_other : bool) (name : string) : option string :=
  match name with
  | EmptyString => None
  | String c name' =>
      let is_dot := Ascii.eqb c "." in
      match ext_from (seen_other || negb is_dot) name' with
      | Some e => Some e
      | None => if is_dot && seen_other then Some name else None
      end
  end.

Definition splitext_ext (name : string) : string :=
  default EmptyString (ext_from false name).

(** Chunk the non-blank pages one after the other ([_ingest_pdf]). *)
Fixpoint pdf_pages `{Tokenizer} (ing : DocumentIngestor) (fuel : nat)
  (filename priority : string) (trusted : bool) (page_num : Z)
  (pages : list PdfPage) : option (list DocumentChunk) :=
  match pages with
  | [] => Some []
  | pg :: rest =>
      page_chunks ←
        (if Py.truthy (Py.strip (page_text pg)) then
           _chunk_text ing fuel (page_text pg) filename (page_num + 1)%Z "pdf"
             priority trusted (Blocks (page_blocks pg))
         else Some []);
      chunks ← pdf_pages ing fuel filename priority trusted (page_num + 1)%Z rest;
      Some (page_chunks ++ chunks)
  end.

Definition _ingest_pdf `{Tokenizer} (ing : DocumentIngestor) (fuel : nat)
  (pages : list PdfPage) (filename priority : string) (trusted : bool)
  : option (list DocumentChunk) :=
  pdf_pages ing fuel filename priority trusted 0 pages.

Definition _ingest_docx `{Tokenizer} (ing : DocumentIngestor) (fuel : nat)
  (paragraphs : list string) (filename priority : string) (trusted : bool)
  : option (list DocumentChunk) :=
  let full_text :=
    filter (fun para => Py.truthy (Py.strip para) = true) paragraphs in
  let text := Py.join (String "010"%char EmptyString) full_text in
  _chunk_text ing fuel text filename 1 "docx" priority trusted NoMeta.

(** [[shape.text for shape in slide.shapes if hasattr(shape, "text") and
    shape.text.strip()]] *)
Definition slide_texts (shapes : list (option string)) : list string :=
  omap (fun shape =>
          match shape with
          | Some t => if Py.truthy (Py.strip t) then Some t else None
          | None => None
          end) shapes.

Fixpoint pptx_slides `{Tokenizer} (ing : DocumentIngestor) (fuel : nat)
  (filename priority : string) (trusted : bool) (slide_num : Z)
  (slides : list (list (option string))) : option (list DocumentChunk) :=
  match slides with
  | [] => Some []
  | slide :: rest =>
      slide_chunks ←
        (match slide_texts slide with
         | [] => Some []
         | slide_text =>
             _chunk_text ing fuel (Py.join (String "010"%char EmptyString) slide_text)
               filename slide_num "pptx" priority trusted NoMeta
         end);
      chunks ← pptx_slides ing fuel filename priority trusted (slide_num + 1)%Z rest;
      Some (slide_chunks ++ chunks)
  end.

Definition _ingest_pptx `{Tokenizer} (ing : DocumentIngestor) (fuel : nat)
  (slides : list (list (option string))) (filename priority : string)
  (trusted : bool) : option (list DocumentChunk) :=
  pptx_slides ing fuel filename priority trusted 1 slides.

Definition _ingest_text `{Tokenizer} (ing : DocumentIngestor) (fuel : nat)
  (text : string) (filename priority : string) (trusted : bool)
  : option (list DocumentChunk) :=
  _chunk_text ing fuel text filename 1 "txt" priority trusted NoMeta.

Definition _ingest_image (filepath filename priority : string) (trusted : bool)
  : list DocumentChunk :=
  [mkDocumentChunk (filename +:+ "_img_1") filename 1
     ("[IMAGE: " +:+ filename +:+ " - requires OCR processing]")
     0 0 "image" priority trusted (Filepath filepath)].

(** [ingest_file]: the extension chooses the reader; a reader that is
    given a file of another kind raises.  The outer [option] is [None]
    when a chunking loop is still running after [fuel] turns. *)
Definition ingest_file `{Tokenizer} (ing : DocumentIngestor) (fuel : nat)
  (filepath : string) (content : Document) (priority : string) (trusted : bool)
  : option (result (list DocumentChunk)) :=
  let filename := basename filepath in
  let ext := Py.lower (splitext_ext filename) in
  if String.eqb ext ".pdf" then
    match content with
    | PdfDocument pages => Ok <$> _ingest_pdf ing fuel pages filename priority trusted
    | _ => Some (Raise (ValueError "cannot open the file as a PDF document"))
    end
  else if String.eqb ext ".docx" then
    match content with
    | DocxDocument paragraphs =>
        Ok <$> _ingest_docx ing fuel paragraphs filename priority trusted
    | _ => Some (Raise (ValueError "cannot open the file as a DOCX document"))
    end
  else if String.eqb ext ".pptx" then
    match content with
    | PptxDocument slides =>
        Ok <$> _ingest_pptx ing fuel slides filename priority trusted
    | _ => Some (Raise (ValueError "cannot open the file as a PPTX document"))
    end
  else if String.eqb ext ".txt" || String.eqb ext ".text" then
    match content with
    | TextDocument text => Ok <$> _ingest_text ing fuel text filename priority trusted
    | _ => Some (Raise (ValueError "cannot decode the file as text"))
    end
  else if String.eqb ext ".png" || String.eqb ext ".jpg" || String.eqb ext ".jpeg" then
    Some (Ok (_ingest_image filepath filename priority trusted))
  else Some (Raise (ValueError ("Unsupported file type: " +:+ ext))).

End Ingest.

(** ** The solution parser ([backend/generator.py]) *)

Module Generator.

Record SolutionStep : Type := mkSolutionStep {
  step_num : nat;
  text : string;
  citations : list string;
  unsupported : bool
}.

(** *** [_extract_citations]: [re.findall(r'\[doc:[^\]]+\]', text)] *)

(** The longest prefix without a closing bracket, and what follows it. *)
Fixpoint span_not_close (s : string) : string * string :=
  match s with
  | EmptyString => (EmptyString, EmptyString)
  | String c s' =>
      if Ascii.eqb c "]" then (EmptyString, s)
      else let '(body, rest) := span_not_close s' in (String c body, rest)
  end.

Fixpoint drop_chars (n : nat) (s : string) : string :=
  match n, s with
  | O, _ => s
  | S _, EmptyString => EmptyString
  | S n', String _ s' => drop_chars n' s'
  end.

(** A match of the pattern at the very start of [s]. *)
Definition match_citation (s : string) : option string :=
  if Py.startswith "[doc:" s then
    let '(body, rest) := span_not_close (drop_chars 5 s) in
    if Py.truthy body && Py.startswith "]" rest
    then Some ("[doc:" +:+ body +:+ "]")
    else None
  else None.

(** The scan of [findall]: matches do not overlap; [skip] characters are
    still inside the last match. *)
Fixpoint findall_citations (skip : nat) (s : string) : list string :=
  match s with
  | EmptyString => []
  | String _ s' =>
      match skip with
      | S k => findall_citations k s'
      | O =>
          match match_citation s with
          | Some m => m :: findall_citations (String.length m - 1) s'
          | None => findall_citations 0 s'
          end
      end
  end.

Definition _extract_citations (text : string) : list string :=
  findall_citations 0 text.

(** *** [parse_solution_steps] *)

(** The dictionary appended at each of the three flushes. *)
Definition make_step (step_num : nat) (current_step : list string) : SolutionStep :=
  let text := Py.join (String "010"%char EmptyString) current_step in
  mkSolutionStep step_num text (_extract_citations text)
    (Py.contains "(UNSUPPORTED)" text).

(** [line[0].isdigit() and ('. ' in line or ') ' in line)] *)
Definition is_numbered_step (line : string) : bool :=
  match line with
  | EmptyString => false
  | String c _ => Py.isdigit c && (Py.contains ". " line || Py.contains ") " line)
  end.

Record ParseState : Type := mkParseState {
  steps : list SolutionStep;
  current_step : list string;
  counter : nat   (* the variable [step_num] *)
}.

(** [if current_step: steps.append({...})] *)
Definition flushed (st : ParseState) : list SolutionStep :=
  match current_step st with
  | [] => steps st
  | cur => steps st ++ [make_step (counter st) cur]
  end.

(** One turn of [for line in lines]. *)
Definition parse_line (st : ParseState) (line : string) : ParseState :=
  let line := Py.strip line in
  if negb (Py.truthy line) then
    mkParseState (flushed st) [] (counter st)
  else if is_numbered_step line then
    mkParseState (flushed st) [line] (counter st + 1)
  else
    mkParseState (steps st) (current_step st ++ [line]) (counter st).

Definition parse_solution_steps (solution_text : string) : list SolutionStep :=
  let lines := Py.split_on "010"%char solution_text in
  flushed (fold_left parse_line lines (mkParseState [] [] 0)).

End Generator.

(** ** The parsing rule as the specification words it

    The text is cut into lines; the steps are the groups of consecutive
    non-blank lines, a group being closed by a blank line, by a line that
    begins a new step or by the end of the text.  A step carries the
    number of step-beginning lines read so far.  The rule is stated for
    any test [begins] of "this line begins a new step" and any cleaning
    [clean] applied to a line before it is looked at. *)

Module ParserSpec.

Section Rule.
Variable begins : string -> bool.
Variable clean : string -> string.

(** The groups of lines, the first group being the one still open on the
    left; a blank line and a beginning line leave an empty group behind. *)
Fixpoint groups (lines : list string) : list (list string) :=
  match lines with
  | [] => [[]]
  | line :: rest =>
      let line := clean line in
      match groups rest with
      | [] => [[]]
      | g :: gs =>
          if negb (Py.truthy line) then [] :: g :: gs
          else if begins line then [] :: (line :: g) :: gs
          else (line :: g) :: gs
      end
  end.

(** Number the non-empty groups: a group headed by a beginning line
    takes the next number, any other group the current one. *)
Fixpoint number_groups (n : nat) (gs : list (list string))
  : list Generator.SolutionStep :=
  match gs with
  | [] => []
  | [] :: gs' => number_groups n gs'
  | (line :: g) :: gs' =>
      let n' := if begins line then S n else n in
      Generator.make_step n' (line :: g) :: number_groups n' gs'
  end.

Definition parse (solution_text : string) : list Generator.SolutionStep :=
  number_groups 0 (groups (Py.split_on "010"%char solution_text)).

(** The same numbering when the first group is the step being read: it
    keeps the current number whatever its first line is. *)
Definition number_open (n : nat) (gs : list (list string))
  : list Generator.SolutionStep :=
  match gs with
  | [] => []
  | [] :: gs' => number_groups n gs'
  | g :: gs' => Generator.make_step n g :: number_groups n gs'
  end.

(** The lines read so far into the current step come before the first
    group of the lines still to read. *)
Definition attach (cur : list string) (gs : list (list string))
  : list (list string) :=
  match gs with
  | [] => [cur]
  | g :: gs' => (cur ++ g) :: gs'
  end.

End Rule.

(** "A line starting with a digit followed by [". "] or [") "]". *)
Definition digit_then_marker (line : string) : bool :=
  match line with
  | String c rest =>
      Py.isdigit c && (Py.startswith ". " rest || Py.startswith ") " rest)
  | EmptyString => false
  end.

(** The rule as stated, on lines stripped of surrounding white space. *)
Definition parse_as_stated : string -> list Generator.SolutionStep :=
  parse digit_then_marker Py.strip.

End ParserSpec.

(** ** Words of the specification about the validator and the logs *)

Module ValidatorSpec.
Import Validator.

(** The text of a step, [step.get('text', '')]. *)
Definition text_of (step : StepDict) : string := default EmptyString (s_text step).

(** A step is non-empty when its text is not made of white space only. *)
Definition non_empty (step : StepDict) : bool :=
  Py.truthy (Py.strip (text_of step)).

(** A step is supported when the textual or the symbolic check
    supports it. *)
Definition supported_by_either `{SentenceEncoder} `{MathOracle}
  (v : StepValidator) (retrieved_chunks : list ChunkDict) (step : StepDict) : bool :=
  let chunk_texts := map c_chunk_text retrieved_chunks in
  ts_supported (_check_textual_support v (text_of step) chunk_texts retrieved_chunks)
  || ss_supported (_check_symbolic_support (text_of step) chunk_texts).

(** The entry that [validate_solution] records for a non-empty step. *)
Definition entry_of `{SentenceEncoder} `{MathOracle}
  (v : StepValidator) (retrieved_chunks : list ChunkDict) (step : StepDict)
  : StepValidation :=
  validation_entry step (text_of step)
    (_validate_step v (text_of step) (map c_chunk_text retrieved_chunks)
       retrieved_chunks).

(** The files of the day. *)
Definition validation_log (v : StepValidator) (clock : Audit.Clock) : string :=
  Audit.path_join (Validator.log_dir v)
    ("validation_" +:+ Audit.utc_yyyymmdd clock +:+ ".jsonl").

Definition retrieval_log (r : Retriever.DocumentRetriever) (clock : Audit.Clock)
  : string :=
  Audit.path_join (Retriever.log_dir r)
    ("retrieval_" +:+ Audit.utc_yyyymmdd clock +:+ ".jsonl").

(** The file system after one more line in the file [path]. *)
Definition with_line (fs : Audit.FS) (path : string) (line : Audit.LogRecord)
  : Audit.FS :=
  Audit.mkFS
    (<[path := default [] (Audit.files fs !! path) ++ [line]]> (Audit.files fs))
    (Audit.unwritable fs).

End ValidatorSpec.

(** ** Words of the specification about the retriever *)

Module RetrieverSpec.
Import Retriever.

(** "1.1 if trusted else 1.0" *)
Definition trust_weight (trusted : bool) : Q :=
  if trusted then (11 # 10)%Q else 1%Q.

(** The score of every result is at least the score of the next one. *)
Definition descending (score : RetrievedChunk -> Q) (l : list RetrievedChunk) : Prop :=
  forall i x y, l !! i = Some x -> l !! S i = Some y -> (score y <= score x)%Q.

(** The chunk [c] was built from the hit [hit] of the store. *)
Definition from_hit (has_distances : bool) (c : RetrievedChunk) (hit : Hit) : Prop :=
  chunk_id c = h_id hit /\ chunk_text c = h_document hit /\
  metadata c = h_metadata hit /\
  similarity c = (if has_distances then (1 - h_distance hit)%Q else 1%Q).

(** The guarantee of the store: the hits come by ascending distance. *)
Definition nearest_first (answer : QueryResult) : Prop :=
  Sorted Qle (map h_distance (q_rows answer)).

End RetrieverSpec.

(** ** The token spans of the chunks *)

Module ChunkSpec.

(** The stride of the sliding window, in tokens. *)
Definition stride (ing : Ingest.DocumentIngestor) : Z :=
  (Ingest.chunk_size ing - Ingest.chunk_overlap ing)%Z.

(** The tokens of the window number [k]: at most [chunk_size] tokens
    from position [k * stride] on. *)
Definition window (ing : Ingest.DocumentIngestor) (tokens : list Z) (k : nat) : list Z :=
  firstn (Z.to_nat (Ingest.chunk_size ing))
         (skipn (k * Z.to_nat (stride ing)) tokens).

(** The number of windows whose start lies inside [len] tokens. *)
Definition window_count (ing : Ingest.DocumentIngestor) (len : nat) : nat :=
  Z.to_nat ((Z.of_nat len + stride ing - 1) / stride ing).

(** Two consecutive spans overlap by exactly [o] tokens: the last [o]
    tokens of the first are the first [o] tokens of the second. *)
Definition overlap_exactly {A} (o : nat) (w1 w2 : list A) : Prop :=
  (o <= List.length w1)%nat /\ (o <= List.length w2)%nat /\
  skipn (List.length w1 - o) w1 = firstn o w2.

(** Glue the spans back together, each one after the first without its
    leading [o] tokens. *)
Definition reassemble {A} (o : nat) (ws : list (list A)) : list A :=
  match ws with
  | [] => []
  | w :: ws' => w ++ concat (map (skipn o) ws')
  end.

End ChunkSpec.

(** ** Sample collaborators

    Small collaborators on which the functions can be run. *)

Module Sample.

(** A tokenizer with one token per character. *)
Fixpoint codes (s : string) : list Z :=
  match s with
  | EmptyString => []
  | String c s' => Z.of_nat (nat_of_ascii c) :: codes s'
  end.

Fixpoint chars (l : list Z) : string :=
  match l with
  | [] => EmptyString
  | n :: l' => String (ascii_of_nat (Z.to_nat n)) (chars l')
  end.

Definition char_tokenizer : Ingest.Tokenizer :=
  {| Ingest.tok_encode := codes; Ingest.tok_decode := chars |}.

(** An embedding model that finds every chunk at similarity [q]. *)
Definition flat_encoder (q : Q) : Validator.SentenceEncoder :=
  {| Validator.embedding := unit;
     Validator.encode := fun _ => tt;
     Validator.cosine_similarity := fun _ _ => q |}.

(** An embedding model whose similarity is read off the chunk: the
    number of characters of the chunk, in hundredths. *)
Definition length_encoder : Validator.SentenceEncoder :=
  {| Validator.embedding := nat;
     Validator.encode := String.length;
     Validator.cosine_similarity :=
       fun _ c => (Z.of_nat c # 100)%Q |}.

(** No mathematics is ever found. *)
Definition no_math : Validator.MathOracle :=
  {| Validator.math_pattern_matches := fun _ => [];
     Validator.sympy_difference_is_zero := fun _ _ => None |}.

(** Every text is one expression, compared as normalized strings. *)
Definition whole_text_math : Validator.MathOracle :=
  {| Validator.math_pattern_matches := fun t => [t];
     Validator.sympy_difference_is_zero := fun _ _ => None |}.

Definition clock : Audit.Clock := Audit.mkClock "2024-05-01T10:00:00" "20240501".

Definition empty_fs : Audit.FS := Audit.mkFS ∅ ∅.

(** A file system on which neither log of the day can be opened. *)
Definition readonly_fs : Audit.FS :=
  Audit.mkFS ∅ {[ "./logs/validation_20240501.jsonl";
                  "./logs/retrieval_20240501.jsonl" ]}.

Definition step (n : Z) (t : string) : Validator.StepDict :=
  Validator.mkStep (Some n) (Some t) (Some []) (Some false).

Definition chunk (t : string) : Validator.ChunkDict :=
  Validator.mkChunk t (Some "doc_p1_c0").

(** A store with three hits, nearest first. *)
Definition hits : list Retriever.Hit :=
  [ Retriever.mkHit "a_p1_c0" "alpha"
      (mkMetadata (Some "a.txt") (Some 1%Z) (Some "normal") (Some false)) (1 # 10);
    Retriever.mkHit "b_p1_c0" "beta"
      (mkMetadata (Some "b.txt") (Some 1%Z) (Some "rubric") (Some true)) (2 # 10);
    Retriever.mkHit "c_p1_c0" "gamma"
      (mkMetadata (Some "c.txt") (Some 1%Z) None None) (5 # 10) ].

Definition store : Retriever.VectorStore :=
  {| Retriever.collection_query := fun _ n _ =>
       Retriever.mkQueryResult (firstn n hits) true |}.

Definition retriever : Retriever.DocumentRetriever :=
  Retriever.mkRetriever 10 "./logs".

End Sample.

(** ** [validate_strict_mode] ([backend/validator.py]) *)

Module StrictMode.

(** The dictionary that [parse_solution_steps] appends, as the validator
    reads it. *)
Definition step_dict (s : Generator.SolutionStep) : Validator.StepDict :=
  Validator.mkStep (Some (Z.of_nat (Generator.step_num s)))
    (Some (Generator.text s)) (Some (Generator.citations s))
    (Some (Generator.unsupported s)).

(** [validate_strict_mode(solution_text, chunks, generator)], with the
    parser of [LLMGenerator] and the validator of [StepValidator()]. *)
Definition validate_strict_mode `{Validator.SentenceEncoder} `{Validator.MathOracle}
  (clock : Audit.Clock) (solution_text : string)
  (chunks : list Validator.ChunkDict) (fs : Audit.FS)
  : result (bool * string * Audit.FS) :=
  let steps := map step_dict (Generator.parse_solution_steps solution_text) in
  let validator := Validator.default_validator in
  out ← Validator.validate_solution validator clock steps chunks "strict" fs;
  match Validator.status out.1 with
  | PASSED => mret (true, solution_text, out.2)
  | _ => mret (false, "No supported solution found in resources.", out.2)
  end.

End StrictMode.

(** ** Words about strings *)

Module PySpec.

(** The string [s] does not hold the character [c]. *)
Fixpoint lacks (c : ascii) (s : string) : Prop :=
  match s with
  | EmptyString => True
  | String x s' => x <> c /\ lacks c s'
  end.

End PySpec.

(** ** Words about where a pattern can begin *)

Module StringSpec.

(** No occurrence of [p] in [a +:+ s] begins inside [a]. *)
Fixpoint starts_nowhere (p a s : string) : Prop :=
  match a with
  | EmptyString => True
  | String _ a' =>
      Py.startswith p (a +:+ s)%string = false /\ starts_nowhere p a' s
  end.

(** The string is empty or begins with a character that [p] lacks. *)
Definition begins_outside (p s : string) : Prop :=
  match s with
  | EmptyString => True
  | String x _ => PySpec.lacks x p
  end.

(** [p] without its first character. *)
Definition tail (p : string) : string :=
  match p with
  | EmptyString => EmptyString
  | String _ p' => p'
  end.

(** Every character of [s] passes the test [P]. *)
Fixpoint all_chars (P : ascii -> bool) (s : string) : Prop :=
  match s with
  | EmptyString => True
  | String c s' => P c = true /\ all_chars P s'
  end.

End StringSpec.

(** ** Words about the chunks of one file *)

Module IngestSpec.

(** [f"{filename}_p{page}_c{chunk_idx}"] *)
Definition chunk_id_of (filename : string) (page chunk_idx : Z) : string :=
  (filename +:+ "_p" +:+ Py.str_of_Z page +:+ "_c" +:+ Py.str_of_Z chunk_idx)%string.

(** The chunk is named after its file, its page and its index. *)
Definition well_named (filename : string) (c : Ingest.DocumentChunk) : Prop :=
  Ingest.chunk_id c
  = chunk_id_of filename (Ingest.page c) (Ingest.chunk_index c).

(** [a] comes before [b]: on an earlier page, or on the same page with a
    smaller index. *)
Definition page_then_index (a b : Ingest.DocumentChunk) : Prop :=
  (Ingest.page a < Ingest.page b)%Z \/
  (Ingest.page a = Ingest.page b /\ (Ingest.chunk_index a < Ingest.chunk_index b)%Z).

(** The tokens [toks] are a run of consecutive tokens of [tokens]. *)
Definition run_of (toks tokens : list Z) : Prop :=
  exists before after, tokens = before ++ toks ++ after.

(** The chunk [c] was cut out of [tokens] and stamped with [pv]. *)
Definition made_from `{Ingest.Tokenizer} (pv : Ingest.Provenance) (tokens : list Z)
  (c : Ingest.DocumentChunk) : Prop :=
  Ingest.filename c = Ingest.p_filename pv /\
  Ingest.page c = Ingest.p_page pv /\
  Ingest.file_type c = Ingest.p_file_type pv /\
  Ingest.priority c = Ingest.p_priority pv /\
  Ingest.trusted c = Ingest.p_trusted pv /\
  Ingest.metadata c = Ingest.p_metadata pv /\
  exists toks,
    run_of toks tokens /\
    Ingest.token_count c = List.length toks /\
    Ingest.chunk_text c = Py.strip (Ingest.tok_decode toks).

(** The chunk bears the file name, the priority and the trust. *)
Definition stamped (filename priority : string) (trusted : bool)
  (c : Ingest.DocumentChunk) : Prop :=
  Ingest.filename c = filename /\
  Ingest.priority c = priority /\
  Ingest.trusted c = trusted.

End IngestSpec.

(** ** The chunks as text for the model ([format_retrieved_chunks] of
    [backend/retrieve.py] and [_format_chunks] of [backend/generator.py]) *)

Module Prompt.

Definition nl : string := String "010"%char EmptyString.

(** [f"[doc:{filename} | p:{page} | chunk:{chunk_id}]"] *)
Definition citation (filename : string) (page : Z) (chunk_id : string) : string :=
  ("[doc:" +:+ filename +:+ " | p:" +:+ Py.str_of_Z page
     +:+ " | chunk:" +:+ chunk_id +:+ "]")%string.

(** *** [format_retrieved_chunks] *)

(** [entry] of one turn of the loop. *)
Definition entry (chunk : Retriever.RetrievedChunk) : string :=
  let metadata := Retriever.metadata chunk in
  let chunk_text := Retriever.chunk_text chunk in
  let citation :=
    citation (default "unknown" (m_filename metadata))
      (default 0%Z (m_page metadata)) (Retriever.chunk_id chunk) in
  (citation +:+ nl +:+ chunk_text +:+ nl)%string.

(** The loop: [formatted] grows until an entry would pass [max_length]. *)
Fixpoint format_loop (max_length total_length : Z)
  (chunks : list Retriever.RetrievedChunk) : list string :=
  match chunks with
  | [] => []
  | chunk :: rest =>
      let entry := entry chunk in
      if (total_length + Z.of_nat (String.length entry) >? max_length)%Z then []
      else entry :: format_loop max_length
                      (total_length + Z.of_nat (String.length entry)) rest
  end.

Definition format_retrieved_chunks (chunks : list Retriever.RetrievedChunk)
  (max_length : Z) : string :=
  Py.join (nl +:+ "---" +:+ nl)%string (format_loop max_length 0 chunks).

(** *** [_format_chunks] *)

(** A chunk dictionary as [_format_chunks] reads it, with [chunk.get]. *)
Record ChunkDict : Type := mkChunkDict {
  d_metadata : option Metadata;
  d_chunk_text : option string;
  d_chunk_id : option string
}.

Definition empty_metadata : Metadata := mkMetadata None None None None.

(** The citation of a chunk in the prompt. *)
Definition citation_of (chunk : ChunkDict) : string :=
  let metadata := default empty_metadata (d_metadata chunk) in
  let chunk_id := default "unknown" (d_chunk_id chunk) in
  let filename := default "unknown" (m_filename metadata) in
  let page := default 0%Z (m_page metadata) in
  citation filename page chunk_id.

(** [f"Chunk {i}: {citation}\n{chunk_text}"] *)
Definition block (i : nat) (chunk : ChunkDict) : string :=
  let chunk_text := default EmptyString (d_chunk_text chunk) in
  ("Chunk " +:+ Py.str_of_nat i +:+ ": " +:+ citation_of chunk
     +:+ nl +:+ chunk_text)%string.

(** [for i, chunk in enumerate(chunks, 1)] *)
Definition _format_chunks (chunks : list ChunkDict) : string :=
  Py.join (nl +:+ nl +:+ "---" +:+ nl +:+ nl)%string
    (imap (fun i chunk => block (i + 1) chunk) chunks).

(** The dictionary of a retrieved chunk. *)
Definition of_retrieved (chunk : Retriever.RetrievedChunk) : ChunkDict :=
  mkChunkDict (Some (Retriever.metadata chunk)) (Some (Retriever.chunk_text chunk))
    (Some (Retriever.chunk_id chunk)).

End Prompt.

(** ** Words about the formatted chunks *)

Module PromptSpec.

(** The number of characters of the strings of [l]. *)
Definition total_length (l : list string) : nat :=
  foldr (fun s n => (String.length s + n)%nat) 0%nat l.

(** What the citation of a chunk is built from can be quoted: the file
    name and the chunk identifier hold no closing bracket, and the text
    of the chunk holds no ["[doc:"]. *)
Definition quotable (chunk : Prompt.ChunkDict) : Prop :=
  let metadata := default Prompt.empty_metadata (Prompt.d_metadata chunk) in
  PySpec.lacks "]" (default "unknown" (m_filename metadata)) /\
  PySpec.lacks "]" (default "unknown" (Prompt.d_chunk_id chunk)) /\
  Py.contains "[doc:" (default EmptyString (Prompt.d_chunk_text chunk)) = false.

End PromptSpec.

(** ** Built-in functions of Python used by the indexer and by the
    context window *)

Module Builtins.

(** [list(range(start, stop, step))] *)
Definition range (start stop step : Z) : result (list Z) :=
  if (step =? 0)%Z then Raise (ValueError "range() arg 3 must not be zero")
  else
    let count :=
      if (0 <? step)%Z then ((stop - start + step - 1) / step)%Z
      else ((start - stop - step - 1) / (- step))%Z in
    Ok (map (fun j => (start + Z.of_nat j * step)%Z) (seq 0 (Z.to_nat count))).

(** [s.split(sep)] for a separator that is not empty: the pieces between
    the occurrences of [sep], found from left to right without overlap.
    [skip] counts the characters of an occurrence still to pass. *)
Fixpoint split_str (sep : string) (skip : nat) (s : string) : list string :=
  match s with
  | EmptyString => [EmptyString]
  | String c s' =>
      match skip with
      | S k => split_str sep k s'
      | O =>
          if Py.startswith sep s then
            EmptyString :: split_str sep (String.length sep - 1) s'
          else
            match split_str sep 0 s' with
            | p :: ps => String c p :: ps
            | [] => [String c EmptyString]
            end
      end
  end.

Definition is_decimal (c : ascii) : bool :=
  let n := nat_of_ascii c in (48 <=? n)%nat && (n <=? 57)%nat.

(** The digits of a literal, without the underscores: an underscore
    stands between two digits. *)
Fixpoint int_digits (after_digit : bool) (s : string) : option string :=
  match s with
  | EmptyString => if after_digit then Some EmptyString else None
  | String c s' =>
      if Ascii.eqb c "_" then
        if after_digit then int_digits false s' else None
      else if is_decimal c then String c <$> int_digits true s'
      else None
  end.

(** [int(s)]: white space around the literal, one sign, decimal digits.
    Integers are unbounded, as for [str]: the limit that recent
    versions of Python put on the number of digits is left out, and so
    is the text of the literal in the message. *)
Definition int (s : string) : result Z :=
  let t := Py.strip s in
  let '(negative, body) :=
    match t with
    | String c r =>
        if Ascii.eqb c "-" then (true, r)
        else if Ascii.eqb c "+" then (false, r)
        else (false, t)
    | EmptyString => (false, t)
    end in
  match int_digits false body ≫= NilEmpty.uint_of_string with
  | Some d => Ok (if negative then (- Z.of_uint d)%Z else Z.of_uint d)
  | None => Raise (ValueError "invalid literal for int() with base 10")
  end.

End Builtins.

(** ** The indexer ([backend/embed_and_index.py]) *)

Module Indexer.

(** [self.embed_batch(texts)] *)
Class Embedder : Type := {
  embed_batch : list string -> list (list Q)
}.

(** The metadata dictionary built for a chunk; [i_custom] holds the
    entries [meta_<key>]. *)
Record IndexedMetadata : Type := mkIndexedMetadata {
  i_filename : string;
  i_page : Z;
  i_chunk_index : Z;
  i_file_type : string;
  i_priority : string;
  i_trusted : bool;
  i_token_count : nat;
  i_custom : list (string * string)
}.

(** [if chunk.metadata: for key, value in chunk.metadata.items(): if
    isinstance(value, (str, int, float, bool)): ...]: the empty
    dictionary is skipped, the blocks of a PDF page are a list and are
    left out, the path of an image is a string and is kept. *)
Definition custom_metadata (m : Ingest.ChunkMeta) : list (string * string) :=
  match m with
  | Ingest.NoMeta => []
  | Ingest.Blocks _ => []
  | Ingest.Filepath filepath => [("meta_filepath", filepath)]
  end.

Definition metadata_of (chunk : Ingest.DocumentChunk) : IndexedMetadata :=
  mkIndexedMetadata (Ingest.filename chunk) (Ingest.page chunk)
    (Ingest.chunk_index chunk) (Ingest.file_type chunk) (Ingest.priority chunk)
    (Ingest.trusted chunk) (Ingest.token_count chunk)
    (custom_metadata (Ingest.metadata chunk)).

(** The arguments of one call of [self.collection.add]. *)
Record AddCall : Type := mkAddCall {
  a_ids : list string;
  a_embeddings : list (list Q);
  a_documents : list string;
  a_metadatas : list IndexedMetadata
}.

(** The body of the loop for one batch, up to the call. *)
Definition add_call `{Embedder} (batch : list Ingest.DocumentChunk) : AddCall :=
  let chunk_ids := map Ingest.chunk_id batch in
  let texts := map Ingest.chunk_text batch in
  let embeddings := embed_batch texts in
  let metadatas := map metadata_of batch in
  mkAddCall chunk_ids embeddings texts metadatas.

(** One turn of [for i in range(0, len(chunks), batch_size)]; the state
    is the calls made so far and [indexed_count]. *)
Definition index_batch `{Embedder} (chunks : list Ingest.DocumentChunk)
  (batch_size : Z) (st : list AddCall * nat) (i : Z) : list AddCall * nat :=
  let batch := Py.slice chunks i (i + batch_size) in
  (st.1 ++ [add_call batch], (st.2 + List.length batch)%nat).

(** [index_chunks]: the calls of [collection.add], in order, and the
    number returned, when the store accepts every call. *)
Definition index_chunks `{Embedder} (chunks : list Ingest.DocumentChunk)
  (batch_size : Z) : result (list AddCall * nat) :=
  match chunks with
  | [] => Ok ([], 0%nat)
  | _ =>
      starts ← Builtins.range 0 (Z.of_nat (List.length chunks)) batch_size;
      mret (fold_left (index_batch chunks batch_size) starts ([], 0%nat))
  end.

(** The stored metadata as the retriever reads it back. *)
Definition as_retrieved (m : IndexedMetadata) : Metadata :=
  mkMetadata (Some (i_filename m)) (Some (i_page m)) (Some (i_priority m))
    (Some (i_trusted m)).

End Indexer.

(** ** The context window and the chunks of a page
    ([get_context_window] and [retrieve_by_page] of [backend/retrieve.py]) *)

Module Pages.

(** One entry of the parallel lists [ids], [documents] and [metadatas]
    of [collection.get]. *)
Record Row : Type := mkRow {
  r_id : string;
  r_document : string;
  r_metadata : Metadata
}.

Class PageStore : Type := {
  (* indexer.collection.get(where={"$and": [{"filename": f}, {"page": p}]}) *)
  collection_get_page : string -> Z -> list Row;
  (* indexer.collection.get(ids=ids), which can raise *)
  collection_get_ids : list string -> result (list Row);
  (* indexer.embed_text(text) *)
  embed_text : string -> list Q;
  (* np.linalg.norm(v) *)
  linalg_norm : list Q -> Q
}.

(** *** [get_context_window] *)

Record ContextChunk : Type := mkContextChunk {
  x_chunk_id : string;
  x_chunk_text : string;
  x_metadata : Metadata;
  x_rank : nat
}.

(** The body of [for offset in range(-window_size, window_size + 1)]. *)
Definition adjacent_id (chunk_id base : string) (chunk_index offset : Z)
  : option string :=
  if (offset =? 0)%Z then Some chunk_id
  else
    let new_index := (chunk_index + offset)%Z in
    if (new_index >=? 0)%Z then Some (base +:+ "_c" +:+ Py.str_of_Z new_index)%string
    else None.

Definition context_chunks (rows : list Row) : list ContextChunk :=
  imap (fun i row => mkContextChunk (r_id row) (r_document row) (r_metadata row) i)
    rows.

Definition get_context_window `{PageStore} (chunk_id : string) (window_size : Z)
  : result (list ContextChunk) :=
  let parts := Builtins.split_str "_c" 0 chunk_id in
  match parts with
  | [base; tail] =>
      chunk_index ← Builtins.int tail;
      offsets ← Builtins.range (- window_size) (window_size + 1) 1;
      let adjacent_ids := omap (adjacent_id chunk_id base chunk_index) offsets in
      match collection_get_ids adjacent_ids with
      | Ok rows => mret (context_chunks rows)
      | Raise _ => mret []
      end
  | _ => mret []
  end.

(** *** [retrieve_by_page] *)

Record PageChunk : Type := mkPageChunk {
  g_chunk_id : string;
  g_chunk_text : string;
  g_metadata : Metadata;
  g_similarity : Q;
  g_rank : nat
}.

(** [np.dot(v1, v2)] for two vectors of one length. *)
Definition dot (v1 v2 : list Q) : Q :=
  foldr Qplus 0%Q (zip_with Qmult v1 v2).

Definition _cosine_similarity `{PageStore} (vec1 vec2 : list Q) : Q :=
  let dot_product := dot vec1 vec2 in
  let norm_product := (linalg_norm vec1 * linalg_norm vec2)%Q in
  if Qeq_bool norm_product 0 then 0%Q
  else (dot_product / norm_product)%Q.

Definition page_chunk (i : nat) (row : Row) : PageChunk :=
  mkPageChunk (r_id row) (r_document row) (r_metadata row) 1%Q i.

Definition set_similarity (similarity : Q) (chunk : PageChunk) : PageChunk :=
  mkPageChunk (g_chunk_id chunk) (g_chunk_text chunk) (g_metadata chunk)
    similarity (g_rank chunk).

Definition set_page_rank (i : nat) (chunk : PageChunk) : PageChunk :=
  mkPageChunk (g_chunk_id chunk) (g_chunk_text chunk) (g_metadata chunk)
    (g_similarity chunk) i.

(** The first loop under [if query and chunks]. *)
Definition score `{PageStore} (query : string) (chunk : PageChunk) : PageChunk :=
  let query_embedding := embed_text query in
  let chunk_embedding := embed_text (g_chunk_text chunk) in
  set_similarity (_cosine_similarity query_embedding chunk_embedding) chunk.

Definition retrieve_by_page `{PageStore} (filename : string) (page : Z)
  (query : option string) : list PageChunk :=
  let results := collection_get_page filename page in
  let chunks := imap page_chunk results in
  match query, chunks with
  | Some query, _ :: _ =>
      if Py.truthy query then
        let chunks := map (score query) chunks in
        let chunks := Retriever.sort_desc g_similarity chunks in
        imap set_page_rank chunks
      else chunks
  | _, _ => chunks
  end.

End Pages.

(** ** Words about the context window *)

Module PagesSpec.

(** The indices from [chunk_index - window_size] to
    [chunk_index + window_size] that are not negative. *)
Definition neighbours (chunk_index window_size : Z) : list Z :=
  filter (fun j => (0 <= j)%Z)
    (map (fun k => (chunk_index - window_size + Z.of_nat k)%Z)
       (seq 0 (Z.to_nat (2 * window_size + 1)))).

(** What [get_context_window] makes of the answer of the store. *)
Definition answer (rows : result (list Pages.Row)) : list Pages.ContextChunk :=
  match rows with
  | Ok rows => Pages.context_chunks rows
  | Raise _ => []
  end.

End PagesSpec.

(** ** More sample collaborators and data *)

Module Fixtures.

(** Two chunks of equal similarity: a plain untrusted one, then a
    trusted rubric. *)
Definition plain_hit : Retriever.RetrievedChunk :=
  Retriever.mkRetrieved "a_p1_c0" "alpha"
    (mkMetadata (Some "a.txt") (Some 1%Z) (Some "normal") (Some false))
    (1 # 2) (1 # 2) 0 None None.

Definition rubric_hit : Retriever.RetrievedChunk :=
  Retriever.mkRetrieved "b_p1_c0" "beta"
    (mkMetadata (Some "b.txt") (Some 1%Z) (Some "rubric") (Some true))
    (1 # 2) (1 # 2) 1 None None.

Definition equal_hits : list Retriever.RetrievedChunk := [plain_hit; rubric_hit].

(** Three trusted slides, nearest first. *)
Definition slide_hits : list Retriever.RetrievedChunk :=
  [ Retriever.mkRetrieved "s_p1_c0" "one"
      (mkMetadata (Some "s.pptx") (Some 1%Z) (Some "slides") (Some true))
      (1 # 10) (9 # 10) 0 None None;
    Retriever.mkRetrieved "s_p2_c0" "two"
      (mkMetadata (Some "s.pptx") (Some 2%Z) (Some "slides") (Some true))
      (3 # 10) (7 # 10) 1 None None;
    Retriever.mkRetrieved "s_p3_c0" "three"
      (mkMetadata (Some "s.pptx") (Some 3%Z) (Some "slides") (Some true))
      (3 # 10) (7 # 10) 2 None None ].

(** A chunker with windows of two tokens that overlap by one. *)
Definition small_ingestor : Ingest.DocumentIngestor := Ingest.DocumentIngestor_init 2 1.

(** A PDF file of three pages, the second one blank. *)
Definition pdf_pages : list Ingest.PdfPage :=
  [ Ingest.mkPdfPage "ab" ["block 1"]; Ingest.mkPdfPage " " [];
    Ingest.mkPdfPage "cde" ["block 2"; "block 3"] ].

(** A PPTX file of two slides, the first one without text. *)
Definition pptx_slides : list (list (option string)) :=
  [ [None; Some " "]; [Some "xy"; None; Some "z"] ].

(** An embedding of one coordinate: the length of the text. *)
Definition length_embedder : Indexer.Embedder :=
  {| Indexer.embed_batch :=
       map (fun t => [inject_Z (Z.of_nat (String.length t))]) |}.

Definition rows : list Pages.Row :=
  [ Pages.mkRow "notes.pdf_p1_c0" "a"
      (mkMetadata (Some "notes.pdf") (Some 1%Z) (Some "normal") (Some true));
    Pages.mkRow "notes.pdf_p1_c1" "bcd"
      (mkMetadata (Some "notes.pdf") (Some 1%Z) (Some "normal") (Some true)) ].

(** A store that holds [rows] on page 1 of every file, answers a
    request by identifiers with the rows it knows, and embeds a text as
    its length and one; in place of the norm it takes the sum of the
    squares. *)
Definition page_store : Pages.PageStore :=
  {| Pages.collection_get_page := fun _ page => if (page =? 1)%Z then rows else [];
     Pages.collection_get_ids := fun ids =>
       Ok (filter (fun r => Pages.r_id r ∈ ids) rows);
     Pages.embed_text := fun t => [inject_Z (Z.of_nat (String.length t)); 1%Q];
     Pages.linalg_norm := fun v => foldr (fun x s => (x * x + s)%Q) 0%Q v |}.

(** Two chunks to show to the model. *)
Definition prompt_chunks : list Prompt.ChunkDict :=
  [ Prompt.mkChunkDict
      (Some (mkMetadata (Some "notes.pdf") (Some 3%Z) None None))
      (Some "The roots are [1, 2].") (Some "notes.pdf_p3_c0");
    Prompt.mkChunkDict None None None ].

End Fixtures.

(** * Properties *)

(** ** Strings *)

Lemma isspace_lower_char c : Py.isspace (Py.lower_char c) = Py.isspace c.
Proof.
  destruct c as [[] [] [] [] [] [] [] []]; reflexivity.
Qed.

Lemma split_runs_lower_length s : forall cur cur',
  (cur = EmptyString <-> cur' = EmptyString) ->
  List.length (Py.split_runs cur' (Py.lower s)) = List.length (Py.split_runs cur s).
Proof.
  induction s as [|c s IH]; intros cur cur' Hc; simpl.
  - destruct cur, cur'; simpl; try reflexivity.
    + destruct Hc as [Hc _]. discriminate (Hc eq_refl).
    + destruct Hc as [_ Hc]. discriminate (Hc eq_refl).
  - rewrite isspace_lower_char. destruct (Py.isspace c).
    + destruct cur, cur'; simpl.
      * apply IH. tauto.
      * destruct Hc as [Hc _]. discriminate (Hc eq_refl).
      * destruct Hc as [_ Hc]. discriminate (Hc eq_refl).
      * f_equal. apply IH. tauto.
    + apply IH. split; discriminate.
Qed.

(** Lower-casing does not change the number of words. *)
Lemma split_lower_length s :
  List.length (Py.split (Py.lower s)) = List.length (Py.split s).
Proof. apply split_runs_lower_length. tauto. Qed.

Lemma startswith_spec p : forall s,
  Py.startswith p s = true <-> exists b, s = (p +:+ b)%string.
Proof.
  induction p as [|a p IH]; intros s; simpl.
  - split; [intros _; exists s; reflexivity | reflexivity].
  - destruct s as [|c s]; simpl.
    + split; [discriminate | intros [b Hb]; discriminate].
    + rewrite andb_true_iff, IH, Ascii.eqb_eq. split.
      * intros [-> [b ->]]. exists b. reflexivity.
      * intros [b Hb]. injection Hb as -> ->. eauto.
Qed.

(** [p in s] holds exactly when [p] occurs somewhere in [s]. *)
Lemma contains_spec p s :
  Py.contains p s = true <-> exists a b, s = (a +:+ p +:+ b)%string.
Proof.
  induction s as [|c s IH].
  - simpl. rewrite orb_false_r, startswith_spec. split.
    + intros [b Hb]. exists EmptyString, b. exact Hb.
    + intros [a [b Hb]]. destruct a; [exists b; exact Hb|discriminate].
  - change (Py.contains p (String c s))
      with (Py.startswith p (String c s) || Py.contains p s).
    rewrite orb_true_iff, IH, startswith_spec. split.
    + intros [[b Hb] | [a [b Hb]]].
      * exists EmptyString, b. exact Hb.
      * exists (String c a), b. simpl. now rewrite Hb.
    + intros [a [b Hb]]. destruct a as [|c' a].
      * left. exists b. exact Hb.
      * right. simpl in Hb. injection Hb as -> ->. eauto.
Qed.

(** ** The step validator *)

Section ValidatorFacts.
Import Validator.

Lemma size_list_to_set_le (l : list string) :
  size (list_to_set l : gset string) <= List.length l.
Proof.
  induction l as [|x l IH].
  - rewrite list_to_set_nil, size_empty. simpl. lia.
  - rewrite list_to_set_cons, size_union_alt, size_singleton. simpl.
    assert (size (list_to_set l ∖ {[x]} : gset string)
            <= size (list_to_set l : gset string))
      by (apply subseteq_size; intros y Hy;
          apply elem_of_difference in Hy as [Hy _]; exact Hy).
    lia.
Qed.

Lemma ngram_list_length tokens n :
  List.length (ngram_list tokens n)
  = Z.to_nat (Z.of_nat (List.length tokens) - Z.of_nat n + 1).
Proof. unfold ngram_list. now rewrite length_map, length_seq. Qed.

(** A text has at most (number of words - n + 1) distinct n-grams. *)
Lemma ngrams_size_le tokens n :
  size (ngrams tokens n)
  <= Z.to_nat (Z.of_nat (List.length tokens) - Z.of_nat n + 1).
Proof.
  unfold ngrams. rewrite <- ngram_list_length. apply size_list_to_set_le.
Qed.

Lemma overlap_le_ngrams text1 text2 n :
  _compute_ngram_overlap_n text1 text2 n
  <= size (ngrams (Py.split (Py.lower text1)) n).
Proof.
  unfold _compute_ngram_overlap_n. apply subseteq_size.
  intros y Hy. apply elem_of_intersection in Hy as [Hy _]. exact Hy.
Qed.

Context `{SentenceEncoder} `{MathOracle}.

Lemma validate_step_supported v step_text chunk_texts chunks_metadata :
  sc_supported (_validate_step v step_text chunk_texts chunks_metadata)
  = ts_supported (_check_textual_support v step_text chunk_texts chunks_metadata)
    || ss_supported (_check_symbolic_support step_text chunk_texts).
Proof.
  unfold _validate_step.
  destruct (ts_supported _); [reflexivity|].
  destruct (ss_supported _); reflexivity.
Qed.

(** [np.argmax] returns the position of a largest entry. *)
Lemma argmax_from_spec l : forall best_idx best i,
  let j := argmax_from best_idx best i l in
  (j = best_idx /\ Forall (fun y => (y <= best)%Q) l) \/
  (exists k, j = (i + k)%nat /\ (k < List.length l)%nat /\
     (best <= nth k l 0%Q)%Q /\ Forall (fun y => (y <= nth k l 0%Q)%Q) l).
Proof.
  induction l as [|a l IH]; intros best_idx best i; simpl.
  - left. split; [reflexivity | constructor].
  - destruct (Qle_bool a best) eqn:Hab.
    + apply Qle_bool_iff in Hab.
      destruct (IH best_idx best (S i)) as [[Hj Hall] | (k & Hj & Hk & Hb & Hall)].
      * left. split; [exact Hj | constructor; assumption].
      * right. exists (S k). simpl. repeat split; [lia | lia | exact Hb |].
        constructor; [eapply Qle_trans; eassumption | exact Hall].
    + assert (Hlt : (best <= a)%Q).
      { apply Qlt_le_weak, Qnot_le_lt. intros Hle.
        apply Qle_bool_iff in Hle. congruence. }
      destruct (IH i a (S i)) as [[Hj Hall] | (k & Hj & Hk & Hb & Hall)].
      * right. exists 0%nat. simpl. repeat split; [lia | lia | exact Hlt |].
        constructor; [apply Qle_refl | exact Hall].
      * right. exists (S k). simpl. repeat split; [lia | lia | |].
        -- eapply Qle_trans; eassumption.
        -- constructor; assumption.
Qed.

Lemma argmax_spec (l : list Q) :
  l <> [] ->
  (argmax l < List.length l)%nat /\
  Forall (fun y => (y <= nth (argmax l) l 0%Q)%Q) l.
Proof.
  destruct l as [|x l]; [congruence | intros _]. unfold argmax.
  destruct (argmax_from_spec l 0%nat x 1%nat)
    as [[Hj Hall] | (k & Hj & Hk & Hb & Hall)]; rewrite Hj; simpl.
  - split; [lia | constructor; [apply Qle_refl | exact Hall]].
  - split; [lia | constructor; assumption].
Qed.

Lemma similarities_length step_text chunk_texts :
  List.length (similarities step_text chunk_texts) = List.length chunk_texts.
Proof. unfold similarities. now rewrite !length_map. Qed.

Lemma confidence_of_HIGH v q :
  confidence_of v q = HIGH <-> (85 # 100 <= q)%Q.
Proof.
  unfold confidence_of. rewrite <- Qle_bool_iff.
  destruct (Qle_bool (85 # 100) q); [tauto|].
  destruct (Qle_bool (sim_threshold v) q); split; discriminate.
Qed.

Lemma confidence_of_MEDIUM v q :
  confidence_of v q = MEDIUM <-> (sim_threshold v <= q)%Q /\ (q < 85 # 100)%Q.
Proof.
  unfold confidence_of.
  destruct (Qle_bool (85 # 100) q) eqn:Hh.
  - apply Qle_bool_iff in Hh. split; [discriminate|].
    intros [_ Hlt]. exfalso. eapply Qlt_not_le; eassumption.
  - assert (q < 85 # 100)%Q.
    { apply Qnot_le_lt. intros Hle. apply Qle_bool_iff in Hle. congruence. }
    rewrite <- Qle_bool_iff.
    destruct (Qle_bool (sim_threshold v) q); split; try tauto; try discriminate.
    intros [? _]; discriminate.
Qed.

Lemma confidence_of_LOW v q :
  confidence_of v q = LOW <-> (q < 85 # 100)%Q /\ (q < sim_threshold v)%Q.
Proof.
  unfold confidence_of.
  destruct (Qle_bool (85 # 100) q) eqn:Hh.
  - apply Qle_bool_iff in Hh. split; [discriminate|].
    intros [Hlt _]. exfalso. eapply Qlt_not_le; eassumption.
  - assert (q < 85 # 100)%Q.
    { apply Qnot_le_lt. intros Hle. apply Qle_bool_iff in Hle. congruence. }
    destruct (Qle_bool (sim_threshold v) q) eqn:Ht.
    + apply Qle_bool_iff in Ht. split; [discriminate|].
      intros [_ Hlt]. exfalso. eapply Qlt_not_le; eassumption.
    + split; [intros _|reflexivity]. split; [assumption|].
      apply Qnot_le_lt. intros Hle. apply Qle_bool_iff in Hle. congruence.
Qed.

End ValidatorFacts.

Section ValidatorClaims.
Import Validator.
Context `{SentenceEncoder} `{MathOracle}.

(** C5.  For every step and every non-empty chunk list, the textual
    check takes the chunk of largest embedding similarity; the step is
    supported exactly when that similarity reaches [sim_threshold] and
    the 3-gram overlap with that chunk reaches [min_ngram_overlap]
    (0.78 and 6 by default).  The confidence is HIGH exactly from 0.85
    on, MEDIUM exactly from [sim_threshold] up to 0.85, LOW otherwise,
    whatever the overlap is; and some step is reported MEDIUM yet
    unsupported. *)
Theorem C5_textual_support_and_confidence
  (v : StepValidator) (step_text : string) (chunk_texts : list string)
  (chunks_metadata : list ChunkDict) :
  chunk_texts <> [] ->
  let r := _check_textual_support v step_text chunk_texts chunks_metadata in
  let sims := similarities step_text chunk_texts in
  (exists best_idx best_chunk,
     chunk_texts !! best_idx = Some best_chunk /\
     sims !! best_idx = Some (ts_similarity r) /\
     Forall (fun s => (s <= ts_similarity r)%Q) sims /\
     (ts_supported r = true <->
        (sim_threshold v <= ts_similarity r)%Q /\
        (min_ngram_overlap v <= _compute_ngram_overlap step_text best_chunk)%nat)) /\
  (ts_confidence r = HIGH <-> (85 # 100 <= ts_similarity r)%Q) /\
  (ts_confidence r = MEDIUM <->
     (sim_threshold v <= ts_similarity r)%Q /\ (ts_similarity r < 85 # 100)%Q) /\
  (ts_confidence r = LOW <->
     ~ (85 # 100 <= ts_similarity r)%Q /\ ~ (sim_threshold v <= ts_similarity r)%Q) /\
  (sim_threshold default_validator = (78 # 100)%Q /\
   min_ngram_overlap default_validator = 6%nat) /\
  (exists (E : SentenceEncoder) step chunks meta,
     chunks <> [] /\
     let r' := @_check_textual_support E default_validator step chunks meta in
     ts_confidence r' = MEDIUM /\ ts_supported r' = false).
Proof.
  intros Hne r sims.
  assert (Hs : sims <> []).
  { intros Hnil. apply Hne. apply (f_equal (@List.length Q)) in Hnil.
    unfold sims in Hnil. rewrite similarities_length in Hnil.
    destruct chunk_texts; [reflexivity | discriminate]. }
  destruct (argmax_spec sims Hs) as [Hlt Hmax].
  assert (Hr : r = mkTextSupport
                 (Qle_bool (sim_threshold v) (nth (argmax sims) sims 0%Q)
                  && (min_ngram_overlap v <=?
                        _compute_ngram_overlap step_text
                          (nth (argmax sims) chunk_texts EmptyString))%nat)
                 (nth (argmax sims) sims 0%Q)
                 (Some (_compute_ngram_overlap step_text
                          (nth (argmax sims) chunk_texts EmptyString)))
                 (confidence_of v (nth (argmax sims) sims 0%Q))
                 (ts_chunk_id r)).
  { unfold r, _check_textual_support. destruct chunk_texts; [congruence|].
    reflexivity. }
  assert (Hsim : ts_similarity r = nth (argmax sims) sims 0%Q)
    by (rewrite Hr; reflexivity).
  assert (Hsup : ts_supported r
                 = Qle_bool (sim_threshold v) (ts_similarity r)
                   && (min_ngram_overlap v <=?
                         _compute_ngram_overlap step_text
                           (nth (argmax sims) chunk_texts EmptyString))%nat)
    by (rewrite Hsim, Hr; reflexivity).
  assert (Hconf : ts_confidence r = confidence_of v (ts_similarity r))
    by (rewrite Hsim, Hr; reflexivity).
  split; [|split; [|split; [|split; [|split]]]].
  - exists (argmax sims), (nth (argmax sims) chunk_texts EmptyString).
    split; [|split; [|split]].
    + destruct (nth_lookup_or_length chunk_texts (argmax sims) EmptyString) as [Hl|Hl];
        [exact Hl|].
      pose proof (similarities_length step_text chunk_texts) as Hlen.
      fold sims in Hlen. lia.
    + rewrite Hsim.
      destruct (nth_lookup_or_length sims (argmax sims) 0%Q) as [Hl|Hl];
        [exact Hl | lia].
    + rewrite Hsim. exact Hmax.
    + rewrite Hsup, andb_true_iff, Qle_bool_iff, Nat.leb_le. tauto.
  - rewrite Hconf. apply confidence_of_HIGH.
  - rewrite Hconf. apply confidence_of_MEDIUM.
  - rewrite Hconf, confidence_of_LOW. split.
    + intros [H1 H2]. split; apply Qlt_not_le; assumption.
    + intros [H1 H2]. split; apply Qnot_le_lt; assumption.
  - split; reflexivity.
  - exists (Sample.flat_encoder (80 # 100)), "Divide both sides by two",
      ["The quadratic formula gives both roots"],
      [Sample.chunk "The quadratic formula gives both roots"].
    split; [discriminate|]. split; vm_compute; reflexivity.
Qed.

(** C10.  With 3-grams and [min_ngram_overlap = 6], a step of fewer than
    8 words has at most 5 distinct 3-grams; its overlap with any chunk
    is below 6, the textual check never supports it whatever the
    similarities are, and if the step is supported at all it is by the
    symbolic check. *)
Theorem C10_short_steps_need_symbolic_support
  (v : StepValidator) (step_text : string) (chunk_texts : list string)
  (chunks_metadata : list ChunkDict) :
  min_ngram_overlap v = 6%nat ->
  (List.length (Py.split step_text) < 8)%nat ->
  (size (ngrams (Py.split (Py.lower step_text)) 3) <= 5)%nat /\
  (forall chunk, (_compute_ngram_overlap step_text chunk < 6)%nat) /\
  ts_supported (_check_textual_support v step_text chunk_texts chunks_metadata)
    = false /\
  (sc_supported (_validate_step v step_text chunk_texts chunks_metadata) = true ->
   sc_support_type (_validate_step v step_text chunk_texts chunks_metadata)
     = symbolic /\
   ss_supported (_check_symbolic_support step_text chunk_texts) = true).
Proof.
  intros Hmin Hlen.
  assert (Hsize : (size (ngrams (Py.split (Py.lower step_text)) 3) <= 5)%nat).
  { pose proof (ngrams_size_le (Py.split (Py.lower step_text)) 3) as Hle.
    rewrite split_lower_length in Hle. lia. }
  assert (Hov : forall chunk, (_compute_ngram_overlap step_text chunk < 6)%nat).
  { intros chunk. unfold _compute_ngram_overlap.
    pose proof (overlap_le_ngrams step_text chunk 3). lia. }
  assert (Hts : ts_supported
                  (_check_textual_support v step_text chunk_texts chunks_metadata)
                = false).
  { unfold _check_textual_support. destruct chunk_texts as [|c cs]; [reflexivity|].
    cbn [ts_supported]. rewrite Hmin.
    match goal with
    | |- _ && (6 <=? ?o)%nat = false =>
        assert (Ho : (6 <=? o)%nat = false) by (apply Nat.leb_gt, Hov);
        rewrite Ho
    end.
    apply andb_false_r. }
  repeat split; try assumption.
  - unfold _validate_step in *. rewrite Hts in *.
    destruct (ss_supported _); [reflexivity | discriminate].
  - rewrite validate_step_supported, Hts in H1. exact H1.
Qed.

End ValidatorClaims.

Section ValidationLoop.
Import Validator ValidatorSpec.
Context `{SentenceEncoder} `{MathOracle}.
Variable v : StepValidator.
Variable retrieved_chunks : list ChunkDict.

Local Abbreviation chunk_texts := (map c_chunk_text retrieved_chunks).
Local Abbreviation entry := (entry_of v retrieved_chunks).

Lemma entry_supported step :
  supported (entry step) = supported_by_either v retrieved_chunks step.
Proof. apply validate_step_supported. Qed.

(** The loop keeps the non-empty steps, in order, and [all_supported]
    is the conjunction of their verdicts. *)
Lemma validation_loop steps : forall acc b,
  fold_left (validate_one v chunk_texts retrieved_chunks) steps (acc, b)
  = (acc ++ map entry (filter (fun s => non_empty s = true) steps),
     b && forallb (supported_by_either v retrieved_chunks)
            (filter (fun s => non_empty s = true) steps)).
Proof.
  induction steps as [|step steps IH]; intros acc b; simpl.
  - now rewrite app_nil_r, andb_true_r.
  - rewrite filter_cons.
    assert (Hone : validate_one v chunk_texts retrieved_chunks (acc, b) step
                   = if non_empty step
                     then (acc ++ [entry step],
                           b && supported_by_either v retrieved_chunks step)
                     else (acc, b)).
    { unfold validate_one, non_empty, entry_of. fold (text_of step).
      destruct (Py.truthy (Py.strip (text_of step))); simpl; [|reflexivity].
      f_equal. rewrite <- entry_supported. unfold entry_of. simpl.
      destruct (sc_supported _); simpl; [now rewrite andb_true_r|].
      now rewrite andb_false_r. }
    rewrite Hone.
    destruct (decide (non_empty step = true)) as [Hn|Hn].
    + rewrite Hn, IH. simpl. now rewrite <- app_assoc, andb_assoc.
    + apply not_true_is_false in Hn. rewrite Hn. apply IH.
Qed.

Lemma count_supported_entries steps :
  count_supported (map entry steps)
  = List.length (filter (fun s => supported_by_either v retrieved_chunks s = true) steps).
Proof.
  unfold count_supported. induction steps as [|s steps IH]; [reflexivity|].
  simpl map. rewrite !filter_cons, entry_supported.
  destruct (decide (supported_by_either v retrieved_chunks s = true)); simpl;
    now rewrite IH.
Qed.

Lemma forallb_count (f : StepDict -> bool) l :
  forallb f l = true <-> List.length (filter (fun s => f s = true) l) = List.length l.
Proof.
  induction l as [|x l IH]; simpl; [tauto|].
  rewrite filter_cons. pose proof (length_filter (fun s => f s = true) l).
  destruct (decide (f x = true)) as [Hx|Hx].
  - rewrite Hx. simpl. rewrite IH. split; lia.
  - apply not_true_is_false in Hx. rewrite Hx. simpl. split; [discriminate|lia].
Qed.

(** The result dictionary, field by field. *)
Lemma validation_result_fields steps mode :
  let kept := filter (fun s => non_empty s = true) steps in
  let r := validation_result v steps retrieved_chunks mode in
  step_validations r = map entry kept /\
  all_supported r = forallb (supported_by_either v retrieved_chunks) kept /\
  total_steps r = List.length kept /\
  supported_steps r
  = List.length (filter (fun s => supported_by_either v retrieved_chunks s = true) kept) /\
  Validator.mode r = mode /\
  (status r, message r)
  = (if String.eqb mode "strict" && negb (all_supported r) then
       (FAILED, "No supported solution found in resources.")
     else if String.eqb mode "strict" && all_supported r then
       (PASSED, "All steps validated against resources.")
     else
       (if (supported_steps r <? total_steps r)%nat then PARTIAL else PASSED,
        Py.str_of_nat (supported_steps r) +:+ "/" +:+ Py.str_of_nat (total_steps r)
          +:+ " steps supported by resources.")).
Proof.
  intros kept r. unfold r, validation_result.
  rewrite validation_loop. simpl app. rewrite andb_true_l. fold kept.
  destruct (String.eqb mode "strict" && negb (forallb _ kept)) eqn:E1;
    [|destruct (String.eqb mode "strict" && forallb _ kept) eqn:E2];
    cbn [step_validations all_supported total_steps supported_steps
         Validator.mode status message];
    rewrite ?E1, ?E2, ?length_map, ?count_supported_entries; repeat split.
Qed.

End ValidationLoop.

Section ValidationClaims.
Import Validator ValidatorSpec.
Context `{SentenceEncoder} `{MathOracle}.

(** When the log of the day can be opened, the call returns the result
    dictionary and leaves one more line in that log. *)
Lemma validate_solution_returns v clock steps chunks mode fs :
  validation_log v clock ∉ Audit.unwritable fs ->
  exists fs',
    validate_solution v clock steps chunks mode fs
    = Ok (validation_result v steps chunks mode, fs').
Proof.
  intros Hw. unfold validate_solution, _log_validation, Audit.append_line.
  fold (validation_log v clock).
  destruct (decide (validation_log v clock ∈ Audit.unwritable fs)); [tauto|].
  eexists. reflexivity.
Qed.

(** C1.  In strict mode the call returns FAILED, with the message
    "No supported solution found in resources.", as soon as one
    non-empty step is supported by neither check; it returns PASSED when
    every non-empty step is supported by one of the two checks; it never
    returns PARTIAL. *)
Theorem C1_strict_mode_is_binary
  (v : StepValidator) (clock : Audit.Clock) (steps : list StepDict)
  (chunks : list ChunkDict) (fs : Audit.FS) :
  validation_log v clock ∉ Audit.unwritable fs ->
  exists r fs',
    validate_solution v clock steps chunks "strict" fs = Ok (r, fs') /\
    status r <> PARTIAL /\
    ((exists step, step ∈ steps /\ non_empty step = true /\
                   supported_by_either v chunks step = false) ->
     status r = FAILED /\
     message r = "No supported solution found in resources.") /\
    ((forall step, step ∈ steps -> non_empty step = true ->
                   supported_by_either v chunks step = true) ->
     status r = PASSED).
Proof.
  intros Hw.
  destruct (validate_solution_returns v clock steps chunks "strict" fs Hw)
    as [fs' Hret].
  exists (validation_result v steps chunks "strict"), fs'.
  split; [exact Hret|].
  destruct (validation_result_fields v chunks steps "strict")
    as (_ & Hall & _ & _ & _ & Hst).
  set (r := validation_result v steps chunks "strict") in *.
  rewrite Hall in Hst. simpl in Hst.
  set (kept := filter (fun s => non_empty s = true) steps) in *.
  destruct (forallb (supported_by_either v chunks) kept) eqn:Hf;
    simpl in Hst; injection Hst as Hs Hm.
  - split; [congruence|]. split; [|intros _; exact Hs].
    intros (step & Hin & Hne & Hun). exfalso.
    rewrite forallb_forall in Hf.
    assert (Hk : In step kept).
    { apply list_elem_of_In, list_elem_of_filter. split; assumption. }
    specialize (Hf step Hk). congruence.
  - split; [congruence|]. split; [intros _; split; assumption|].
    intros Hevery. exfalso.
    assert (Ht : forallb (supported_by_either v chunks) kept = true).
    { apply forallb_forall. intros step Hk.
      apply list_elem_of_In, list_elem_of_filter in Hk as [Hne Hin].
      apply Hevery; assumption. }
    congruence.
Qed.

(** C2.  In prefer mode the call returns PASSED exactly when
    [supported_steps = total_steps] and PARTIAL otherwise, never FAILED;
    the message reports the two counts as "supported/total"; the steps
    whose text is empty or white space are left out of the result and of
    [total_steps]. *)
Theorem C2_prefer_mode_never_fails
  (v : StepValidator) (clock : Audit.Clock) (steps : list StepDict)
  (chunks : list ChunkDict) (fs : Audit.FS) :
  validation_log v clock ∉ Audit.unwritable fs ->
  exists r fs',
    validate_solution v clock steps chunks "prefer" fs = Ok (r, fs') /\
    (status r = PASSED <-> supported_steps r = total_steps r) /\
    (supported_steps r <> total_steps r -> status r = PARTIAL) /\
    status r <> FAILED /\
    message r
    = Py.str_of_nat (supported_steps r) +:+ "/" +:+ Py.str_of_nat (total_steps r)
        +:+ " steps supported by resources." /\
    step_validations r
    = map (entry_of v chunks) (filter (fun s => non_empty s = true) steps) /\
    total_steps r = List.length (filter (fun s => non_empty s = true) steps) /\
    supported_steps r
    = List.length
        (filter (fun s => supported_by_either v chunks s = true)
                (filter (fun s => non_empty s = true) steps)).
Proof.
  intros Hw.
  destruct (validate_solution_returns v clock steps chunks "prefer" fs Hw)
    as [fs' Hret].
  exists (validation_result v steps chunks "prefer"), fs'.
  split; [exact Hret|].
  destruct (validation_result_fields v chunks steps "prefer")
    as (Hsv & _ & Htot & Hsup & _ & Hst).
  set (r := validation_result v steps chunks "prefer") in *.
  simpl in Hst. injection Hst as Hs Hm.
  assert (Hle : (supported_steps r <= total_steps r)%nat).
  { rewrite Hsup, Htot. apply length_filter. }
  destruct (supported_steps r <? total_steps r)%nat eqn:Hlt.
  - apply Nat.ltb_lt in Hlt.
    repeat split; try assumption; try congruence; try lia.
  - apply Nat.ltb_ge in Hlt.
    repeat split; try assumption; try congruence; try lia.
Qed.

End ValidationClaims.

(** ** The retriever *)

Section Sorting.
Import Retriever.
Context {A : Type} (key : A -> Q).

Local Abbreviation before := (fun x y : A => (key y <= key x)%Q).

Lemma insert_desc_perm x l : Permutation (insert_desc key x l) (x :: l).
Proof.
  induction l as [|y l IH]; simpl; [reflexivity|].
  destruct (Qle_bool (key y) (key x)); [reflexivity|].
  rewrite IH. apply perm_swap.
Qed.

Lemma sort_desc_perm l : Permutation (sort_desc key l) l.
Proof.
  induction l as [|x l IH]; simpl; [reflexivity|].
  rewrite insert_desc_perm. now constructor.
Qed.

Lemma insert_desc_HdRel y x l :
  before y x -> HdRel before y l -> HdRel before y (insert_desc key x l).
Proof.
  intros Hyx Hl. destruct l as [|z l]; simpl; [now constructor|].
  destruct (Qle_bool (key z) (key x)); constructor; [exact Hyx|].
  now inversion Hl.
Qed.

Lemma insert_desc_Sorted x l :
  Sorted before l -> Sorted before (insert_desc key x l).
Proof.
  induction 1 as [|y l Hs IH Hh]; simpl.
  - repeat constructor.
  - destruct (Qle_bool (key y) (key x)) eqn:Hyx.
    + apply Qle_bool_iff in Hyx. repeat constructor; assumption.
    + constructor; [exact IH|]. apply insert_desc_HdRel; [|exact Hh].
      apply Qlt_le_weak, Qnot_le_lt. intros Hle.
      apply Qle_bool_iff in Hle. congruence.
Qed.

Lemma sort_desc_Sorted l : Sorted before (sort_desc key l).
Proof.
  induction l as [|x l IH]; simpl; [constructor|].
  now apply insert_desc_Sorted.
Qed.

End Sorting.

(** In a sorted list every entry is related to the next one. *)
Lemma Sorted_lookup {A} (R : A -> A -> Prop) l : forall i x y,
  Sorted R l -> l !! i = Some x -> l !! S i = Some y -> R x y.
Proof.
  induction l as [|a l IH]; intros i x y Hs Hx Hy; [discriminate|].
  apply Sorted_inv in Hs as [Hs Hh].
  destruct i as [|i]; simpl in *.
  - injection Hx as ->. destruct l as [|b l]; [discriminate|].
    simpl in Hy. injection Hy as ->. now inversion Hh.
  - eapply IH; eassumption.
Qed.

Section RetrieverFacts.
Import Retriever RetrieverSpec.

Lemma boosted_key_set_rank i c : boosted_key (set_rank i c) = boosted_key c.
Proof. reflexivity. Qed.

(** After the boost the list is in descending boosted order, holds the
    same chunks with their two scores set, and is ranked by position. *)
Lemma apply_priority_boost_lookup chunks i c :
  _apply_priority_boost chunks !! i = Some c ->
  rank c = i /\
  exists c0, c0 ∈ chunks /\ c = set_rank i (set_boost c0).
Proof.
  unfold _apply_priority_boost. rewrite list_lookup_imap.
  destruct (sort_desc boosted_key (map set_boost chunks) !! i) as [c1|] eqn:Hc1;
    [|discriminate].
  simpl. intros [= <-]. split; [reflexivity|].
  assert (Hin : c1 ∈ map set_boost chunks).
  { rewrite <- (sort_desc_perm boosted_key). eapply list_elem_of_lookup_2, Hc1. }
  apply list_elem_of_fmap in Hin as (c0 & -> & Hin). eauto.
Qed.

Lemma apply_priority_boost_descending chunks :
  descending boosted_key (_apply_priority_boost chunks).
Proof.
  intros i x y Hx Hy. unfold _apply_priority_boost in *.
  rewrite list_lookup_imap in Hx, Hy.
  destruct (sort_desc boosted_key (map set_boost chunks) !! i) as [x1|] eqn:Hx1;
    [|discriminate].
  destruct (sort_desc boosted_key (map set_boost chunks) !! S i) as [y1|] eqn:Hy1;
    [|discriminate].
  simpl in Hx, Hy. injection Hx as <-. injection Hy as <-.
  rewrite !boosted_key_set_rank.
  exact (Sorted_lookup _ _ _ _ _ (sort_desc_Sorted boosted_key _) Hx1 Hy1).
Qed.

Lemma apply_priority_boost_length chunks :
  List.length (_apply_priority_boost chunks) = List.length chunks.
Proof.
  unfold _apply_priority_boost.
  rewrite length_imap, (Permutation_length (sort_desc_perm _ _)).
  apply length_map.
Qed.

Lemma descending_take score k l :
  descending score l -> descending score (take k l).
Proof.
  intros Hd i x y Hx Hy.
  apply lookup_take_Some in Hx as [Hx _]. apply lookup_take_Some in Hy as [Hy _].
  eapply Hd; eassumption.
Qed.

(** The boosted score is the product of the three factors. *)
Lemma set_boost_formula c :
  boosted_similarity (set_boost c)
  = Some (similarity c * boost_of (metadata c))%Q /\
  (similarity c * boost_of (metadata c)
   == similarity c
      * priority_weight (default "normal" (m_priority (metadata c)))
      * trust_weight (default true (m_trusted (metadata c))))%Q.
Proof.
  split; [reflexivity|]. unfold boost_of, trust_weight.
  destruct (default true (m_trusted (metadata c))).
  - apply Qmult_assoc.
  - symmetry. apply Qmult_1_r.
Qed.

(** Without distances every similarity is 1; with them the nearest hit
    has the largest similarity. *)
Lemma chunks_of_hits_descending answer :
  nearest_first answer ->
  descending similarity (imap (chunk_of_hit (q_has_distances answer)) (q_rows answer)).
Proof.
  intros Hn i x y Hx Hy. rewrite list_lookup_imap in Hx, Hy.
  destruct (q_rows answer !! i) as [hx|] eqn:Hhx; [|discriminate].
  destruct (q_rows answer !! S i) as [hy|] eqn:Hhy; [|discriminate].
  simpl in Hx, Hy. injection Hx as <-. injection Hy as <-. simpl.
  destruct (q_has_distances answer); [|apply Qle_refl].
  assert (Hd : (h_distance hx <= h_distance hy)%Q).
  { apply (Sorted_lookup Qle (map h_distance (q_rows answer)) i); [exact Hn| |].
    - change (map h_distance (q_rows answer)) with (h_distance <$> q_rows answer).
      now rewrite list_lookup_fmap, Hhx.
    - change (map h_distance (q_rows answer)) with (h_distance <$> q_rows answer).
      now rewrite list_lookup_fmap, Hhy. }
  unfold Qminus. apply Qplus_le_r, Qopp_le_compat, Hd.
Qed.

End RetrieverFacts.

Section RetrieverClaims.
Import Retriever RetrieverSpec ValidatorSpec.
Context `{VectorStore}.

Lemma retrieved_chunks_eq (r : DocumentRetriever) (query : string)
  (top_k_arg : option nat) (flt : option Filter) (boost : bool) :
  let k := default (top_k r) top_k_arg in
  let answer := collection_query query (if boost then 2 * k else k)%nat flt in
  let chunks := imap (chunk_of_hit (q_has_distances answer)) (q_rows answer) in
  retrieved_chunks r query top_k_arg flt boost
  = take k (if boost then _apply_priority_boost chunks else chunks).
Proof.
  intros k answer chunks. unfold retrieved_chunks, n_results. fold k.
  replace (k * 2)%nat with (2 * k)%nat by lia. fold answer. fold chunks.
  destruct chunks; destruct boost; reflexivity.
Qed.

Lemma retrieve_returns r clock query top_k_arg flt boost fs :
  retrieval_log r clock ∉ Audit.unwritable fs ->
  exists fs',
    retrieve r clock query top_k_arg flt boost fs
    = Ok (retrieved_chunks r query top_k_arg flt boost, fs').
Proof.
  intros Hw. unfold retrieve, _log_retrieval, Audit.append_line.
  fold (retrieval_log r clock).
  destruct (decide (retrieval_log r clock ∈ Audit.unwritable fs)); [tauto|].
  eexists. reflexivity.
Qed.

Lemma chunk_of_hit_from_hit (hd : bool) (hits : list Hit) (c : RetrievedChunk) :
  c ∈ imap (chunk_of_hit hd) hits ->
  exists hit, hit ∈ hits /\ from_hit hd c hit.
Proof.
  intros Hc. apply elem_of_lookup_imap_1 in Hc as (j & hit & -> & Hj).
  exists hit. split; [eapply list_elem_of_lookup_2, Hj|].
  repeat split.
Qed.

(** C4.  [retrieve] returns at most [top_k] chunks, each built from a
    hit of the store.  With the boost the store is asked for
    [2 * top_k] hits, every result carries
    [similarity * priority_weight * trust_weight] as boosted similarity
    (weights 1.3, 1.2, 1.1, 1.0 and 1.1 for trusted sources) and the
    results come in descending boosted order.  Without it the store is
    asked for [top_k] hits and, the store answering nearest first, the
    results come in descending similarity.  In both cases the result at
    position [i] has rank [i]. *)
Theorem C4_retrieve_ranking
  (r : DocumentRetriever) (clock : Audit.Clock) (query : string)
  (top_k_arg : option nat) (flt : option Filter) (boost : bool) (fs : Audit.FS) :
  retrieval_log r clock ∉ Audit.unwritable fs ->
  let k := default (top_k r) top_k_arg in
  let answer := collection_query query (if boost then 2 * k else k)%nat flt in
  exists result fs',
    retrieve r clock query top_k_arg flt boost fs = Ok (result, fs') /\
    (List.length result <= k)%nat /\
    List.length result = Nat.min k (List.length (q_rows answer)) /\
    (forall c, c ∈ result ->
       exists hit, hit ∈ q_rows answer /\ from_hit (q_has_distances answer) c hit) /\
    (forall i c, result !! i = Some c -> rank c = i) /\
    (boost = true ->
       (forall c, c ∈ result ->
          exists b, boosted_similarity c = Some b /\
            (b == similarity c
                  * priority_weight (default "normal" (m_priority (metadata c)))
                  * trust_weight (default true (m_trusted (metadata c))))%Q) /\
       descending boosted_key result) /\
    (boost = false -> nearest_first answer -> descending similarity result) /\
    (priority_weight "rubric" = (13 # 10)%Q /\ priority_weight "slides" = (12 # 10)%Q /\
     priority_weight "textbook" = (11 # 10)%Q /\ priority_weight "normal" = 1%Q).
Proof.
  intros Hw k answer.
  destruct (retrieve_returns r clock query top_k_arg flt boost fs Hw) as [fs' Hret].
  exists (retrieved_chunks r query top_k_arg flt boost), fs'.
  split; [exact Hret|].
  rewrite retrieved_chunks_eq. fold k. fold answer.
  set (chunks := imap (chunk_of_hit (q_has_distances answer)) (q_rows answer)).
  assert (Hlen : List.length (if boost then _apply_priority_boost chunks else chunks)
                 = List.length (q_rows answer)).
  { destruct boost; [rewrite apply_priority_boost_length|];
      unfold chunks; apply length_imap. }
  split; [rewrite length_take; lia|].
  split; [rewrite length_take, Hlen; reflexivity|].
  split; [|split; [|split; [|split]]].
  - intros c Hc. apply elem_of_take in Hc as (i & Hi & _).
    destruct boost.
    + apply apply_priority_boost_lookup in Hi as (_ & c0 & Hc0 & ->).
      apply chunk_of_hit_from_hit in Hc0 as (hit & Hhit & Hfrom).
      exists hit. split; [exact Hhit | exact Hfrom].
    + apply chunk_of_hit_from_hit. eapply list_elem_of_lookup_2, Hi.
  - intros i c Hi. apply lookup_take_Some in Hi as [Hi _].
    destruct boost.
    + now apply apply_priority_boost_lookup in Hi as [Hr _].
    + unfold chunks in Hi. rewrite list_lookup_imap in Hi.
      destruct (q_rows answer !! i); [|discriminate].
      simpl in Hi. now injection Hi as <-.
  - intros ->. split.
    + intros c Hc. apply elem_of_take in Hc as (i & Hi & _).
      apply apply_priority_boost_lookup in Hi as (_ & c0 & _ & ->).
      destruct (set_boost_formula c0) as [Hb Hf].
      exists (similarity c0 * boost_of (metadata c0))%Q.
      split; [exact Hb | exact Hf].
    + apply descending_take, apply_priority_boost_descending.
  - intros -> Hn. apply descending_take, chunks_of_hits_descending, Hn.
  - repeat split.
Qed.

End RetrieverClaims.

(** ** The audit log *)

Section LoggingClaims.
Import ValidatorSpec.
Context `{Validator.SentenceEncoder} `{Validator.MathOracle}
        `{Retriever.VectorStore}.

(** What appending one line does to the files. *)
Lemma append_line_cases fs path line :
  (path ∉ Audit.unwritable fs ->
   Audit.append_line fs path line = Ok (with_line fs path line)) /\
  (path ∈ Audit.unwritable fs ->
   Audit.append_line fs path line = Raise (OSError path)).
Proof.
  unfold Audit.append_line, with_line.
  destruct (decide (path ∈ Audit.unwritable fs)); split; tauto || reflexivity.
Qed.

Lemma with_line_files fs path line :
  Audit.files (with_line fs path line) !! path
  = Some (default [] (Audit.files fs !! path) ++ [line]) /\
  (forall other, other <> path ->
     Audit.files (with_line fs path line) !! other = Audit.files fs !! other) /\
  Audit.unwritable (with_line fs path line) = Audit.unwritable fs.
Proof.
  unfold with_line. simpl. split; [apply lookup_insert_eq|].
  split; [|reflexivity]. intros other Hne. now apply lookup_insert_ne.
Qed.

(** C8, as the code has it.  [validate_solution] and [retrieve] write
    their audit record before they return.  When the log of the day can
    be opened, the call returns its result and the record is the new
    last line of that file, every other file being untouched; when it
    cannot, the error of the write is the outcome of the call and no
    result is returned. *)
Theorem C8_log_write_decides_the_call
  (v : Validator.StepValidator) (r : Retriever.DocumentRetriever)
  (clock : Audit.Clock) (steps : list Validator.StepDict)
  (chunks : list Validator.ChunkDict) (mode query : string)
  (top_k_arg : option nat) (flt : option Filter) (boost : bool) (fs : Audit.FS) :
  let vres := Validator.validation_result v steps chunks mode in
  let vline :=
    Audit.ValidationRecord (Audit.utc_isoformat clock) (Validator.status vres)
      (Validator.mode vres) (Validator.total_steps vres)
      (Validator.supported_steps vres) (Validator.step_validations vres) in
  let rres := Retriever.retrieved_chunks r query top_k_arg flt boost in
  let rline :=
    Audit.RetrievalRecord (Audit.utc_isoformat clock) query (List.length rres) flt
      (map Retriever.log_row rres) in
  (validation_log v clock ∉ Audit.unwritable fs ->
   exists fs',
     Validator.validate_solution v clock steps chunks mode fs = Ok (vres, fs') /\
     Audit.files fs' !! validation_log v clock
     = Some (default [] (Audit.files fs !! validation_log v clock) ++ [vline]) /\
     (forall other, other <> validation_log v clock ->
        Audit.files fs' !! other = Audit.files fs !! other)) /\
  (validation_log v clock ∈ Audit.unwritable fs ->
   Validator.validate_solution v clock steps chunks mode fs
   = Raise (OSError (validation_log v clock))) /\
  (retrieval_log r clock ∉ Audit.unwritable fs ->
   exists fs',
     Retriever.retrieve r clock query top_k_arg flt boost fs = Ok (rres, fs') /\
     Audit.files fs' !! retrieval_log r clock
     = Some (default [] (Audit.files fs !! retrieval_log r clock) ++ [rline]) /\
     (forall other, other <> retrieval_log r clock ->
        Audit.files fs' !! other = Audit.files fs !! other)) /\
  (retrieval_log r clock ∈ Audit.unwritable fs ->
   Retriever.retrieve r clock query top_k_arg flt boost fs
   = Raise (OSError (retrieval_log r clock))).
Proof.
  intros vres vline rres rline.
  destruct (append_line_cases fs (validation_log v clock) vline) as [Hv1 Hv2].
  destruct (append_line_cases fs (retrieval_log r clock) rline) as [Hr1 Hr2].
  destruct (with_line_files fs (validation_log v clock) vline) as (Hvf & Hvo & _).
  destruct (with_line_files fs (retrieval_log r clock) rline) as (Hrf & Hro & _).
  split; [|split; [|split]].
  - intros Hw. exists (with_line fs (validation_log v clock) vline).
    split; [|split; assumption].
    unfold Validator.validate_solution, Validator._log_validation.
    fold (validation_log v clock). fold vres. fold vline.
    now rewrite (Hv1 Hw).
  - intros Hw.
    unfold Validator.validate_solution, Validator._log_validation.
    fold (validation_log v clock). fold vres. fold vline.
    now rewrite (Hv2 Hw).
  - intros Hw. exists (with_line fs (retrieval_log r clock) rline).
    split; [|split; assumption].
    unfold Retriever.retrieve, Retriever._log_retrieval.
    fold (retrieval_log r clock). fold rres. fold rline.
    now rewrite (Hr1 Hw).
  - intros Hw.
    unfold Retriever.retrieve, Retriever._log_retrieval.
    fold (retrieval_log r clock). fold rres. fold rline.
    now rewrite (Hr2 Hw).
Qed.

End LoggingClaims.

(** ** The chunker *)

(** Sliding windows over a list: [size] items every [step] items, where
    [step + lap = size]. *)
Section Windows.
Context {A : Type}.
Variables (l : list A) (size lap step : nat).
Hypothesis step_lap : (step + lap = size)%nat.
Hypothesis step_pos : (0 < step)%nat.

Local Abbreviation win := (fun k : nat => take size (drop (k * step) l)).

Lemma window_length k :
  List.length (win k) = Nat.min size (List.length l - k * step).
Proof. cbv beta. now rewrite length_take, length_drop. Qed.

(** What a window adds to the ones before it. *)
Lemma window_fresh_part k :
  drop lap (win (S k)) = take step (drop (size + k * step) l).
Proof.
  cbv beta. rewrite skipn_firstn_comm, drop_drop. f_equal; [lia | f_equal; lia].
Qed.

Lemma fresh_parts_concat m : forall a,
  concat (map (fun k => take step (drop (a + k * step) l)) (seq 0 m))
  = take (m * step) (drop a l).
Proof.
  induction m as [|m IH]; intros a; [reflexivity|].
  rewrite <- cons_seq, <- seq_shift. cbn [map concat]. rewrite map_map.
  rewrite (map_ext _ (fun k => take step (drop ((a + step) + k * step) l)))
    by (intros k; do 2 f_equal; lia).
  rewrite IH, Nat.add_0_r.
  replace (a + step)%nat with (a + step)%nat by reflexivity.
  rewrite <- (drop_drop l step a).
  replace (S m * step)%nat with (step + m * step)%nat by lia.
  apply take_take_drop.
Qed.

(** The windows, each after the first without its leading [lap] items,
    give the list back. *)
Lemma windows_reassemble n :
  (List.length l <= n * step)%nat ->
  ChunkSpec.reassemble lap (map win (seq 0 n)) = l.
Proof.
  intros Hn. destruct n as [|n].
  - destruct l; [reflexivity | simpl in Hn; lia].
  - rewrite <- cons_seq, <- seq_shift. cbn [map]. rewrite map_map.
    unfold ChunkSpec.reassemble.
    assert (Hgen : forall (f g : nat -> list A) xs,
               (forall k, f k = g k) -> concat (map f xs) = concat (map g xs))
      by (intros f g xs Hfg; f_equal; apply map_ext, Hfg).
    rewrite map_map.
    rewrite (Hgen _ (fun k => take step (drop (size + k * step) l)))
      by (intros k; apply window_fresh_part).
    rewrite fresh_parts_concat. simpl drop.
    rewrite take_take_drop. apply take_ge. lia.
Qed.

(** After a full window the next one overlaps it by exactly [lap]. *)
Lemma full_window_overlap k :
  List.length (win k) = size ->
  ChunkSpec.overlap_exactly lap (win k) (win (S k)).
Proof.
  intros Hfull. pose proof (window_length k) as Hk.
  pose proof (window_length (S k)) as Hk1.
  unfold ChunkSpec.overlap_exactly. cbv beta in *.
  split; [lia|]. split; [lia|].
  rewrite Hfull, skipn_firstn_comm, drop_drop, take_take.
  f_equal; [lia | f_equal; lia].
Qed.

(** After a short window the next one is its tail, shorter than [lap]. *)
Lemma short_window_overlap k :
  (S k * step < List.length l)%nat ->
  (List.length (win k) < size)%nat ->
  win (S k) = drop step (win k) /\ (List.length (win (S k)) < lap)%nat.
Proof.
  intros Hin Hshort. pose proof (window_length k) as Hk.
  pose proof (window_length (S k)) as Hk1. cbv beta in *.
  split; [|lia].
  rewrite skipn_firstn_comm, drop_drop.
  replace (k * step + step)%nat with (S k * step)%nat by lia.
  rewrite !take_ge; [reflexivity | |]; rewrite length_drop; lia.
Qed.

End Windows.

Section ChunkerFacts.
Import Ingest ChunkSpec.
Context `{Tokenizer}.
Variable ing : DocumentIngestor.
Variable pv : Provenance.
Variable tokens : list Z.

Lemma take_clip {A} (l : list A) n : take n l = take (Nat.min n (List.length l)) l.
Proof.
  destruct (Nat.le_gt_cases n (List.length l)).
  - now rewrite Nat.min_l.
  - rewrite Nat.min_r, !take_ge by lia. reflexivity.
Qed.

(** The slice taken by the loop is a prefix of what starts at [start]. *)
Lemma slice_window start :
  (0 <= start)%Z -> (0 <= chunk_size ing)%Z ->
  Py.slice tokens start
    (Z.min (start + chunk_size ing) (Z.of_nat (List.length tokens)))
  = take (Z.to_nat (chunk_size ing)) (drop (Z.to_nat start) tokens).
Proof.
  intros Hs Hc. unfold Py.slice, Py.clamp_index.
  destruct (Z.ltb_spec start 0) as [|_]; [lia|].
  destruct (Z.ltb_spec (Z.min (start + chunk_size ing)
                          (Z.of_nat (List.length tokens))) 0) as [|_]; [lia|].
  destruct (Z.le_gt_cases start (Z.of_nat (List.length tokens))) as [Hle|Hgt].
  - rewrite (Z.min_l start) by lia.
    rewrite (take_clip _ (Z.to_nat (chunk_size ing))).
    rewrite (take_clip _ (Z.to_nat (_ - _))).
    f_equal. rewrite length_drop. lia.
  - rewrite (Z.min_r start) by lia.
    rewrite !drop_ge by lia. now rewrite !take_nil.
Qed.

(** With a positive stride and enough fuel the loop ends; it has made
    one chunk per window start below the number of tokens. *)
Lemma chunk_loop_runs :
  (0 < stride ing)%Z ->
  forall fuel start chunk_idx,
    (Z.of_nat (List.length tokens) - start <= Z.of_nat fuel)%Z ->
    exists n,
      chunk_loop ing pv tokens fuel start chunk_idx
      = Some (map (fun j => make_chunk ing pv tokens
                              (start + Z.of_nat j * stride ing)
                              (chunk_idx + Z.of_nat j))
                  (seq 0 n)) /\
      (Z.of_nat (List.length tokens) <= start + Z.of_nat n * stride ing)%Z /\
      (forall j, (j < n)%nat ->
         (start + Z.of_nat j * stride ing < Z.of_nat (List.length tokens))%Z).
Proof.
  intros Hpos. unfold stride in *.
  induction fuel as [|fuel IH]; intros start chunk_idx Hfuel.
  - exists 0%nat. simpl.
    destruct (Z.ltb_spec start (Z.of_nat (List.length tokens))); [lia|].
    repeat split; [lia | intros j Hj; lia].
  - simpl.
    destruct (Z.ltb_spec start (Z.of_nat (List.length tokens))) as [Hlt|Hge].
    + destruct (IH (start + (chunk_size ing - chunk_overlap ing))%Z
                  (chunk_idx + 1)%Z) as (n & Hrun & Hend & Hin); [lia|].
      exists (S n). rewrite Hrun. simpl.
      rewrite <- seq_shift, map_map. repeat split.
      * f_equal. f_equal; [f_equal; lia|].
        apply map_ext. intros j. f_equal; lia.
      * lia.
      * intros [|j] Hj; [lia|]. specialize (Hin j). lia.
    + exists 0%nat. repeat split; [lia | intros j Hj; lia].
Qed.

(** With a stride that is not positive the loop never ends on a
    non-empty token list: it is still running after any number of
    turns. *)
Lemma chunk_loop_diverges :
  (stride ing <= 0)%Z -> tokens <> [] ->
  forall fuel start chunk_idx,
    (start <= 0)%Z -> chunk_loop ing pv tokens fuel start chunk_idx = None.
Proof.
  intros Hneg Hne. unfold stride in *.
  assert (Hlen : (0 < Z.of_nat (List.length tokens))%Z)
    by (destruct tokens; [congruence | simpl; lia]).
  induction fuel as [|fuel IH]; intros start chunk_idx Hstart; simpl;
    destruct (Z.ltb_spec start (Z.of_nat (List.length tokens))); try lia.
  - reflexivity.
  - rewrite IH by lia. reflexivity.
Qed.

Lemma chunk_loop_empty fuel start chunk_idx :
  tokens = [] -> (0 <= start)%Z ->
  chunk_loop ing pv tokens fuel start chunk_idx = Some [].
Proof.
  intros -> Hs. destruct fuel; simpl;
    destruct (start <? _)%Z eqn:E; try reflexivity;
    apply Z.ltb_lt in E; simpl in E; lia.
Qed.

(** The fields of the chunk made at the start of window [k]. *)
Lemma make_chunk_window k :
  (0 <= stride ing)%Z -> (0 <= chunk_size ing)%Z ->
  let c := make_chunk ing pv tokens (Z.of_nat k * stride ing) (Z.of_nat k) in
  chunk_index c = Z.of_nat k /\
  token_count c = List.length (window ing tokens k) /\
  chunk_text c = Py.strip (tok_decode (window ing tokens k)) /\
  chunk_id c
  = (p_filename pv +:+ "_p" +:+ Py.str_of_Z (p_page pv)
       +:+ "_c" +:+ Py.str_of_Z (Z.of_nat k))%string /\
  filename c = p_filename pv /\ page c = p_page pv.
Proof.
  intros Hst Hsz c. unfold c, make_chunk. cbn.
  rewrite slice_window by lia.
  replace (Z.to_nat (Z.of_nat k * stride ing))
    with (k * Z.to_nat (stride ing))%nat by lia.
  repeat split.
Qed.

End ChunkerFacts.

Section ChunkerClaims.
Import Ingest ChunkSpec.
Context `{Tokenizer}.

(** C3, as the code has it.  For [0 <= chunk_overlap < chunk_size] and
    fuel for one turn per token, [_chunk_text] returns one chunk per
    window start [0, stride, 2 * stride, ...] below the number of tokens.
    Chunk [k] has index [k] and holds the at most [chunk_size] tokens
    from [k * stride] on; the spans, each after the first without its
    leading [chunk_overlap] tokens, give the token sequence back.  A
    chunk of [chunk_size] tokens and its successor overlap by exactly
    [chunk_overlap] tokens; after a shorter chunk the successor is the
    tail of that chunk from the stride on, fewer than [chunk_overlap]
    tokens. *)
Theorem C3_chunks_tile_the_tokens
  (ing : DocumentIngestor) (fuel : nat) (text filename : string) (page : Z)
  (file_type priority : string) (trusted : bool) (metadata : ChunkMeta) :
  (0 <= chunk_overlap ing < chunk_size ing)%Z ->
  (List.length (tok_encode text) <= fuel)%nat ->
  let tokens := tok_encode text in
  let size := Z.to_nat (chunk_size ing) in
  let lap := Z.to_nat (chunk_overlap ing) in
  let step := Z.to_nat (stride ing) in
  exists chunks,
    _chunk_text ing fuel text filename page file_type priority trusted metadata
    = Some chunks /\
    (forall k, (k < List.length chunks)%nat <-> (k * step < List.length tokens)%nat) /\
    (forall k c, chunks !! k = Some c ->
       chunk_index c = Z.of_nat k /\
       token_count c = List.length (window ing tokens k) /\
       (token_count c <= size)%nat /\
       chunk_text c = Py.strip (tok_decode (window ing tokens k)) /\
       chunk_id c
       = (filename +:+ "_p" +:+ Py.str_of_Z page
            +:+ "_c" +:+ Py.str_of_Z (Z.of_nat k))%string /\
       Ingest.filename c = filename /\ Ingest.page c = page) /\
    reassemble lap (map (window ing tokens) (seq 0 (List.length chunks))) = tokens /\
    (forall k, (S k < List.length chunks)%nat ->
       List.length (window ing tokens k) = size ->
       overlap_exactly lap (window ing tokens k) (window ing tokens (S k))) /\
    (forall k, (S k < List.length chunks)%nat ->
       (List.length (window ing tokens k) < size)%nat ->
       window ing tokens (S k) = drop step (window ing tokens k) /\
       (List.length (window ing tokens (S k)) < lap)%nat).
Proof.
  intros Hcfg Hfuel tokens size lap step.
  set (pv := mkProvenance filename page file_type priority trusted metadata).
  assert (Hpos : (0 < stride ing)%Z) by (unfold stride; lia).
  destruct (chunk_loop_runs ing pv tokens Hpos fuel 0%Z 0%Z)
    as (n & Hrun & Hend & Hin); [unfold tokens; lia|].
  assert (Hsl : (step + lap = size)%nat) by (unfold step, lap, size, stride; lia).
  assert (Hsp : (0 < step)%nat) by (unfold step; lia).
  assert (Hstep : Z.of_nat step = stride ing) by (unfold step; lia).
  assert (Hend' : (List.length tokens <= n * step)%nat)
    by (rewrite <- Hstep in Hend; lia).
  assert (Hcount : forall k, (k < n)%nat <-> (k * step < List.length tokens)%nat).
  { intros k. split.
    - intros Hk. specialize (Hin k Hk). rewrite <- Hstep in Hin. lia.
    - intros Hk. apply Nat.nle_gt. intros Hnk.
      assert (n * step <= k * step)%nat by (apply Nat.mul_le_mono_r; exact Hnk).
      lia. }
  eexists. split; [exact Hrun|]. rewrite length_map, length_seq.
  split; [exact Hcount|]. split; [|split; [|split]].
  - intros k c Hk.
    change (map ?f ?l) with (f <$> l) in Hk.
    rewrite list_lookup_fmap in Hk.
    destruct (seq 0 n !! k) as [j|] eqn:Hj; [|discriminate].
    apply lookup_seq in Hj as [-> Hkn]. simpl in Hk. injection Hk as <-.
    rewrite !Z.add_0_l.
    destruct (make_chunk_window ing pv tokens k) as (Hi & Ht & Hx & Hid & Hf & Hp);
      [lia | lia |].
    repeat split; try assumption.
    rewrite Ht. unfold window. rewrite length_take. fold size. lia.
  - apply (windows_reassemble tokens size lap step Hsl Hsp n). exact Hend'.
  - intros k Hk Hfull.
    apply (full_window_overlap tokens size lap step Hsl Hsp k Hfull).
  - intros k Hk Hshort.
    apply (short_window_overlap tokens size lap step Hsl Hsp k); [|exact Hshort].
    apply Hcount, Hk.
Qed.

(** C9, as the code has it.  The constructor keeps any pair of numbers
    as it is given.  With [chunk_overlap >= chunk_size] chunking a text
    without tokens returns no chunk and no error, and chunking a text
    with tokens is still running after any number of turns: the window
    start never moves forward. *)
Theorem C9_invalid_overlap_is_not_rejected
  (size overlap : Z) (text filename : string) (page : Z)
  (file_type priority : string) (trusted : bool) (metadata : ChunkMeta) :
  (overlap >= size)%Z ->
  let ing := DocumentIngestor_init size overlap in
  chunk_size ing = size /\ chunk_overlap ing = overlap /\
  (tok_encode text = [] ->
   forall fuel,
     _chunk_text ing fuel text filename page file_type priority trusted metadata
     = Some []) /\
  (tok_encode text <> [] ->
   forall fuel,
     _chunk_text ing fuel text filename page file_type priority trusted metadata
     = None).
Proof.
  intros Hbad ing. split; [reflexivity|]. split; [reflexivity|]. split.
  - intros Hempty fuel. unfold _chunk_text. now apply chunk_loop_empty.
  - intros Hne fuel. unfold _chunk_text.
    apply chunk_loop_diverges; [unfold stride, ing; simpl; lia | exact Hne | lia].
Qed.

End ChunkerClaims.

Section IngestClaims.
Import Ingest ChunkSpec.
Context `{Tokenizer}.

(** The readers of PDF, DOCX and PPTX files leave blank material out
    before they chunk. *)
Lemma blank_pdf_pages_yield_no_chunk ing fuel pages filename priority trusted :
  Forall (fun pg => Py.strip (page_text pg) = EmptyString) pages ->
  _ingest_pdf ing fuel pages filename priority trusted = Some [].
Proof.
  unfold _ingest_pdf. generalize 0%Z.
  induction pages as [|pg pages IH]; intros page_num Hall; [reflexivity|].
  apply Forall_cons in Hall as [Hpg Hall]. simpl.
  rewrite Hpg. simpl. rewrite IH by exact Hall. reflexivity.
Qed.

Lemma blank_pptx_slides_yield_no_chunk ing fuel slides filename priority trusted :
  Forall (Forall (fun shape => match shape with
                               | Some t => Py.strip t = EmptyString
                               | None => True
                               end)) slides ->
  _ingest_pptx ing fuel slides filename priority trusted = Some [].
Proof.
  unfold _ingest_pptx. generalize 1%Z.
  induction slides as [|slide slides IH]; intros slide_num Hall; [reflexivity|].
  apply Forall_cons in Hall as [Hslide Hall]. simpl.
  assert (Hnone : slide_texts slide = []).
  { unfold slide_texts. induction Hslide as [|[t|] shapes Hs _ IHs]; simpl;
      [reflexivity | rewrite Hs; exact IHs | exact IHs]. }
  rewrite Hnone. simpl. rewrite IH by exact Hall. reflexivity.
Qed.

Lemma blank_docx_paragraphs_yield_no_chunk ing fuel paragraphs filename priority trusted :
  tok_encode EmptyString = [] ->
  Forall (fun para => Py.strip para = EmptyString) paragraphs ->
  _ingest_docx ing fuel paragraphs filename priority trusted = Some [].
Proof.
  intros Henc Hall. unfold _ingest_docx.
  assert (Hnone : filter (fun para => Py.truthy (Py.strip para) = true) paragraphs = []).
  { induction Hall as [|para ps Hp _ IHp]; [reflexivity|].
    rewrite filter_cons, Hp. simpl. exact IHp. }
  rewrite Hnone. simpl. unfold _chunk_text.
  apply chunk_loop_empty; [exact Henc | lia].
Qed.

(** C7, where the code departs from it.  A text file made of white
    space only, which the tokenizer does not map to the empty token
    list, is chunked all the same: [ingest_file] returns at least one
    chunk, with a positive token count, and the text of that chunk is
    empty when the file fits in one window of a tokenizer that decodes
    what it encoded. *)
Theorem C7_blank_text_file_yields_a_chunk
  (ing : DocumentIngestor) (fuel : nat) (filepath text priority : string)
  (trusted : bool) :
  Py.lower (splitext_ext (basename filepath)) = ".txt" ->
  (0 <= chunk_overlap ing < chunk_size ing)%Z ->
  (List.length (tok_encode text) <= fuel)%nat ->
  Py.strip text = EmptyString ->
  tok_encode text <> [] ->
  exists c rest,
    ingest_file ing fuel filepath (TextDocument text) priority trusted
    = Some (Ok (c :: rest)) /\
    (0 < token_count c)%nat /\
    chunk_index c = 0%Z /\
    (tok_decode (tok_encode text) = text ->
     (Z.of_nat (List.length (tok_encode text)) <= chunk_size ing)%Z ->
     chunk_text c = EmptyString).
Proof.
  intros Hext Hcfg Hfuel Hblank Hne.
  set (pv := mkProvenance (basename filepath) 1 "txt" priority trusted NoMeta).
  assert (Hpos : (0 < stride ing)%Z) by (unfold stride; lia).
  destruct (chunk_loop_runs ing pv (tok_encode text) Hpos fuel 0%Z 0%Z)
    as (n & Hrun & Hend & _); [lia|].
  assert (Hlen : (0 < List.length (tok_encode text))%nat)
    by (destruct (tok_encode text); [congruence | simpl; lia]).
  destruct n as [|n]; [simpl in Hend; lia|].
  pose proof (make_chunk_window ing pv (tok_encode text) 0) as Hfields.
  change (Z.of_nat 0 * stride ing)%Z with 0%Z in Hfields.
  change (Z.of_nat 0) with 0%Z in Hfields.
  destruct Hfields as (Hi & Ht & Hx & _); [lia | lia |].
  exists (make_chunk ing pv (tok_encode text) 0 0).
  eexists. split; [|split; [|split]].
  - unfold ingest_file. rewrite Hext. simpl.
    unfold _ingest_text, _chunk_text. fold pv. rewrite Hrun.
    rewrite <- cons_seq. reflexivity.
  - rewrite Ht. unfold window. rewrite length_take, length_drop. lia.
  - exact Hi.
  - intros Hround Hfit. rewrite Hx. unfold window.
    rewrite Nat.mul_0_l, drop_0, take_ge by lia. now rewrite Hround.
Qed.

End IngestClaims.

(** ** The solution parser *)

Section ParserFacts.
Import Generator.

Local Abbreviation begins := is_numbered_step.
Local Abbreviation groups := (ParserSpec.groups begins Py.strip).
Local Abbreviation number_groups := (ParserSpec.number_groups begins).
Local Abbreviation number_open := (ParserSpec.number_open begins).

(** The first group of [groups] is never headed by a beginning line. *)
Lemma groups_head lines :
  exists g gs, groups lines = g :: gs /\
    match g with
    | [] => True
    | line :: _ => begins line = false
    end.
Proof.
  induction lines as [|line rest (g & gs & Hg & Hhead)]; simpl.
  - exists [], []. split; [reflexivity | exact I].
  - rewrite Hg. destruct (Py.truthy (Py.strip line)); simpl.
    + destruct (begins (Py.strip line)) eqn:Hb.
      * eexists _, _. split; [reflexivity | exact I].
      * eexists _, _. split; [reflexivity | exact Hb].
    + eexists _, _. split; [reflexivity | exact I].
Qed.

Lemma number_open_groups n lines :
  number_open n (groups lines) = number_groups n (groups lines).
Proof.
  destruct (groups_head lines) as (g & gs & -> & Hhead).
  destruct g as [|line g]; [reflexivity|]. simpl. now rewrite Hhead.
Qed.

Lemma flushed_eq st :
  flushed st
  = steps st ++ match current_step st with
                | [] => []
                | cur => [make_step (counter st) cur]
                end.
Proof.
  unfold flushed. destruct (current_step st); [now rewrite app_nil_r | reflexivity].
Qed.

(** The loop of the parser computes the groups and their numbers. *)
Lemma parse_loop lines : forall st,
  flushed (fold_left parse_line lines st)
  = steps st
    ++ number_open (counter st)
         (ParserSpec.attach (current_step st) (groups lines)).
Proof.
  induction lines as [|line rest IH]; intros st.
  - simpl. rewrite flushed_eq, app_nil_r.
    destruct (current_step st); reflexivity.
  - cbn [fold_left]. rewrite IH.
    pose proof (number_open_groups (counter st) rest) as Hopen.
    cbn [ParserSpec.groups].
    destruct (groups_head rest) as (g & gs & Hg & Hhead).
    rewrite Hg in *. unfold parse_line.
    destruct (Py.truthy (Py.strip line)); cbn [negb].
    + destruct (begins (Py.strip line)) eqn:Hb;
        cbn [steps current_step counter ParserSpec.attach].
      * rewrite flushed_eq, <- app_assoc. f_equal.
        rewrite app_nil_r, Nat.add_1_r.
        destruct (current_step st); simpl; rewrite Hb; reflexivity.
      * f_equal. rewrite <- app_assoc. simpl.
        destruct (current_step st); simpl; reflexivity.
    + cbn [steps current_step counter ParserSpec.attach].
      rewrite flushed_eq, <- app_assoc, app_nil_r. f_equal.
      simpl app at 2. rewrite Hopen.
      destruct (current_step st); reflexivity.
Qed.

Lemma parse_solution_steps_groups solution_text :
  parse_solution_steps solution_text
  = ParserSpec.parse begins Py.strip solution_text.
Proof.
  unfold parse_solution_steps, ParserSpec.parse. rewrite parse_loop. simpl.
  rewrite <- number_open_groups.
  destruct (groups_head (Py.split_on "010"%char solution_text))
    as (g & gs & -> & _).
  reflexivity.
Qed.

Lemma number_groups_steps n gs step :
  step ∈ number_groups n gs -> exists m g, step = make_step m g.
Proof.
  revert n. induction gs as [|g gs IH]; intros n Hin; simpl in Hin.
  - now apply elem_of_nil in Hin.
  - destruct g as [|line g]; [eapply IH, Hin|].
    apply elem_of_cons in Hin as [-> | Hin]; [eauto | eapply IH, Hin].
Qed.

End ParserFacts.

Section CitationFacts.
Import Generator.

Lemma string_app_assoc (a b c : string) :
  ((a +:+ b) +:+ c = a +:+ (b +:+ c))%string.
Proof.
  induction a as [|x a IH]; [reflexivity|].
  change (String x ((a +:+ b) +:+ c) = String x (a +:+ (b +:+ c)))%string.
  now rewrite IH.
Qed.

Lemma span_not_close_spec s :
  s = ((span_not_close s).1 +:+ (span_not_close s).2)%string /\
  Py.contains "]" (span_not_close s).1 = false.
Proof.
  induction s as [|c s [IH1 IH2]]; [split; reflexivity|].
  cbn [span_not_close]. destruct (Ascii.eqb c "]") eqn:Hc.
  - split; reflexivity.
  - destruct (span_not_close s) as [body rest]. cbn [fst snd] in *.
    split; [change (String c s = String c (body +:+ rest)); now rewrite <- IH1|].
    change (Py.contains "]" (String c body))
      with ((Ascii.eqb "]" c && Py.startswith EmptyString body) || Py.contains "]" body).
    rewrite Ascii.eqb_sym, Hc. exact IH2.
Qed.

(** A match is a bracketed token at the very start of the text. *)
Lemma match_citation_spec s m :
  match_citation s = Some m ->
  exists body rest,
    m = ("[doc:" +:+ body +:+ "]")%string /\ s = (m +:+ rest)%string /\
    body <> EmptyString /\ Py.contains "]" body = false.
Proof.
  unfold match_citation. destruct (Py.startswith "[doc:" s) eqn:Hs; [|discriminate].
  apply startswith_spec in Hs as [b ->].
  change (drop_chars 5 ("[doc:" +:+ b)%string) with b.
  destruct (span_not_close_spec b) as [Hb Hclose].
  destruct (span_not_close b) as [body rest]. cbn [fst snd] in Hb, Hclose.
  destruct (Py.truthy body) eqn:Htr; [|discriminate]. cbn [andb].
  destruct (Py.startswith "]" rest) eqn:Hr; [|discriminate].
  apply startswith_spec in Hr as [rest' ->]. intros [= <-].
  exists body, rest'. repeat split.
  - rewrite Hb, (string_app_assoc "[doc:" (body +:+ "]") rest').
    now rewrite (string_app_assoc body "]" rest').
  - intros ->. discriminate.
  - exact Hclose.
Qed.

(** Every token found by the scan is a match at some position. *)
Lemma findall_citations_spec s : forall skip cite,
  cite ∈ findall_citations skip s ->
  exists a s', s = (a +:+ s')%string /\ match_citation s' = Some cite.
Proof.
  induction s as [|c s IH]; intros skip cite Hin; simpl in Hin.
  - now apply elem_of_nil in Hin.
  - assert (Htail : forall k, cite ∈ findall_citations k s ->
              exists a s', String c s = (a +:+ s')%string
                           /\ match_citation s' = Some cite).
    { intros k Hk. destruct (IH k cite Hk) as (a & s' & -> & Hm).
      exists (String c a), s'. split; [reflexivity | exact Hm]. }
    destruct skip as [|k]; [|eapply Htail, Hin].
    destruct (match_citation (String c s)) as [m|] eqn:Hm; [|eapply Htail, Hin].
    apply elem_of_cons in Hin as [-> | Hin]; [|eapply Htail, Hin].
    exists EmptyString, (String c s). split; [reflexivity | exact Hm].
Qed.

End CitationFacts.

(** C6, as the code has it.  [parse_solution_steps] cuts the text into
    lines and strips each line.  A new step begins exactly at a line
    whose first character is a digit and which contains [". "] or
    [") "] anywhere; any other non-blank line joins the current step; a
    blank line, a beginning line and the end of the text close the
    current step when it has lines.  Each step carries the citation
    tokens [[doc:...]] found in its text (no closing bracket inside,
    not empty), and is flagged exactly when [(UNSUPPORTED)] occurs in
    its text. *)
Theorem C6_parser_groups_lines (solution_text : string) :
  Generator.parse_solution_steps solution_text
  = ParserSpec.parse Generator.is_numbered_step Py.strip solution_text /\
  (forall line,
     Generator.is_numbered_step line = true <->
     exists c rest, line = String c rest /\ Py.isdigit c = true /\
       ((exists a b, line = (a +:+ ". " +:+ b)%string) \/
        (exists a b, line = (a +:+ ") " +:+ b)%string))) /\
  (forall step, step ∈ Generator.parse_solution_steps solution_text ->
     Generator.citations step = Generator._extract_citations (Generator.text step) /\
     (Generator.unsupported step = true <->
      exists a b, Generator.text step = (a +:+ "(UNSUPPORTED)" +:+ b)%string)) /\
  (forall t cite, cite ∈ Generator._extract_citations t ->
     exists body a b,
       cite = ("[doc:" +:+ body +:+ "]")%string /\ body <> EmptyString /\
       Py.contains "]" body = false /\ t = (a +:+ cite +:+ b)%string).
Proof.
  split; [apply parse_solution_steps_groups|]. split; [|split].
  - intros line. unfold Generator.is_numbered_step. destruct line as [|c rest].
    + split; [discriminate | intros (c & rest & Hl & _); discriminate].
    + rewrite andb_true_iff, orb_true_iff, !contains_spec. split.
      * intros [Hd Hm]. exists c, rest. repeat split; assumption.
      * intros (c' & rest' & [= <- <-] & Hd & Hm). split; assumption.
  - intros step Hin. rewrite parse_solution_steps_groups in Hin.
    apply number_groups_steps in Hin as (m & g & ->).
    split; [reflexivity|]. unfold Generator.make_step. cbn.
    apply contains_spec.
  - intros t cite Hin.
    apply findall_citations_spec in Hin as (a & s' & -> & Hm).
    apply match_citation_spec in Hm as (body & rest & Hc & -> & Hne & Hcl).
    exists body, a, rest. repeat split; assumption.
Qed.

(** * Concrete runs *)

(** ** Validator *)

(** C1 on a step that no chunk supports and a blank step: FAILED. *)
Lemma C1_strict_mode_witness :
  let steps := [Sample.step 1 "Divide both sides by two"; Sample.step 2 "   "] in
  let chunks := [Sample.chunk "The quadratic formula gives both roots"] in
  (ValidatorSpec.validation_log Validator.default_validator Sample.clock
     ∉ Audit.unwritable Sample.empty_fs) /\
  exists r fs',
    @Validator.validate_solution (Sample.flat_encoder (1 # 2)) Sample.no_math
      Validator.default_validator Sample.clock steps chunks "strict" Sample.empty_fs
    = Ok (r, fs') /\
    Validator.status r = FAILED /\
    Validator.message r = "No supported solution found in resources.".
Proof.
  intros steps chunks.
  assert (Hw : ValidatorSpec.validation_log Validator.default_validator Sample.clock
               ∉ Audit.unwritable Sample.empty_fs) by apply not_elem_of_empty.
  split; [exact Hw|].
  destruct (@C1_strict_mode_is_binary (Sample.flat_encoder (1 # 2)) Sample.no_math
              Validator.default_validator Sample.clock steps chunks
              Sample.empty_fs Hw)
    as (r & fs' & Hret & _ & Hfail & _).
  exists r, fs'. split; [exact Hret|]. apply Hfail.
  exists (Sample.step 1 "Divide both sides by two").
  split; [apply list_elem_of_here|]. split; vm_compute; reflexivity.
Defined.

(** C2 with two of three steps supported, and a blank step: PARTIAL. *)
Lemma C2_prefer_mode_witness :
  let steps := [Sample.step 1 "x = 4"; Sample.step 2 "y = 5"; Sample.step 3 "  ";
                Sample.step 3 "x=4"] in
  let chunks := [Sample.chunk "X = 4"] in
  (ValidatorSpec.validation_log Validator.default_validator Sample.clock
     ∉ Audit.unwritable Sample.empty_fs) /\
  exists r fs',
    @Validator.validate_solution (Sample.flat_encoder (1 # 2)) Sample.whole_text_math
      Validator.default_validator Sample.clock steps chunks "prefer" Sample.empty_fs
    = Ok (r, fs') /\
    Validator.status r = PARTIAL /\
    Validator.supported_steps r = 2%nat /\ Validator.total_steps r = 3%nat /\
    Validator.message r = "2/3 steps supported by resources.".
Proof.
  intros steps chunks.
  assert (Hw : ValidatorSpec.validation_log Validator.default_validator Sample.clock
               ∉ Audit.unwritable Sample.empty_fs) by apply not_elem_of_empty.
  split; [exact Hw|].
  destruct (@C2_prefer_mode_never_fails (Sample.flat_encoder (1 # 2))
              Sample.whole_text_math Validator.default_validator Sample.clock
              steps chunks Sample.empty_fs Hw)
    as (r & fs' & Hret & _ & Hpart & _ & Hmsg & _ & Htot & Hsup).
  assert (Hs : Validator.supported_steps r = 2%nat)
    by (rewrite Hsup; vm_compute; reflexivity).
  assert (Ht : Validator.total_steps r = 3%nat)
    by (rewrite Htot; vm_compute; reflexivity).
  exists r, fs'. split; [exact Hret|]. split; [apply Hpart; lia|].
  split; [exact Hs|]. split; [exact Ht|].
  rewrite Hmsg, Hs, Ht. reflexivity.
Defined.

(** C5 on two chunks: the second is the best match, far below the
    threshold. *)
Lemma C5_textual_support_witness :
  let chunks := ["ab"; "abcd"] in
  chunks <> [] /\
  let r := @Validator._check_textual_support Sample.length_encoder
             Validator.default_validator "abcd" chunks
             [Sample.chunk "ab"; Sample.chunk "abcd"] in
  (Validator.ts_confidence r = LOW <->
   ~ (85 # 100 <= Validator.ts_similarity r)%Q /\
   ~ (Validator.sim_threshold Validator.default_validator
      <= Validator.ts_similarity r)%Q).
Proof.
  intros chunks.
  assert (Hne : chunks <> []) by discriminate.
  split; [exact Hne|].
  exact (proj1 (proj2 (proj2 (proj2
           (@C5_textual_support_and_confidence Sample.length_encoder
              Validator.default_validator "abcd" chunks
              [Sample.chunk "ab"; Sample.chunk "abcd"] Hne))))).
Defined.

(** C10 on a step of five words. *)
Lemma C10_short_steps_witness :
  Validator.min_ngram_overlap Validator.default_validator = 6%nat /\
  (List.length (Py.split "Divide both sides by two") < 8)%nat /\
  Validator.ts_supported
    (@Validator._check_textual_support (Sample.flat_encoder 1)
       Validator.default_validator "Divide both sides by two"
       ["Divide both sides by two"] [Sample.chunk "Divide both sides by two"])
  = false.
Proof.
  assert (Hmin : Validator.min_ngram_overlap Validator.default_validator = 6%nat)
    by reflexivity.
  assert (Hlen : (List.length (Py.split "Divide both sides by two") < 8)%nat)
    by (vm_compute; lia).
  split; [exact Hmin|]. split; [exact Hlen|].
  exact (proj1 (proj2 (proj2
           (@C10_short_steps_need_symbolic_support (Sample.flat_encoder 1)
              Sample.no_math Validator.default_validator
              "Divide both sides by two" ["Divide both sides by two"]
              [Sample.chunk "Divide both sides by two"] Hmin Hlen)))).
Defined.

(** ** Retriever and audit log *)

(** C4 on the sample store, with the boost (two of the three hits are
    kept) and without it. *)
Lemma C4_retrieve_ranking_witness :
  (ValidatorSpec.retrieval_log Sample.retriever Sample.clock
     ∉ Audit.unwritable Sample.empty_fs) /\
  RetrieverSpec.nearest_first
    (@Retriever.collection_query Sample.store "roots" 2%nat None) /\
  (exists result fs',
     @Retriever.retrieve Sample.store Sample.retriever Sample.clock "roots"
       (Some 2%nat) None true Sample.empty_fs = Ok (result, fs') /\
     (List.length result <= 2)%nat /\
     RetrieverSpec.descending Retriever.boosted_key result) /\
  (exists result fs',
     @Retriever.retrieve Sample.store Sample.retriever Sample.clock "roots"
       (Some 2%nat) None false Sample.empty_fs = Ok (result, fs') /\
     (List.length result <= 2)%nat /\
     RetrieverSpec.descending Retriever.similarity result).
Proof.
  assert (Hw : ValidatorSpec.retrieval_log Sample.retriever Sample.clock
               ∉ Audit.unwritable Sample.empty_fs) by apply not_elem_of_empty.
  assert (Hn : RetrieverSpec.nearest_first
                 (@Retriever.collection_query Sample.store "roots" 2%nat None)).
  { unfold RetrieverSpec.nearest_first. simpl.
    repeat constructor; vm_compute; discriminate. }
  split; [exact Hw|]. split; [exact Hn|]. split.
  - destruct (@C4_retrieve_ranking Sample.store Sample.retriever Sample.clock
                "roots" (Some 2%nat) None true Sample.empty_fs Hw)
      as (result & fs' & Hret & Hlen & _ & _ & _ & Hboost & _).
    exists result, fs'. split; [exact Hret|]. split; [exact Hlen|].
    apply Hboost. reflexivity.
  - destruct (@C4_retrieve_ranking Sample.store Sample.retriever Sample.clock
                "roots" (Some 2%nat) None false Sample.empty_fs Hw)
      as (result & fs' & Hret & Hlen & _ & _ & _ & _ & Hplain & _).
    exists result, fs'. split; [exact Hret|]. split; [exact Hlen|].
    apply Hplain; [reflexivity | exact Hn].
Defined.

(** C8 as stated fails: when the log of the day cannot be opened, both
    calls end with the error of the write and return nothing. *)
Lemma C8_log_failure_counterexample :
  @Validator.validate_solution (Sample.flat_encoder (1 # 2)) Sample.no_math
    Validator.default_validator Sample.clock
    [Sample.step 1 "Divide both sides by two"]
    [Sample.chunk "The quadratic formula gives both roots"] "prefer"
    Sample.readonly_fs
  = Raise (OSError "./logs/validation_20240501.jsonl") /\
  @Retriever.retrieve Sample.store Sample.retriever Sample.clock "roots"
    (Some 2%nat) None true Sample.readonly_fs
  = Raise (OSError "./logs/retrieval_20240501.jsonl").
Proof. split; vm_compute; reflexivity. Qed.

(** C8 as amended, on the empty file system: the record is written and
    the result returned. *)
Lemma C8_log_write_witness :
  (ValidatorSpec.validation_log Validator.default_validator Sample.clock
     ∉ Audit.unwritable Sample.empty_fs) /\
  exists fs',
    @Validator.validate_solution (Sample.flat_encoder (1 # 2)) Sample.no_math
      Validator.default_validator Sample.clock
      [Sample.step 1 "Divide both sides by two"]
      [Sample.chunk "The quadratic formula gives both roots"] "prefer"
      Sample.empty_fs
    = Ok (@Validator.validation_result (Sample.flat_encoder (1 # 2)) Sample.no_math
            Validator.default_validator
            [Sample.step 1 "Divide both sides by two"]
            [Sample.chunk "The quadratic formula gives both roots"] "prefer",
          fs').
Proof.
  assert (Hw : ValidatorSpec.validation_log Validator.default_validator Sample.clock
               ∉ Audit.unwritable Sample.empty_fs) by apply not_elem_of_empty.
  split; [exact Hw|].
  destruct (proj1 (@C8_log_write_decides_the_call (Sample.flat_encoder (1 # 2))
                     Sample.no_math Sample.store Validator.default_validator
                     Sample.retriever Sample.clock
                     [Sample.step 1 "Divide both sides by two"]
                     [Sample.chunk "The quadratic formula gives both roots"]
                     "prefer" "roots" None None true Sample.empty_fs) Hw)
    as (fs' & Hret & _).
  exists fs'. exact Hret.
Defined.

(** ** Chunker *)

(** C3 as stated fails: with [chunk_size = 3] and [chunk_overlap = 2],
    three tokens give the chunks of 3, 2 and 1 tokens; the last two
    cannot overlap by 2 tokens. *)
Lemma C3_exact_overlap_counterexample :
  let ing := Ingest.DocumentIngestor_init 3 2 in
  (Ingest.chunk_overlap ing < Ingest.chunk_size ing)%Z /\
  (map (fun c => (Ingest.chunk_index c, Ingest.chunk_text c, Ingest.token_count c))
   <$> @Ingest._chunk_text Sample.char_tokenizer ing 3 "abc" "notes.txt" 1
         "txt" "normal" true Ingest.NoMeta)
  = Some [(0%Z, "abc", 3%nat); (1%Z, "bc", 2%nat); (2%Z, "c", 1%nat)] /\
  ~ ChunkSpec.overlap_exactly 2
      (ChunkSpec.window ing (Sample.codes "abc") 1)
      (ChunkSpec.window ing (Sample.codes "abc") 2).
Proof.
  intros ing. split; [reflexivity|]. split; [vm_compute; reflexivity|].
  intros (_ & Hlen & _). vm_compute in Hlen. lia.
Qed.

(** C3 as amended, on seven tokens with windows of 3 every 2. *)
Lemma C3_chunks_tile_witness :
  let ing := Ingest.DocumentIngestor_init 3 1 in
  (0 <= Ingest.chunk_overlap ing < Ingest.chunk_size ing)%Z /\
  (List.length (Sample.codes "abcdefg") <= 7)%nat /\
  exists chunks,
    @Ingest._chunk_text Sample.char_tokenizer ing 7 "abcdefg" "notes.txt" 1
      "txt" "normal" true Ingest.NoMeta = Some chunks /\
    ChunkSpec.reassemble 1
      (map (ChunkSpec.window ing (Sample.codes "abcdefg"))
           (seq 0 (List.length chunks)))
    = Sample.codes "abcdefg".
Proof.
  intros ing.
  assert (Hcfg : (0 <= Ingest.chunk_overlap ing < Ingest.chunk_size ing)%Z)
    by (simpl; lia).
  assert (Hfuel : (List.length (Sample.codes "abcdefg") <= 7)%nat)
    by (vm_compute; lia).
  split; [exact Hcfg|]. split; [exact Hfuel|].
  destruct (@C3_chunks_tile_the_tokens Sample.char_tokenizer ing 7 "abcdefg"
              "notes.txt" 1 "txt" "normal" true Ingest.NoMeta Hcfg Hfuel)
    as (chunks & Hrun & _ & _ & Htile & _).
  exists chunks. split; [exact Hrun | exact Htile].
Defined.

(** C7 on a text file that holds one space. *)
Lemma C7_blank_text_file_witness :
  Py.lower (Ingest.splitext_ext (Ingest.basename "uploads/notes.txt")) = ".txt" /\
  Py.strip " " = EmptyString /\
  Sample.codes " " <> [] /\
  exists c rest,
    @Ingest.ingest_file Sample.char_tokenizer Ingest.default_ingestor 1
      "uploads/notes.txt" (Ingest.TextDocument " ") "normal" true
    = Some (Ok (c :: rest)) /\
    (0 < Ingest.token_count c)%nat /\ Ingest.chunk_text c = EmptyString.
Proof.
  assert (Hext : Py.lower (Ingest.splitext_ext (Ingest.basename "uploads/notes.txt"))
                 = ".txt") by reflexivity.
  assert (Hblank : Py.strip " " = EmptyString) by reflexivity.
  assert (Hne : Sample.codes " " <> []) by discriminate.
  split; [exact Hext|]. split; [exact Hblank|]. split; [exact Hne|].
  destruct (@C7_blank_text_file_yields_a_chunk Sample.char_tokenizer
              Ingest.default_ingestor 1 "uploads/notes.txt" " " "normal" true
              Hext ltac:(simpl; lia) ltac:(simpl; lia) Hblank Hne)
    as (c & rest & Hret & Hcount & _ & Htext).
  exists c, rest. split; [exact Hret|]. split; [exact Hcount|].
  apply Htext; [reflexivity | simpl; lia].
Defined.

(** The same file, run: one chunk, of one token and no text. *)
Example blank_text_file_run :
  @Ingest.ingest_file Sample.char_tokenizer Ingest.default_ingestor 1
    "uploads/notes.txt" (Ingest.TextDocument " ") "normal" true
  = Some (Ok [Ingest.mkDocumentChunk "notes.txt_p1_c0" "notes.txt" 1 EmptyString 1 0
                "txt" "normal" true Ingest.NoMeta]).
Proof. vm_compute. reflexivity. Qed.

(** C9 as stated fails: [chunk_overlap = chunk_size = 100] is accepted;
    an empty text file is then ingested with no error, and a file of
    three tokens is still being chunked after fifty turns. *)
Lemma C9_no_configuration_error_counterexample :
  let ing := Ingest.DocumentIngestor_init 100 100 in
  (Ingest.chunk_overlap ing >= Ingest.chunk_size ing)%Z /\
  @Ingest.ingest_file Sample.char_tokenizer ing 50 "uploads/notes.txt"
    (Ingest.TextDocument EmptyString) "normal" true = Some (Ok []) /\
  @Ingest.ingest_file Sample.char_tokenizer ing 50 "uploads/notes.txt"
    (Ingest.TextDocument "abc") "normal" true = None.
Proof. intros ing. split; [simpl; lia|]. split; vm_compute; reflexivity. Qed.

(** C9 as amended, on a text of three tokens. *)
Lemma C9_invalid_overlap_witness :
  (100 >= 100)%Z /\
  Sample.codes "abc" <> [] /\
  forall fuel,
    @Ingest._chunk_text Sample.char_tokenizer (Ingest.DocumentIngestor_init 100 100)
      fuel "abc" "notes.txt" 1 "txt" "normal" true Ingest.NoMeta = None.
Proof.
  assert (Hbad : (100 >= 100)%Z) by lia.
  assert (Hne : Sample.codes "abc" <> []) by discriminate.
  split; [exact Hbad|]. split; [exact Hne|].
  exact (proj2 (proj2 (proj2
           (@C9_invalid_overlap_is_not_rejected Sample.char_tokenizer 100 100
              "abc" "notes.txt" 1 "txt" "normal" true Ingest.NoMeta Hbad))) Hne).
Defined.

(** ** Parser *)

(** C6 as stated fails: the second line starts with a digit that is not
    followed by [". "], yet it contains [". "] and begins a step. *)
Lemma C6_marker_anywhere_counterexample :
  let solution := "1. Subtract 5 from both sides
2x = 8. Divide by 2" in
  ParserSpec.digit_then_marker "2x = 8. Divide by 2" = false /\
  map Generator.text (ParserSpec.parse_as_stated solution)
  = ["1. Subtract 5 from both sides
2x = 8. Divide by 2"] /\
  map Generator.text (Generator.parse_solution_steps solution)
  = ["1. Subtract 5 from both sides"; "2x = 8. Divide by 2"] /\
  Generator.parse_solution_steps solution <> ParserSpec.parse_as_stated solution.
Proof.
  intros solution. split; [reflexivity|]. split; [reflexivity|].
  split; [reflexivity|]. vm_compute. discriminate.
Qed.

(** C6 as amended, on a solution with a citation and a flagged step. *)
Lemma C6_parser_witness :
  let solution := "1. Subtract 5 [doc:a.txt | p:1 | chunk:a_p1_c0]
2x = 8. Divide by 2 (UNSUPPORTED)

so x = 4" in
  Generator.parse_solution_steps solution
  = ParserSpec.parse Generator.is_numbered_step Py.strip solution /\
  Generator.parse_solution_steps solution
  = [Generator.mkSolutionStep 1
       "1. Subtract 5 [doc:a.txt | p:1 | chunk:a_p1_c0]"
       ["[doc:a.txt | p:1 | chunk:a_p1_c0]"] false;
     Generator.mkSolutionStep 2 "2x = 8. Divide by 2 (UNSUPPORTED)" [] true;
     Generator.mkSolutionStep 2 "so x = 4" [] false].
Proof.
  intros solution. split; [|vm_compute; reflexivity].
  exact (proj1 (C6_parser_groups_lines solution)).
Defined.

(** * Further properties *)

(** ** More on the step validator *)

Section ValidatorMore.
Import Validator ValidatorSpec.
Context `{SentenceEncoder} `{MathOracle}.

(** A textually supported step reaches the threshold, and its confidence
    is not LOW. *)
Lemma textual_support_confidence v step_text chunk_texts chunks_metadata :
  let r := _check_textual_support v step_text chunk_texts chunks_metadata in
  ts_supported r = true ->
  ts_confidence r <> LOW /\ (sim_threshold v <= ts_similarity r)%Q.
Proof.
  intros r. unfold r, _check_textual_support.
  destruct chunk_texts as [|c cs]; [discriminate|].
  cbn [ts_supported ts_confidence ts_similarity].
  intros Hs. apply andb_true_iff in Hs as [Hq _].
  split; [|now apply Qle_bool_iff].
  unfold confidence_of. rewrite Hq.
  destruct (Qle_bool (85 # 100) _); discriminate.
Qed.

Lemma symbolic_scan_confidence exprs chunk_texts : forall i,
  let r := symbolic_scan exprs i chunk_texts in
  ss_confidence r = (if ss_supported r then HIGH else LOW).
Proof.
  induction chunk_texts as [|c cs IH]; intros i; simpl; [reflexivity|].
  destruct (first_equivalent_pair exprs (_extract_math_expressions c))
    as [[se ce]|]; [reflexivity | apply IH].
Qed.

Lemma symbolic_support_confidence step_text chunk_texts :
  let r := _check_symbolic_support step_text chunk_texts in
  ss_confidence r = (if ss_supported r then HIGH else LOW).
Proof.
  unfold _check_symbolic_support.
  destruct (_extract_math_expressions step_text); [reflexivity|].
  apply symbolic_scan_confidence.
Qed.

(** What [_validate_step] reports. *)
Lemma validate_step_report v step_text chunk_texts chunks_metadata :
  let c := _validate_step v step_text chunk_texts chunks_metadata in
  (sc_confidence c = LOW <-> sc_supported c = false) /\
  (sc_support_type c = none <-> sc_supported c = false) /\
  (sc_support_type c = textual ->
   (sim_threshold v <= sc_best_similarity c)%Q /\
   sc_best_similarity c
   = ts_similarity (_check_textual_support v step_text chunk_texts chunks_metadata)) /\
  (sc_support_type c = symbolic ->
   sc_confidence c = HIGH /\ sc_best_similarity c = 0%Q /\
   ts_supported (_check_textual_support v step_text chunk_texts chunks_metadata)
   = false).
Proof.
  intros c. unfold c, _validate_step.
  pose proof (textual_support_confidence v step_text chunk_texts chunks_metadata) as Ht.
  pose proof (symbolic_support_confidence step_text chunk_texts) as Hs.
  cbv zeta in Ht, Hs.
  destruct (ts_supported _) eqn:Et.
  - destruct (Ht eq_refl) as [Hc Hq]. cbn.
    repeat split; try congruence; try discriminate; try assumption.
  - destruct (ss_supported _) eqn:Es; cbn.
    + rewrite Hs. repeat split; try congruence; try discriminate.
    + repeat split; try congruence; try discriminate.
Qed.

(** Every entry of a validation result: the confidence is LOW exactly
    on the unsupported steps, whose support type is [none]; a step
    supported by the symbolic check alone is reported with confidence
    HIGH and similarity 0; a step supported by the textual check
    reaches the threshold. *)
Theorem validation_entries_are_consistent
  (v : StepValidator) (clock : Audit.Clock) (steps : list StepDict)
  (chunks : list ChunkDict) (mode : string) (fs fs' : Audit.FS)
  (r : SolutionValidation) :
  validate_solution v clock steps chunks mode fs = Ok (r, fs') ->
  Forall (fun e =>
            (confidence e = LOW <-> supported e = false) /\
            (support_type e = none <-> supported e = false) /\
            (support_type e = textual ->
             (sim_threshold v <= best_match_similarity e)%Q) /\
            (support_type e = symbolic ->
             confidence e = HIGH /\ best_match_similarity e = 0%Q) /\
            Py.strip (step_text e) <> EmptyString)
         (step_validations r).
Proof.
  intros Hret.
  assert (Hr : r = validation_result v steps chunks mode).
  { unfold validate_solution in Hret.
    destruct (_log_validation v clock _ fs); [|discriminate].
    injection Hret as <- _. reflexivity. }
  subst r.
  destruct (validation_result_fields v chunks steps mode) as (-> & _).
  apply Forall_forall. intros e He.
  change (map ?f ?l) with (f <$> l) in He.
  apply list_elem_of_fmap in He as (step & -> & Hstep).
  apply list_elem_of_filter in Hstep as [Hne _].
  unfold entry_of, validation_entry.
  cbn [confidence supported support_type best_match_similarity step_text].
  destruct (validate_step_report v (text_of step) (map c_chunk_text chunks) chunks)
    as (H1 & H2 & H3 & H4).
  split; [exact H1|]. split; [exact H2|].
  split; [intros Ht; apply (H3 Ht)|].
  split; [intros Hs; destruct (H4 Hs) as (Hh & Hz & _); split; assumption|].
  unfold non_empty in Hne. intros Hblank. rewrite Hblank in Hne. discriminate.
Qed.

End ValidatorMore.

Section ValidatorEdges.
Import Validator ValidatorSpec.
Context `{SentenceEncoder} `{MathOracle}.

Lemma supported_by_either_no_chunk v step :
  supported_by_either v [] step = false.
Proof.
  unfold supported_by_either, _check_symbolic_support. simpl.
  destruct (_extract_math_expressions (text_of step)); reflexivity.
Qed.

(** With no retrieved chunk no step can be supported: the result counts
    no supported step, strict mode fails as soon as one step is not
    blank, prefer mode reports PARTIAL then, and a solution without a
    non-blank step passes in both modes. *)
Theorem validation_without_chunks
  (v : StepValidator) (steps : list StepDict) (mode : string) :
  let r := validation_result v steps [] mode in
  supported_steps r = 0%nat /\
  Forall (fun e => supported e = false /\ support_type e = none) (step_validations r) /\
  ((exists step, step ∈ steps /\ non_empty step = true) ->
   status r = (if String.eqb mode "strict" then FAILED else PARTIAL)) /\
  ((forall step, step ∈ steps -> non_empty step = false) -> status r = PASSED).
Proof.
  intros r.
  destruct (validation_result_fields v [] steps mode)
    as (Hsv & Hall & Htot & Hsup & _ & Hst).
  fold r in Hsv, Hall, Htot, Hsup, Hst.
  set (kept := filter (fun s => non_empty s = true) steps) in *.
  assert (Hzero : supported_steps r = 0%nat).
  { rewrite Hsup. clear. induction kept as [|s kept IH]; [reflexivity|].
    rewrite filter_cons, supported_by_either_no_chunk. simpl. exact IH. }
  assert (Hallb : all_supported r = match kept with [] => true | _ => false end).
  { rewrite Hall. destruct kept as [|s kept']; [reflexivity|].
    simpl. now rewrite supported_by_either_no_chunk. }
  split; [exact Hzero|]. split; [|split].
  - rewrite Hsv. apply Forall_forall. intros e He.
    change (map ?f ?l) with (f <$> l) in He.
    apply list_elem_of_fmap in He as (step & -> & _).
    pose proof (entry_supported v [] step) as Hs.
    rewrite supported_by_either_no_chunk in Hs. split; [exact Hs|].
    destruct (validate_step_report v (text_of step) (map c_chunk_text []) [])
      as (_ & Hnone & _).
    apply Hnone. exact Hs.
  - intros (step & Hin & Hne).
    assert (Hk : step ∈ kept) by (apply list_elem_of_filter; split; assumption).
    destruct kept as [|s kept']; [now apply elem_of_nil in Hk|].
    rewrite Hallb, Hzero, Htot in Hst. simpl in Hst.
    destruct (String.eqb mode "strict"); simpl in Hst; congruence.
  - intros Hblank.
    assert (Hk : kept = []).
    { unfold kept. clear -Hblank. induction steps as [|s steps IH]; [reflexivity|].
      rewrite filter_cons, (Hblank s) by apply list_elem_of_here. simpl.
      apply IH. intros step Hin. apply Hblank. now apply list_elem_of_further. }
    rewrite Hallb, Hzero, Htot, Hk in Hst. simpl in Hst.
    destruct (String.eqb mode "strict"); simpl in Hst; congruence.
Qed.

(** The first pair found by the two inner loops exists exactly when
    some pair is equivalent. *)
Lemma first_equivalent_pair_spec step_exprs chunk_exprs :
  is_Some (first_equivalent_pair step_exprs chunk_exprs) <->
  exists se ce, se ∈ step_exprs /\ ce ∈ chunk_exprs /\
                _are_symbolically_equivalent se ce = true.
Proof.
  unfold first_equivalent_pair.
  set (pairs := step_expr ← step_exprs; chunk_expr ← chunk_exprs;
                [(step_expr, chunk_expr)]).
  assert (Hpairs : forall p, p ∈ pairs <-> p.1 ∈ step_exprs /\ p.2 ∈ chunk_exprs).
  { intros [se ce]. unfold pairs. rewrite list_elem_of_bind. split.
    - intros (se' & Hin & Hse). apply list_elem_of_bind in Hin as (ce' & Hin & Hce).
      apply list_elem_of_singleton in Hin as [= -> ->]. split; assumption.
    - intros [Hse Hce]. exists se. split; [|exact Hse].
      apply list_elem_of_bind. exists ce. split; [|exact Hce].
      now apply list_elem_of_singleton. }
  split.
  - intros [[se ce] Hhead]. apply head_Some_elem_of in Hhead.
    apply list_elem_of_filter in Hhead as [Heq Hin]. apply Hpairs in Hin as [? ?].
    exists se, ce. repeat split; assumption.
  - intros (se & ce & Hse & Hce & Heq).
    assert (Hin : (se, ce) ∈ filter
              (fun p => _are_symbolically_equivalent p.1 p.2 = true) pairs).
    { apply list_elem_of_filter. split; [exact Heq|]. apply Hpairs. split; assumption. }
    destruct (filter _ pairs) as [|p ps]; [now apply elem_of_nil in Hin|].
    eexists. reflexivity.
Qed.

Lemma symbolic_scan_spec exprs chunk_texts : forall i,
  let r := symbolic_scan exprs i chunk_texts in
  (ss_supported r = false /\ ss_chunk_id r = None /\
   Forall (fun c => first_equivalent_pair exprs (_extract_math_expressions c) = None)
          chunk_texts) \/
  (exists j c, ss_supported r = true /\
     ss_chunk_id r = Some ("chunk_" +:+ Py.str_of_nat (i + j)) /\
     chunk_texts !! j = Some c /\
     is_Some (first_equivalent_pair exprs (_extract_math_expressions c)) /\
     Forall (fun c' => first_equivalent_pair exprs (_extract_math_expressions c') = None)
            (take j chunk_texts)).
Proof.
  induction chunk_texts as [|c cs IH]; intros i; simpl.
  - left. repeat split. constructor.
  - destruct (first_equivalent_pair exprs (_extract_math_expressions c))
      as [[se ce]|] eqn:Hp.
    + right. exists 0%nat, c. rewrite Nat.add_0_r. simpl.
      repeat split; [rewrite Hp; eexists; reflexivity | constructor].
    + destruct (IH (S i)) as [(Hs & Hid & Hall) | (j & c' & Hs & Hid & Hj & Hm & Hall)].
      * left. repeat split; [exact Hs | exact Hid | constructor; assumption].
      * right. exists (S j), c'. replace (i + S j)%nat with (S i + j)%nat by lia.
        simpl. repeat split; try assumption. constructor; assumption.
Qed.

(** The symbolic check supports a step exactly when one of its
    expressions is equivalent to an expression of some chunk.  It then
    reports confidence HIGH and, as chunk id, the label ["chunk_<j>"] of
    the position [j] of the first such chunk in the list. *)
Theorem symbolic_support_finds_first_match
  (step_text : string) (chunk_texts : list string) :
  let r := _check_symbolic_support step_text chunk_texts in
  let matches c :=
    exists se ce, se ∈ _extract_math_expressions step_text /\
                  ce ∈ _extract_math_expressions c /\
                  _are_symbolically_equivalent se ce = true in
  (ss_supported r = true <-> exists c, c ∈ chunk_texts /\ matches c) /\
  (ss_supported r = true ->
   ss_confidence r = HIGH /\
   exists j c, chunk_texts !! j = Some c /\ matches c /\
     (forall j' c', (j' < j)%nat -> chunk_texts !! j' = Some c' -> ~ matches c') /\
     ss_chunk_id r = Some ("chunk_" +:+ Py.str_of_nat j)) /\
  (ss_supported r = false -> ss_confidence r = LOW /\ ss_chunk_id r = None).
Proof.
  intros r matches.
  assert (Hm : forall c, matches c <->
             is_Some (first_equivalent_pair (_extract_math_expressions step_text)
                        (_extract_math_expressions c))).
  { intros c. symmetry. apply first_equivalent_pair_spec. }
  assert (Hnone : forall c,
             first_equivalent_pair (_extract_math_expressions step_text)
               (_extract_math_expressions c) = None -> ~ matches c).
  { intros c Hn Hc. apply Hm in Hc as [p Hp]. congruence. }
  pose proof (symbolic_support_confidence step_text chunk_texts) as Hconf.
  cbv zeta in Hconf. fold r in Hconf.
  assert (Hcases :
    (ss_supported r = false /\ ss_chunk_id r = None /\
     forall c, c ∈ chunk_texts -> ~ matches c) \/
    (exists j c, ss_supported r = true /\
       ss_chunk_id r = Some ("chunk_" +:+ Py.str_of_nat j) /\
       chunk_texts !! j = Some c /\ matches c /\
       forall j' c', (j' < j)%nat -> chunk_texts !! j' = Some c' -> ~ matches c')).
  { unfold r, _check_symbolic_support.
    destruct (_extract_math_expressions step_text) as [|e es] eqn:He.
    - left. repeat split. intros c _ (se & ce & Hse & _).
      now apply elem_of_nil in Hse.
    - destruct (symbolic_scan_spec (e :: es) chunk_texts 0)
        as [(Hs & Hid & Hall) | (j & c & Hs & Hid & Hj & Hsome & Hall)].
      + left. repeat split; [exact Hs | exact Hid |].
        intros c Hc. apply Hnone. rewrite Forall_forall in Hall. now apply Hall.
      + right. exists j, c. repeat split; try assumption.
        * now apply Hm.
        * intros j' c' Hlt Hj'. apply Hnone.
          rewrite Forall_forall in Hall. apply Hall.
          apply list_elem_of_lookup. exists j'.
          rewrite lookup_take_lt by exact Hlt. exact Hj'. }
  destruct Hcases as [(Hs & Hid & Hall) | (j & c & Hs & Hid & Hj & Hmc & Hfirst)].
  - rewrite Hs in *. split; [|split].
    + split; [discriminate|]. intros (c & Hc & Hmc). exfalso. exact (Hall c Hc Hmc).
    + discriminate.
    + intros _. split; assumption.
  - rewrite Hs in *. split; [|split].
    + split; [|reflexivity]. intros _. exists c. split; [|exact Hmc].
      eapply list_elem_of_lookup_2, Hj.
    + intros _. split; [exact Hconf|]. exists j, c. repeat split; assumption.
    + discriminate.
Qed.

End ValidatorEdges.

Section NormalizeFacts.
Import Validator.

Lemma lower_app a b : Py.lower (a +:+ b) = (Py.lower a +:+ Py.lower b)%string.
Proof.
  induction a as [|c a IH]; [reflexivity|].
  change (String (Py.lower_char c) (Py.lower (a +:+ b))
          = String (Py.lower_char c) (Py.lower a +:+ Py.lower b))%string.
  now rewrite IH.
Qed.

Lemma remove_chars_app drop a b :
  remove_chars drop (a +:+ b)
  = (remove_chars drop a +:+ remove_chars drop b)%string.
Proof.
  induction a as [|c a IH]; [reflexivity|].
  change (remove_chars drop (String c (a +:+ b))
          = remove_chars drop (String c a) +:+ remove_chars drop b)%string.
  cbn [remove_chars]. destruct (drop c); [exact IH|].
  change (String c (remove_chars drop (a +:+ b))
          = String c (remove_chars drop a +:+ remove_chars drop b))%string.
  now rewrite IH.
Qed.

(** The normal form is built character by character. *)
Lemma normalize_app a b :
  _normalize_expression (a +:+ b)
  = (_normalize_expression a +:+ _normalize_expression b)%string.
Proof.
  unfold _normalize_expression.
  now rewrite remove_chars_app, lower_app, !remove_chars_app.
Qed.

Lemma normalize_cons c e :
  _normalize_expression (String c e)
  = (_normalize_expression (String c EmptyString) +:+ _normalize_expression e)%string.
Proof. apply (normalize_app (String c EmptyString) e). Qed.

Lemma normalize_char_idem c :
  _normalize_expression (_normalize_expression (String c EmptyString))
  = _normalize_expression (String c EmptyString).
Proof. destruct c as [[] [] [] [] [] [] [] []]; reflexivity. Qed.

Lemma normalize_char_lower c :
  _normalize_expression (String (Py.lower_char c) EmptyString)
  = _normalize_expression (String c EmptyString).
Proof. destruct c as [[] [] [] [] [] [] [] []]; reflexivity. Qed.

Lemma normalize_char_dropped c :
  Py.isspace c = true \/ c = "*"%char \/ c = ascii_of_nat 215 ->
  _normalize_expression (String c EmptyString) = EmptyString.
Proof.
  intros [Hs | [-> | ->]]; [|reflexivity | reflexivity].
  unfold _normalize_expression. cbn [remove_chars]. now rewrite Hs.
Qed.

Lemma normalize_idem e :
  _normalize_expression (_normalize_expression e) = _normalize_expression e.
Proof.
  induction e as [|c e IH]; [reflexivity|].
  rewrite (normalize_cons c e), normalize_app, normalize_char_idem, IH.
  reflexivity.
Qed.

(** [_normalize_expression] is idempotent, ignores the case of letters
    and ignores white space and multiplication signs wherever they
    stand. *)
Theorem normalize_expression_ignores_layout :
  (forall e, _normalize_expression (_normalize_expression e)
             = _normalize_expression e) /\
  (forall e, _normalize_expression (Py.lower e) = _normalize_expression e) /\
  (forall a c b,
     Py.isspace c = true \/ c = "*"%char \/ c = ascii_of_nat 215 ->
     _normalize_expression (a +:+ String c b) = _normalize_expression (a +:+ b)).
Proof.
  split; [|split].
  - exact normalize_idem.
  - induction e as [|c e IH]; [reflexivity|].
    change (Py.lower (String c e)) with (String (Py.lower_char c) (Py.lower e)).
    rewrite (normalize_cons (Py.lower_char c)), (normalize_cons c),
      normalize_char_lower, IH.
    reflexivity.
  - intros a c b Hc.
    rewrite !normalize_app, (normalize_cons c b), (normalize_char_dropped c Hc).
    reflexivity.
Qed.

Context `{MathOracle}.


End NormalizeFacts.

Section NgramFacts.
Import Validator.

Lemma lower_char_idem c : Py.lower_char (Py.lower_char c) = Py.lower_char c.
Proof. destruct c as [[] [] [] [] [] [] [] []]; reflexivity. Qed.

Lemma lower_idem s : Py.lower (Py.lower s) = Py.lower s.
Proof.
  induction s as [|c s IH]; [reflexivity|].
  simpl. now rewrite lower_char_idem, IH.
Qed.

(** The 3-gram overlap does not depend on the order of its two
    arguments nor on the case of letters; it is at most the number of
    3-word windows of the shorter text, and zero as soon as one text has
    fewer than three words. *)
Theorem ngram_overlap_bounds (text1 text2 : string) :
  _compute_ngram_overlap text1 text2 = _compute_ngram_overlap text2 text1 /\
  _compute_ngram_overlap (Py.lower text1) text2 = _compute_ngram_overlap text1 text2 /\
  (_compute_ngram_overlap text1 text2
   <= Nat.min (List.length (Py.split text1) - 2) (List.length (Py.split text2) - 2))%nat /\
  ((List.length (Py.split text1) < 3)%nat \/ (List.length (Py.split text2) < 3)%nat ->
   _compute_ngram_overlap text1 text2 = 0%nat).
Proof.
  assert (Hsym : forall a b, _compute_ngram_overlap a b = _compute_ngram_overlap b a).
  { intros a b. unfold _compute_ngram_overlap, _compute_ngram_overlap_n.
    f_equal. apply (comm_L (∩)). }
  assert (Hle : forall a b,
             (_compute_ngram_overlap a b <= List.length (Py.split a) - 2)%nat).
  { intros a b. unfold _compute_ngram_overlap.
    pose proof (overlap_le_ngrams a b 3) as H1.
    pose proof (ngrams_size_le (Py.split (Py.lower a)) 3) as H2.
    rewrite split_lower_length in H2. lia. }
  split; [apply Hsym|]. split; [|split].
  - unfold _compute_ngram_overlap, _compute_ngram_overlap_n. now rewrite lower_idem.
  - pose proof (Hle text1 text2). pose proof (Hle text2 text1).
    rewrite (Hsym text2 text1) in *. lia.
  - intros [Hs | Hs].
    + pose proof (Hle text1 text2). lia.
    + pose proof (Hle text2 text1). rewrite (Hsym text2 text1) in *. lia.
Qed.

End NgramFacts.

(** ** More on the solution parser *)

Section ParserMore.
Import Generator PySpec.

Local Abbreviation nl := ("010"%char).
Local Abbreviation begins := is_numbered_step.
Local Abbreviation groups := (ParserSpec.groups begins Py.strip).
Local Abbreviation number_groups := (ParserSpec.number_groups begins).

(** A stripped line that is not empty starts with a visible character. *)
Lemma lstrip_head s :
  Py.lstrip s = EmptyString \/
  exists c r, Py.lstrip s = String c r /\ Py.isspace c = false.
Proof.
  induction s as [|c s IH]; [now left|]. simpl.
  destruct (Py.isspace c) eqn:Hc; [exact IH|]. right. eauto.
Qed.

Lemma rstrip_head c r :
  Py.isspace c = false -> exists r', Py.rstrip (String c r) = String c r'.
Proof.
  intros Hc. simpl. destruct (Py.rstrip r); [rewrite Hc|]; eauto.
Qed.

Lemma strip_head s :
  Py.truthy (Py.strip s) = true ->
  exists c r, Py.strip s = String c r /\ Py.isspace c = false.
Proof.
  unfold Py.strip. destruct (lstrip_head s) as [-> | (c & r & -> & Hc)];
    [discriminate|].
  intros _. destruct (rstrip_head c r Hc) as [r' ->]. eauto.
Qed.

Lemma visible_head_not_blank c r :
  Py.isspace c = false -> Py.truthy (Py.strip (String c r)) = true.
Proof.
  intros Hc. unfold Py.strip. cbn [Py.lstrip]. rewrite Hc.
  destruct (rstrip_head c r Hc) as [r' ->]. reflexivity.
Qed.

Lemma join_head sep c r g :
  exists r', Py.join sep (String c r :: g) = String c r'.
Proof. destruct g; simpl; eauto. Qed.

Lemma split_on_lacks sep s : Forall (lacks sep) (Py.split_on sep s).
Proof.
  induction s as [|c s IH]; simpl; [repeat constructor|].
  destruct (Ascii.eqb c sep) eqn:Hc.
  - constructor; [exact I | exact IH].
  - apply Ascii.eqb_neq in Hc.
    destruct (Py.split_on sep s) as [|p ps]; [repeat constructor; assumption|].
    apply Forall_cons in IH as [Hp Hps]. constructor; [split; assumption | exact Hps].
Qed.

Lemma lstrip_lacks c s : lacks c s -> lacks c (Py.lstrip s).
Proof.
  induction s as [|x s IH]; [trivial|]. intros [Hx Hs]. simpl.
  destruct (Py.isspace x); [now apply IH | split; assumption].
Qed.

Lemma rstrip_lacks c s : lacks c s -> lacks c (Py.rstrip s).
Proof.
  induction s as [|x s IH]; [trivial|]. intros [Hx Hs]. simpl.
  specialize (IH Hs). destruct (Py.rstrip s) eqn:Hr.
  - destruct (Py.isspace x); [exact I | split; [exact Hx | exact I]].
  - split; assumption.
Qed.

Lemma strip_lacks c s : lacks c s -> lacks c (Py.strip s).
Proof. intros Hs. now apply rstrip_lacks, lstrip_lacks. Qed.

Lemma split_on_single sep s : lacks sep s -> Py.split_on sep s = [s].
Proof.
  induction s as [|c s IH]; [reflexivity|]. intros [Hc Hs]. simpl.
  apply Ascii.eqb_neq in Hc. rewrite Hc, (IH Hs). reflexivity.
Qed.

Lemma split_on_app sep a b :
  lacks sep a ->
  Py.split_on sep (a +:+ String sep b) = a :: Py.split_on sep b.
Proof.
  induction a as [|c a IH]; intros Ha.
  - change (Py.split_on sep (String sep b) = EmptyString :: Py.split_on sep b).
    simpl. now rewrite Ascii.eqb_refl.
  - destruct Ha as [Hc Ha].
    change (Py.split_on sep (String c (a +:+ String sep b))
            = String c a :: Py.split_on sep b).
    simpl. apply Ascii.eqb_neq in Hc. rewrite Hc, (IH Ha). reflexivity.
Qed.

(** Joining lines and splitting again gives the lines back. *)
Lemma split_join sep g :
  g <> [] -> Forall (lacks sep) g ->
  Py.split_on sep (Py.join (String sep EmptyString) g) = g.
Proof.
  induction g as [|p g IH]; [congruence|]. intros _ Hall.
  apply Forall_cons in Hall as [Hp Hg].
  destruct g as [|q g]; [now apply split_on_single|].
  change (Py.join (String sep EmptyString) (p :: q :: g))
    with (p +:+ String sep (Py.join (String sep EmptyString) (q :: g)))%string.
  rewrite split_on_app by exact Hp. f_equal. apply IH; [discriminate | exact Hg].
Qed.

(** The lines of the groups: the stripped non-blank lines, all of them
    and in order. *)
Lemma groups_concat lines :
  concat (groups lines)
  = filter (fun l => Py.truthy l = true) (map Py.strip lines).
Proof.
  induction lines as [|line rest IH]; [reflexivity|].
  cbn [ParserSpec.groups map]. rewrite filter_cons.
  destruct (groups_head rest) as (g & gs & Hg & _). rewrite Hg in *.
  destruct (Py.truthy (Py.strip line)) eqn:Ht; cbn [negb].
  - destruct (begins (Py.strip line)); simpl; simpl in IH; now rewrite IH.
  - simpl. exact IH.
Qed.

Lemma groups_lines lines :
  Forall (lacks nl) lines ->
  Forall (Forall (fun l => lacks nl l /\
                           exists c r, l = String c r /\ Py.isspace c = false))
         (groups lines).
Proof.
  induction 1 as [|line rest Hline Hrest IH]; [repeat constructor|].
  cbn [ParserSpec.groups].
  destruct (groups_head rest) as (g & gs & Hg & _). rewrite Hg in *.
  apply Forall_cons in IH as [Hgood Hgs].
  destruct (Py.truthy (Py.strip line)) eqn:Ht; cbn [negb].
  - assert (Hl : lacks nl (Py.strip line) /\
                 exists c r, Py.strip line = String c r /\ Py.isspace c = false)
      by (split; [now apply strip_lacks | now apply strip_head]).
    destruct (begins (Py.strip line)).
    + constructor; [constructor|].
      constructor; [constructor; assumption | assumption].
    + constructor; [constructor; assumption | assumption].
  - constructor; [constructor|]. constructor; assumption.
Qed.

Lemma number_groups_lines gs : forall n,
  Forall (Forall (fun l => lacks nl l /\
                           exists c r, l = String c r /\ Py.isspace c = false)) gs ->
  let steps := number_groups n gs in
  Forall (fun s => Py.truthy (Py.strip (text s)) = true) steps /\
  map (fun s => Py.split_on nl (text s)) steps = filter (fun g => g <> []) gs /\
  Forall (fun s => n <= step_num s)%nat steps /\
  Sorted le (map step_num steps).
Proof.
  induction gs as [|g gs IH]; intros n Hall; [repeat split; constructor|].
  apply Forall_cons in Hall as [Hg Hgs]. rewrite filter_cons.
  destruct g as [|line g].
  - destruct (decide (@nil string <> [])) as [Hne|_]; [congruence|].
    apply IH, Hgs.
  - destruct (decide (line :: g <> [])) as [_|Hne]; [|exfalso; apply Hne; discriminate].
    cbn [ParserSpec.number_groups].
    set (n' := if begins line then S n else n).
    assert (Hn : (n <= n')%nat) by (unfold n'; destruct (begins line); lia).
    destruct (IH n' Hgs) as (Hblank & Hsplit & Hge & Hsorted).
    cbn zeta. cbn [map]. repeat split.
    + constructor; [|exact Hblank].
      apply Forall_cons in Hg as [(_ & c & r & -> & Hc) _]. cbn [make_step text].
      destruct (join_head (String nl EmptyString) c r g) as [r' ->].
      now apply visible_head_not_blank.
    + f_equal; [|exact Hsplit]. cbn [make_step text].
      apply split_join; [discriminate|].
      eapply Forall_impl; [exact Hg | intros l [Hl _]; exact Hl].
    + constructor; [exact Hn|].
      eapply Forall_impl; [exact Hge | intros s Hs; cbn beta in *; lia].
    + constructor; [exact Hsorted|].
      destruct (number_groups n' gs) as [|s ss] eqn:Hss; [constructor|].
      constructor. apply Forall_cons in Hge as [Hs _]. exact Hs.
Qed.

Lemma parsed_steps_not_blank solution_text :
  Forall (fun s => Py.truthy (Py.strip (text s)) = true)
    (parse_solution_steps solution_text).
Proof.
  rewrite parse_solution_steps_groups. unfold ParserSpec.parse.
  destruct (number_groups_lines (groups (Py.split_on nl solution_text)) 0)
    as (Hblank & _).
  { apply groups_lines, split_on_lacks. }
  exact Hblank.
Qed.

Lemma parsed_lines solution_text :
  concat (map (fun s => Py.split_on nl (text s)) (parse_solution_steps solution_text))
  = filter (fun l => Py.truthy l = true)
           (map Py.strip (Py.split_on nl solution_text)).
Proof.
  rewrite parse_solution_steps_groups. unfold ParserSpec.parse.
  destruct (number_groups_lines (groups (Py.split_on nl solution_text)) 0)
    as (_ & Hsplit & _).
  { apply groups_lines, split_on_lacks. }
  rewrite Hsplit, <- groups_concat.
  generalize (groups (Py.split_on nl solution_text)). clear.
  induction l as [|g gs IH]; [reflexivity|].
  rewrite filter_cons. destruct (decide (g <> [])) as [Hg|Hg]; simpl.
  - now rewrite IH.
  - destruct g; [exact IH | exfalso; apply Hg; discriminate].
Qed.

(** No line is lost: the steps of [parse_solution_steps] are never
    blank, their texts split back into exactly the stripped non-blank
    lines of the solution, in order, and their numbers never
    decrease. *)
Theorem parser_keeps_every_line (solution_text : string) :
  let steps := parse_solution_steps solution_text in
  Forall (fun s => Py.truthy (Py.strip (text s)) = true) steps /\
  concat (map (fun s => Py.split_on nl (text s)) steps)
  = filter (fun l => Py.truthy l = true)
           (map Py.strip (Py.split_on nl solution_text)) /\
  Sorted le (map step_num steps).
Proof.
  intros steps. unfold steps.
  split; [apply parsed_steps_not_blank|]. split; [apply parsed_lines|].
  rewrite parse_solution_steps_groups. unfold ParserSpec.parse.
  destruct (number_groups_lines (groups (Py.split_on nl solution_text)) 0)
    as (_ & _ & _ & Hsorted).
  { apply groups_lines, split_on_lacks. }
  exact Hsorted.
Qed.

End ParserMore.

Section StrictModeFacts.
Import Validator ValidatorSpec StrictMode.
Context `{SentenceEncoder} `{MathOracle}.

Lemma parsed_steps_are_kept solution_text :
  filter (fun s => non_empty s = true)
         (map step_dict (Generator.parse_solution_steps solution_text))
  = map step_dict (Generator.parse_solution_steps solution_text).
Proof.
  pose proof (parsed_steps_not_blank solution_text) as Hblank.
  induction Hblank as [|s steps Hs _ IH]; [reflexivity|].
  cbn [map]. rewrite filter_cons.
  change (non_empty (step_dict s)) with (Py.truthy (Py.strip (Generator.text s))).
  rewrite Hs. simpl. now rewrite IH.
Qed.

Lemma blank_solution_has_no_step solution_text :
  Forall (fun line => Py.truthy (Py.strip line) = false)
         (Py.split_on "010"%char solution_text) ->
  Generator.parse_solution_steps solution_text = [].
Proof.
  intros Hall.
  pose proof (parsed_lines solution_text) as Hlines.
  assert (Hnone : filter (fun l => Py.truthy l = true)
                    (map Py.strip (Py.split_on "010"%char solution_text)) = []).
  { clear Hlines. induction Hall as [|line rest Hline _ IH]; [reflexivity|].
    cbn [map]. rewrite filter_cons, Hline. simpl. exact IH. }
  rewrite Hnone in Hlines.
  destruct (Generator.parse_solution_steps solution_text) as [|s steps];
    [reflexivity|].
  cbn [map concat] in Hlines. apply app_eq_nil in Hlines as [Hs _].
  destruct (Generator.text s) as [|c t]; [discriminate|].
  simpl in Hs. destruct (Ascii.eqb c "010"); [discriminate|].
  destruct (Py.split_on "010" t); discriminate.
Qed.

(** [validate_strict_mode] accepts a solution, and returns its text
    unchanged, exactly when every parsed step is supported by one of the
    two checks; otherwise it returns the refusal sentence.  No parsed
    step is skipped as blank, and a solution made of blank lines only is
    accepted. *)
Theorem validate_strict_mode_verdict
  (clock : Audit.Clock) (solution_text : string) (chunks : list ChunkDict)
  (fs : Audit.FS) :
  validation_log default_validator clock ∉ Audit.unwritable fs ->
  let steps := map step_dict (Generator.parse_solution_steps solution_text) in
  exists ok answer fs',
    validate_strict_mode clock solution_text chunks fs = Ok (ok, answer, fs') /\
    (ok = true <->
     forall step, step ∈ steps -> supported_by_either default_validator chunks step = true) /\
    answer = (if ok then solution_text
              else "No supported solution found in resources.") /\
    (Forall (fun line => Py.truthy (Py.strip line) = false)
            (Py.split_on "010"%char solution_text) -> ok = true).
Proof.
  intros Hw steps.
  destruct (validate_solution_returns default_validator clock steps chunks
              "strict" fs Hw) as [fs' Hret].
  destruct (validation_result_fields default_validator chunks steps "strict")
    as (_ & Hall & _ & _ & _ & Hst).
  set (r := validation_result default_validator steps chunks "strict") in *.
  unfold steps in Hall. rewrite parsed_steps_are_kept in Hall. fold steps in Hall.
  rewrite Hall in Hst. simpl in Hst.
  assert (Hforall : forallb (supported_by_either default_validator chunks) steps = true
                    <-> forall step, step ∈ steps ->
                          supported_by_either default_validator chunks step = true).
  { rewrite forallb_forall. split; intros Hf step Hin; apply Hf;
      now apply list_elem_of_In. }
  unfold validate_strict_mode. fold steps. rewrite Hret.
  change (Ok (r, fs') ≫= _) with
    (match status r with
     | PASSED => Ok (true, solution_text, fs')
     | _ => Ok (false, "No supported solution found in resources.", fs')
     end).
  destruct (forallb (supported_by_either default_validator chunks) steps) eqn:Hf;
    simpl in Hst; injection Hst as -> _.
  - exists true, solution_text, fs'.
    split; [reflexivity|]. split; [|split; reflexivity].
    split; [intros _; apply Hforall; reflexivity | reflexivity].
  - exists false, "No supported solution found in resources.", fs'.
    split; [reflexivity|]. split; [|split; [reflexivity|]].
    + split; [discriminate|]. intros Hsup. apply Hforall in Hsup. congruence.
    + intros Hblank. apply blank_solution_has_no_step in Hblank.
      unfold steps in Hf. rewrite Hblank in Hf. discriminate.
Qed.

End StrictModeFacts.

(** ** More on the retriever *)

Section RerankFacts.
Import Retriever RetrieverSpec.

(** What the reranking leaves untouched in a chunk. *)
Local Abbreviation core :=
  (fun c : RetrievedChunk =>
     (chunk_id c, chunk_text c, metadata c, distance c, similarity c)).

Lemma Sorted_of_lookup {A} (R : A -> A -> Prop) l :
  (forall i x y, l !! i = Some x -> l !! S i = Some y -> R x y) -> Sorted R l.
Proof.
  induction l as [|a l IH]; intros Hadj; [constructor|].
  constructor.
  - apply IH. intros i x y Hx Hy. exact (Hadj (S i) x y Hx Hy).
  - destruct l as [|b l]; constructor. exact (Hadj 0%nat a b eq_refl eq_refl).
Qed.

(** A list already in descending order is left as it is: the sort is
    stable. *)
Lemma sort_desc_sorted {A} (key : A -> Q) l :
  Sorted (fun x y => (key y <= key x)%Q) l -> sort_desc key l = l.
Proof.
  induction 1 as [|x l Hs IH Hh]; [reflexivity|].
  simpl. fold (sort_desc key l). rewrite IH.
  destruct Hh as [|y l' Hxy]; [reflexivity|]. simpl.
  apply Qle_bool_iff in Hxy. now rewrite Hxy.
Qed.

Lemma imap_set_rank_core l : forall (f : nat -> nat),
  map core (imap (fun i => set_rank (f i)) l) = map core l.
Proof.
  induction l as [|c l IH]; intros f; [reflexivity|].
  cbn [imap map]. f_equal. apply (IH (f ∘ S)).
Qed.

Lemma imap_set_rank_ids l : forall (f : nat -> nat),
  map chunk_id (imap (fun i => set_rank (f i)) l) = map chunk_id l.
Proof.
  induction l as [|c l IH]; intros f; [reflexivity|].
  cbn [imap map]. f_equal. apply (IH (f ∘ S)).
Qed.

Lemma imap_set_rank_ranks l : forall k,
  map rank (imap (fun i => set_rank (k + i)) l) = seq k (List.length l).
Proof.
  induction l as [|c l IH]; intros k; [reflexivity|].
  cbn [imap map seq List.length]. rewrite Nat.add_0_r. f_equal.
  rewrite <- (IH (S k)). f_equal. apply imap_ext. intros i x _. simpl.
  f_equal. lia.
Qed.

(** The reranking loses no chunk and invents none: up to the order, the
    chunks come out as they went in, with ranks 0, 1, 2, ... by
    position. *)
Theorem rerank_keeps_every_chunk (chunks : list RetrievedChunk) :
  let out := _apply_priority_boost chunks in
  Permutation (map core out) (map core chunks) /\
  map rank out = seq 0 (List.length chunks) /\
  (NoDup (map chunk_id chunks) -> NoDup (map chunk_id out)).
Proof.
  intros out. unfold out, _apply_priority_boost.
  assert (Hperm : Permutation
            (map core (imap set_rank (sort_desc boosted_key (map set_boost chunks))))
            (map core chunks)).
  { rewrite (imap_set_rank_core _ (fun i => i)).
    rewrite (sort_desc_perm boosted_key (map set_boost chunks)).
    rewrite map_map. reflexivity. }
  split; [exact Hperm|]. split.
  - rewrite (imap_set_rank_ranks _ 0).
    rewrite (Permutation_length (sort_desc_perm _ _)), length_map. reflexivity.
  - intros Hnd.
    assert (Hids : Permutation
              (map chunk_id (imap set_rank (sort_desc boosted_key (map set_boost chunks))))
              (map chunk_id chunks)).
    { apply (Permutation_map (fun p : string * string * Metadata * Q * Q => p.1.1.1.1))
        in Hperm.
      rewrite !map_map in Hperm. exact Hperm. }
    now rewrite Hids.
Qed.

Lemma boost_of_bounds m : (1 <= boost_of m)%Q /\ (boost_of m <= 143 # 100)%Q.
Proof.
  unfold boost_of, priority_weight.
  destruct (default true (m_trusted m));
    destruct (String.eqb _ "rubric"); try (split; discriminate);
    destruct (String.eqb _ "slides"); try (split; discriminate);
    destruct (String.eqb _ "textbook"); try (split; discriminate);
    destruct (String.eqb _ "normal"); split; discriminate.
Qed.

(** In the reranked list a strictly larger boosted score means a
    strictly smaller rank. *)
Lemma rerank_strict_order chunks x y :
  x ∈ _apply_priority_boost chunks -> y ∈ _apply_priority_boost chunks ->
  (boosted_key y < boosted_key x)%Q -> (rank x < rank y)%nat.
Proof.
  intros Hx Hy Hlt.
  apply list_elem_of_lookup in Hx as [i Hi]. apply list_elem_of_lookup in Hy as [j Hj].
  destruct (apply_priority_boost_lookup _ _ _ Hi) as [Hri _].
  destruct (apply_priority_boost_lookup _ _ _ Hj) as [Hrj _].
  rewrite Hri, Hrj. apply Nat.nle_gt. intros Hji.
  assert (Hsorted : StronglySorted (fun a b => (boosted_key b <= boosted_key a)%Q)
                      (_apply_priority_boost chunks)).
  { apply Sorted_StronglySorted.
    - intros a b c Hab Hbc. eapply Qle_trans; eassumption.
    - apply Sorted_of_lookup, apply_priority_boost_descending. }
  destruct (decide (j = i)) as [->|Hne].
  - rewrite Hi in Hj. injection Hj as ->. now apply Qlt_irrefl in Hlt.
  - assert (Hle : (boosted_key x <= boosted_key y)%Q).
    { revert Hsorted Hi Hj. generalize (_apply_priority_boost chunks).
      clear -Hji Hne. intros l Hs. revert i j Hji Hne.
      induction Hs as [|a l Hs IH Hall]; intros i j Hji Hne Hi Hj; [discriminate|].
      destruct j as [|j].
      - destruct i as [|i]; [lia|]. simpl in Hi, Hj. injection Hj as ->.
        rewrite Forall_forall in Hall. apply Hall.
        eapply list_elem_of_lookup_2, Hi.
      - destruct i as [|i]; [lia|]. simpl in Hi, Hj.
        apply (IH i j); [lia | lia | assumption | assumption]. }
    eapply Qlt_not_le; eassumption.
Qed.

(** The boost multiplies the similarity by a factor between 1 and 1.43:
    1.43 for a trusted rubric, 1 for an untrusted normal source.  For
    the same positive similarity the trusted rubric comes out with the
    smaller rank; for the same negative similarity (a distance above 1)
    it is the other way round. *)
Theorem boost_favours_positive_similarity
  (chunks : list RetrievedChunk) (x y : RetrievedChunk) :
  x ∈ _apply_priority_boost chunks -> y ∈ _apply_priority_boost chunks ->
  m_priority (metadata x) = Some "rubric" -> m_trusted (metadata x) <> Some false ->
  (m_priority (metadata y) = Some "normal" \/ m_priority (metadata y) = None) ->
  m_trusted (metadata y) = Some false ->
  (similarity x == similarity y)%Q ->
  (boosted_key x == similarity x * (143 # 100))%Q /\
  (boosted_key y == similarity y)%Q /\
  ((0 < similarity x)%Q -> (rank x < rank y)%nat) /\
  ((similarity x < 0)%Q -> (rank y < rank x)%nat).
Proof.
  intros Hx Hy Hpx Htx Hpy Hty Hsim.
  assert (Hbx : (boosted_key x == similarity x * (143 # 100))%Q).
  { apply list_elem_of_lookup in Hx as [i Hi].
    destruct (apply_priority_boost_lookup _ _ _ Hi) as (_ & c0 & _ & ->).
    cbn in *. unfold boost_of. rewrite Hpx.
    destruct (m_trusted (metadata c0)) as [[|]|]; try congruence; reflexivity. }
  assert (Hby : (boosted_key y == similarity y)%Q).
  { apply list_elem_of_lookup in Hy as [j Hj].
    destruct (apply_priority_boost_lookup _ _ _ Hj) as (_ & c0 & _ & ->).
    cbn in *. unfold boost_of. rewrite Hty.
    destruct Hpy as [-> | ->]; simpl; apply Qmult_1_r. }
  split; [exact Hbx|]. split; [exact Hby|]. split.
  - intros Hpos. apply (rerank_strict_order chunks); [assumption | assumption |].
    rewrite Hbx, Hby, <- Hsim. lra.
  - intros Hneg. apply (rerank_strict_order chunks); [assumption | assumption |].
    rewrite Hbx, Hby, <- Hsim. lra.
Qed.

(** Chunks that come nearest first and share one priority and one trust
    flag keep their order through the boost. *)
Theorem uniform_boost_keeps_the_order (chunks : list RetrievedChunk) (b : Q) :
  descending similarity chunks ->
  Forall (fun c => boost_of (metadata c) = b) chunks ->
  map chunk_id (_apply_priority_boost chunks) = map chunk_id chunks /\
  Forall (fun c => exists s, boosted_similarity c = Some (s * b)%Q /\ similarity c = s)
         (_apply_priority_boost chunks).
Proof.
  intros Hdesc Hall.
  assert (Hsort : sort_desc boosted_key (map set_boost chunks) = map set_boost chunks).
  { apply sort_desc_sorted, Sorted_of_lookup. intros i x y Hx Hy.
    change (map ?f ?l) with (f <$> l) in Hx, Hy.
    rewrite list_lookup_fmap in Hx, Hy.
    destruct (chunks !! i) as [cx|] eqn:Hcx; [|discriminate].
    destruct (chunks !! S i) as [cy|] eqn:Hcy; [|discriminate].
    simpl in Hx, Hy. injection Hx as <-. injection Hy as <-.
    rewrite Forall_forall in Hall.
    assert (Hbx : boost_of (metadata cx) = b)
      by (apply Hall; eapply list_elem_of_lookup_2, Hcx).
    assert (Hby : boost_of (metadata cy) = b)
      by (apply Hall; eapply list_elem_of_lookup_2, Hcy).
    cbn. rewrite Hbx, Hby.
    apply Qmult_le_compat_r; [exact (Hdesc i cx cy Hcx Hcy)|].
    rewrite <- Hbx. eapply Qle_trans; [|apply boost_of_bounds]. discriminate. }
  unfold _apply_priority_boost. rewrite Hsort. split.
  - rewrite (imap_set_rank_ids _ (fun i => i)), map_map. reflexivity.
  - apply Forall_forall. intros c Hc.
    apply elem_of_lookup_imap_1 in Hc as (i & c1 & -> & Hi).
    change (map ?f ?l) with (f <$> l) in Hi. rewrite list_lookup_fmap in Hi.
    destruct (chunks !! i) as [c0|] eqn:Hc0; [|discriminate].
    simpl in Hi. injection Hi as <-.
    exists (similarity c0). cbn. split; [|reflexivity].
    rewrite Forall_forall in Hall. rewrite (Hall c0); [reflexivity|].
    eapply list_elem_of_lookup_2, Hc0.
Qed.

End RerankFacts.

(** ** More on the chunker *)

Section DecimalFacts.
Import PySpec.

(** Two strings cut at their first occurrence of [c]. *)
Lemma string_cut_at (c : ascii) (a a' r r' : string) :
  lacks c a -> lacks c a' ->
  (a +:+ String c r = a' +:+ String c r')%string -> a = a' /\ r = r'.
Proof.
  revert a'. induction a as [|x a IH]; intros [|x' a'] Ha Ha' Heq.
  - injection Heq as ->. split; reflexivity.
  - change (String c r = String x' (a' +:+ String c r'))%string in Heq.
    injection Heq as <- _. now destruct Ha'.
  - change (String x (a +:+ String c r) = String c r')%string in Heq.
    injection Heq as -> _. now destruct Ha.
  - change (String x (a +:+ String c r) = String x' (a' +:+ String c r'))%string in Heq.
    injection Heq as -> Heq. destruct Ha as [_ Ha]. destruct Ha' as [_ Ha'].
    destruct (IH a' Ha Ha' Heq) as [-> ->]. split; reflexivity.
Qed.

(** The decimal writing of a number holds digits only. *)
Lemma string_of_uint_lacks c d :
  Py.isdigit c = false -> lacks c (NilEmpty.string_of_uint d).
Proof.
  intros Hc. induction d; simpl; try exact I;
    (split; [intros <-; discriminate | assumption]).
Qed.

Lemma str_of_Z_lacks c n :
  Py.isdigit c = false -> c <> "-"%char -> lacks c (Py.str_of_Z n).
Proof.
  intros Hc Hm.
  assert (H0 : "0"%char <> c) by (intros <-; discriminate).
  unfold Py.str_of_Z, NilZero.string_of_int, NilZero.string_of_uint.
  destruct (Z.to_int n) as [d|d].
  - destruct d; try (apply (string_of_uint_lacks c _ Hc)).
    split; [exact H0 | exact I].
  - split; [congruence|].
    destruct d; try (apply (string_of_uint_lacks c _ Hc)).
    split; [exact H0 | exact I].
Qed.

(** Different integers are written differently. *)
Lemma str_of_Z_inj n m : Py.str_of_Z n = Py.str_of_Z m -> n = m.
Proof.
  intros Heq. apply DecimalZ.to_int_inj.
  assert (Hparse : forall z, NilZero.int_of_string (Py.str_of_Z z) = Some (Z.to_int z)).
  { intros z. unfold Py.str_of_Z. apply NilZero.isi; destruct z; simpl;
      try discriminate; intros [= Hnil]; now apply DecimalPos.Unsigned.to_uint_nonnil in Hnil. }
  pose proof (Hparse n) as Hn. rewrite Heq, Hparse in Hn. congruence.
Qed.

Lemma chunk_id_of_inj filename page idx page' idx' :
  IngestSpec.chunk_id_of filename page idx = IngestSpec.chunk_id_of filename page' idx' ->
  page = page' /\ idx = idx'.
Proof.
  unfold IngestSpec.chunk_id_of. intros Heq.
  apply (inj (String.app filename)) in Heq.
  apply (inj (String.app "_p")) in Heq.
  apply string_cut_at in Heq as [Hp Hi]; try (apply str_of_Z_lacks; [reflexivity | discriminate]).
  apply (inj (String.app "c")) in Hi.
  split; now apply str_of_Z_inj.
Qed.

End DecimalFacts.

(** ** Patterns in strings *)

Section PatternFacts.
Import PySpec StringSpec.

Lemma lacks_app c a b : lacks c a -> lacks c b -> lacks c (a +:+ b).
Proof.
  intros Ha Hb. induction a as [|x a IH]; [exact Hb|].
  destruct Ha as [Hx Ha]. split; [exact Hx | exact (IH Ha)].
Qed.

Lemma startswith_app_true p : forall a s,
  Py.startswith p a = true -> Py.startswith p (a +:+ s) = true.
Proof.
  induction p as [|y p IH]; intros a s Ha; [reflexivity|].
  destruct a as [|b a]; [discriminate|].
  change (String b a +:+ s)%string with (String b (a +:+ s)).
  cbn [Py.startswith] in Ha |- *. apply andb_true_iff in Ha as [-> Ha].
  exact (IH a s Ha).
Qed.

Lemma startswith_app_outside p : forall a s,
  Py.startswith p a = false -> begins_outside p s ->
  Py.startswith p (a +:+ s) = false.
Proof.
  induction p as [|y p IH]; intros a s Ha Hs; [discriminate|].
  destruct a as [|b a].
  - change (EmptyString +:+ s)%string with s. destruct s as [|x s]; [reflexivity|].
    destruct Hs as [Hy _]. cbn [Py.startswith].
    apply Ascii.eqb_neq in Hy. now rewrite Hy.
  - change (String b a +:+ s)%string with (String b (a +:+ s)).
    cbn [Py.startswith] in Ha |- *.
    destruct (Ascii.eqb y b); [|reflexivity]. cbn [andb] in Ha |- *.
    apply IH; [exact Ha|]. destruct s as [|x s]; [exact I|]. now destruct Hs.
Qed.

(** An occurrence that begins inside [a] and is not inside [a] runs
    into what follows: its first character there is one of [p] after
    the first. *)
Lemma startswith_app_false p c a s :
  Py.startswith p (String c a) = false -> begins_outside (tail p) s ->
  Py.startswith p (String c a +:+ s) = false.
Proof.
  intros Ha Hs. destruct p as [|y p]; [discriminate|].
  change (String c a +:+ s)%string with (String c (a +:+ s)).
  cbn [Py.startswith] in Ha |- *.
  destruct (Ascii.eqb y c); [|reflexivity]. cbn [andb] in Ha |- *.
  now apply startswith_app_outside.
Qed.

Lemma starts_nowhere_app p a b s :
  starts_nowhere p a (b +:+ s) -> starts_nowhere p b s ->
  starts_nowhere p (a +:+ b) s.
Proof.
  intros Ha Hb. induction a as [|c a IH]; [exact Hb|].
  destruct Ha as [Hstart Ha].
  change (String c a +:+ b)%string with (String c (a +:+ b)).
  split; [|exact (IH Ha)].
  change (String c (a +:+ b) +:+ s)%string with (String c ((a +:+ b) +:+ s)).
  rewrite string_app_assoc. exact Hstart.
Qed.

(** No occurrence starts in a text that lacks the first character of
    the pattern. *)
Lemma starts_nowhere_plain y p a s : lacks y a -> starts_nowhere (String y p) a s.
Proof.
  induction a as [|c a IH]; intros Ha; [exact I|].
  destruct Ha as [Hc Ha]. split; [|exact (IH Ha)].
  change (String c a +:+ s)%string with (String c (a +:+ s)).
  cbn [Py.startswith]. apply not_eq_sym, Ascii.eqb_neq in Hc. now rewrite Hc.
Qed.

(** No occurrence starts in a text that does not hold the pattern when
    what follows cannot continue one. *)
Lemma starts_nowhere_text p a s :
  Py.contains p a = false -> begins_outside (tail p) s -> starts_nowhere p a s.
Proof.
  intros Ha Hs. induction a as [|c a IH]; [exact I|].
  cbn [Py.contains] in Ha. apply orb_false_iff in Ha as [Hstart Ha].
  split; [|exact (IH Ha)]. now apply startswith_app_false.
Qed.

Lemma contains_lacks y p s : lacks y s -> Py.contains (String y p) s = false.
Proof.
  induction s as [|c s IH]; intros Hs; [reflexivity|].
  destruct Hs as [Hc Hs]. cbn [Py.contains Py.startswith].
  apply not_eq_sym, Ascii.eqb_neq in Hc. rewrite Hc. exact (IH Hs).
Qed.

End PatternFacts.

Section ChunkNames.
Import Ingest IngestSpec.
Context `{Tokenizer}.

(** What one run of the loop of [_chunk_text] gives, for any
    configuration: chunks of the given page, named after it, with
    indices that grow from [chunk_idx] on. *)
Lemma chunk_loop_names ing pv tokens : forall fuel start chunk_idx chunks,
  chunk_loop ing pv tokens fuel start chunk_idx = Some chunks ->
  Forall (fun c => well_named (p_filename pv) c /\ page c = p_page pv /\
                   (chunk_idx <= chunk_index c)%Z) chunks /\
  StronglySorted page_then_index chunks.
Proof.
  induction fuel as [|fuel IH]; intros start chunk_idx chunks; simpl;
    destruct (start <? Z.of_nat (List.length tokens))%Z; try discriminate;
    try (intros [= <-]; split; constructor).
  destruct (chunk_loop ing pv tokens fuel _ _) as [rest|] eqn:Hrest; [|discriminate].
  intros [= <-]. destruct (IH _ _ _ Hrest) as [Hall Hsorted]. split.
  - constructor; [repeat split; reflexivity || (cbn; lia)|].
    eapply Forall_impl; [exact Hall|]. intros c (Hn & Hp & Hi).
    repeat split; [exact Hn | exact Hp | lia].
  - constructor; [exact Hsorted|].
    eapply Forall_impl; [exact Hall|]. intros c (_ & Hp & Hi).
    right. split; [now rewrite Hp | cbn; lia].
Qed.

Lemma chunk_text_names ing fuel text filename page_ file_type_ priority_ trusted_
    metadata_ chunks :
  _chunk_text ing fuel text filename page_ file_type_ priority_ trusted_ metadata_
  = Some chunks ->
  Forall (fun c => well_named filename c /\ page c = page_) chunks /\
  StronglySorted page_then_index chunks.
Proof.
  unfold _chunk_text. intros Hrun.
  apply chunk_loop_names in Hrun as [Hall Hsorted]. split; [|exact Hsorted].
  eapply Forall_impl; [exact Hall|]. intros c (Hn & Hp & _). split; assumption.
Qed.

Lemma pdf_pages_names ing fuel filename priority_ trusted_ : forall pages page_num chunks,
  pdf_pages ing fuel filename priority_ trusted_ page_num pages = Some chunks ->
  Forall (fun c => well_named filename c /\ (page_num < page c)%Z) chunks /\
  StronglySorted page_then_index chunks.
Proof.
  induction pages as [|pg pages IH]; intros page_num chunks; simpl.
  - intros [= <-]. split; constructor.
  - destruct (if Py.truthy (Py.strip (page_text pg)) then _ else _)
      as [page_chunks|] eqn:Hpage; [|discriminate]. simpl.
    destruct (pdf_pages ing fuel filename priority_ trusted_ (page_num + 1) pages)
      as [rest|] eqn:Hrest; [|discriminate]. simpl.
    intros [= <-]. destruct (IH _ _ Hrest) as [Hall Hsorted].
    assert (Hhere : Forall (fun c => well_named filename c /\ page c = (page_num + 1)%Z)
                      page_chunks /\ StronglySorted page_then_index page_chunks).
    { destruct (Py.truthy (Py.strip (page_text pg))).
      - now apply chunk_text_names in Hpage.
      - injection Hpage as <-. split; constructor. }
    destruct Hhere as [Hall1 Hsorted1]. split.
    + apply Forall_app. split.
      * eapply Forall_impl; [exact Hall1|]. intros c [Hn Hp]. split; [exact Hn | lia].
      * eapply Forall_impl; [exact Hall|]. intros c [Hn Hp]. split; [exact Hn | lia].
    + apply StronglySorted_app_2; [|exact Hsorted1 | exact Hsorted].
      intros a b Ha Hb. left.
      rewrite Forall_forall in Hall1, Hall.
      destruct (Hall1 a Ha) as [_ ->]. destruct (Hall b Hb) as [_ Hlt]. lia.
Qed.

Lemma pptx_slides_names ing fuel filename priority_ trusted_ : forall slides slide_num chunks,
  pptx_slides ing fuel filename priority_ trusted_ slide_num slides = Some chunks ->
  Forall (fun c => well_named filename c /\ (slide_num <= page c)%Z) chunks /\
  StronglySorted page_then_index chunks.
Proof.
  induction slides as [|slide slides IH]; intros slide_num chunks; simpl.
  - intros [= <-]. split; constructor.
  - destruct (match slide_texts slide with [] => _ | _ => _ end)
      as [slide_chunks|] eqn:Hslide; [|discriminate]. simpl.
    destruct (pptx_slides ing fuel filename priority_ trusted_ (slide_num + 1) slides)
      as [rest|] eqn:Hrest; [|discriminate]. simpl.
    intros [= <-]. destruct (IH _ _ Hrest) as [Hall Hsorted].
    assert (Hhere : Forall (fun c => well_named filename c /\ page c = slide_num)
                      slide_chunks /\ StronglySorted page_then_index slide_chunks).
    { destruct (slide_texts slide).
      - injection Hslide as <-. split; constructor.
      - now apply chunk_text_names in Hslide. }
    destruct Hhere as [Hall1 Hsorted1]. split.
    + apply Forall_app. split.
      * eapply Forall_impl; [exact Hall1|]. intros c [Hn Hp]. split; [exact Hn | lia].
      * eapply Forall_impl; [exact Hall|]. intros c [Hn Hp]. split; [exact Hn | lia].
    + apply StronglySorted_app_2; [|exact Hsorted1 | exact Hsorted].
      intros a b Ha Hb. left.
      rewrite Forall_forall in Hall1, Hall.
      destruct (Hall1 a Ha) as [_ ->]. destruct (Hall b Hb) as [_ Hlt]. lia.
Qed.

(** Chunks named after their page and index, in that order, bear
    pairwise different identifiers. *)
Lemma ordered_names_are_distinct filename chunks :
  Forall (well_named filename) chunks ->
  StronglySorted page_then_index chunks ->
  NoDup (map chunk_id chunks).
Proof.
  intros Hall Hsorted. induction Hsorted as [|a l Hs IH Hlt]; [constructor|].
  apply Forall_cons in Hall as [Ha Hall]. cbn [map].
  constructor; [|exact (IH Hall)].
  change (map ?f ?l) with (f <$> l). intros Hin.
  apply list_elem_of_fmap in Hin as (b & Hid & Hb).
  rewrite Forall_forall in Hall, Hlt.
  pose proof (Hall b Hb) as Hnb. pose proof (Hlt b Hb) as Hab.
  unfold well_named in Ha, Hnb. rewrite Ha, Hnb in Hid.
  apply chunk_id_of_inj in Hid as [Hp Hi].
  destruct Hab as [Hab | [_ Hab]]; lia.
Qed.

Lemma StronglySorted_lookup {A} (R : A -> A -> Prop) l :
  StronglySorted R l ->
  forall i j a b, l !! i = Some a -> l !! j = Some b -> (i < j)%nat -> R a b.
Proof.
  induction 1 as [|x l Hs IH Hx]; intros i j a b Hi Hj Hij.
  - now rewrite lookup_nil in Hi.
  - destruct j as [|j]; [lia|]. cbn in Hj. destruct i as [|i].
    + cbn in Hi. injection Hi as <-. rewrite Forall_forall in Hx.
      apply Hx. eapply list_elem_of_lookup_2, Hj.
    + cbn in Hi. apply (IH i j); [assumption.. | lia].
Qed.

Lemma fmap_Ok_inv {A} (m : option A) (a : A) :
  Ok <$> m = Some (Ok a) -> m = Some a.
Proof. destruct m; simpl; congruence. Qed.

(** The chunks of one file bear pairwise different identifiers, whatever
    the configuration of the chunker, and they come page after page,
    within a page by index. *)
Theorem ingested_chunk_ids_are_distinct
  (ing : DocumentIngestor) (fuel : nat) (filepath : string) (content : Document)
  (priority_ : string) (trusted_ : bool) (chunks : list DocumentChunk) :
  ingest_file ing fuel filepath content priority_ trusted_ = Some (Ok chunks) ->
  NoDup (map chunk_id chunks) /\
  (forall i j a b, chunks !! i = Some a -> chunks !! j = Some b -> (i < j)%nat ->
     page_then_index a b).
Proof.
  intros Hrun.
  assert (Hcase : (Forall (well_named (basename filepath)) chunks /\
                   StronglySorted page_then_index chunks) \/
                  exists c, chunks = [c]).
  { unfold ingest_file in Hrun.
    destruct (String.eqb _ ".pdf").
    { destruct content; try discriminate. apply fmap_Ok_inv in Hrun.
      apply pdf_pages_names in Hrun as [Hall Hs]. left. split; [|exact Hs].
      eapply Forall_impl; [exact Hall|]. now intros c [Hn _]. }
    destruct (String.eqb _ ".docx").
    { destruct content; try discriminate. apply fmap_Ok_inv in Hrun.
      apply chunk_text_names in Hrun as [Hall Hs]. left. split; [|exact Hs].
      eapply Forall_impl; [exact Hall|]. now intros c [Hn _]. }
    destruct (String.eqb _ ".pptx").
    { destruct content; try discriminate. apply fmap_Ok_inv in Hrun.
      apply pptx_slides_names in Hrun as [Hall Hs]. left. split; [|exact Hs].
      eapply Forall_impl; [exact Hall|]. now intros c [Hn _]. }
    destruct (String.eqb _ ".txt" || String.eqb _ ".text").
    { destruct content; try discriminate. apply fmap_Ok_inv in Hrun.
      apply chunk_text_names in Hrun as [Hall Hs]. left. split; [|exact Hs].
      eapply Forall_impl; [exact Hall|]. now intros c [Hn _]. }
    destruct (String.eqb _ ".png" || String.eqb _ ".jpg" || String.eqb _ ".jpeg");
      [|discriminate].
    injection Hrun as <-. right. eexists. reflexivity. }
  destruct Hcase as [[Hall Hs] | [c ->]].
  - split; [eapply ordered_names_are_distinct; eassumption|].
    now apply StronglySorted_lookup.
  - split; [repeat constructor; apply not_elem_of_nil|].
    intros [|i] [|j] a b Hi Hj Hij; try lia; discriminate.
Qed.

End ChunkNames.

Section ChunkSources.
Import Ingest IngestSpec.
Context `{Tokenizer}.

Lemma slice_is_a_run (tokens : list Z) a b : run_of (Py.slice tokens a b) tokens.
Proof.
  unfold run_of, Py.slice.
  set (m := Z.to_nat (Py.clamp_index _ a)). set (n := Z.to_nat _).
  exists (take m tokens), (drop n (drop m tokens)).
  change (firstn n (skipn m tokens)) with (take n (drop m tokens)).
  now rewrite (take_drop n), (take_drop m).
Qed.

(** Every chunk of the loop is cut out of the token list and stamped
    with the provenance, for any configuration. *)
Lemma chunk_loop_made_from ing pv tokens : forall fuel start chunk_idx chunks,
  chunk_loop ing pv tokens fuel start chunk_idx = Some chunks ->
  Forall (made_from pv tokens) chunks.
Proof.
  induction fuel as [|fuel IH]; intros start chunk_idx chunks; simpl;
    destruct (start <? Z.of_nat (List.length tokens))%Z; try discriminate;
    try (intros [= <-]; constructor).
  destruct (chunk_loop ing pv tokens fuel _ _) as [rest|] eqn:Hrest; [|discriminate].
  intros [= <-]. constructor; [|exact (IH _ _ _ Hrest)].
  unfold made_from, make_chunk. cbn.
  repeat split; try reflexivity.
  eexists. split; [apply slice_is_a_run|]. split; reflexivity.
Qed.

(** A chunk of a PDF file names a page of the file, counted from one,
    that is not blank; it carries the blocks of that page, the priority
    and the trust given to the file, and its text decodes a run of
    consecutive tokens of that page. *)
Theorem pdf_chunks_come_from_their_page
  (ing : DocumentIngestor) (fuel : nat) (pages : list PdfPage)
  (filename_ priority_ : string) (trusted_ : bool) (chunks : list DocumentChunk) :
  _ingest_pdf ing fuel pages filename_ priority_ trusted_ = Some chunks ->
  forall c, c ∈ chunks ->
    exists pg,
      (1 <= page c)%Z /\
      pages !! Z.to_nat (page c - 1) = Some pg /\
      Py.strip (page_text pg) <> EmptyString /\
      made_from (mkProvenance filename_ (page c) "pdf" priority_ trusted_
                   (Blocks (page_blocks pg)))
        (tok_encode (page_text pg)) c.
Proof.
  unfold _ingest_pdf.
  assert (Hgen : forall pages page_num chunks,
            pdf_pages ing fuel filename_ priority_ trusted_ page_num pages = Some chunks ->
            forall c, c ∈ chunks ->
              exists pg,
                (page_num + 1 <= page c)%Z /\
                pages !! Z.to_nat (page c - page_num - 1) = Some pg /\
                Py.strip (page_text pg) <> EmptyString /\
                made_from (mkProvenance filename_ (page c) "pdf" priority_ trusted_
                             (Blocks (page_blocks pg)))
                  (tok_encode (page_text pg)) c).
  { clear pages chunks.
    induction pages as [|pg pages IH]; intros page_num chunks; simpl.
    - intros [= <-] c Hc. now apply elem_of_nil in Hc.
    - destruct (if Py.truthy (Py.strip (page_text pg)) then _ else _)
        as [page_chunks|] eqn:Hpage; [|discriminate]. simpl.
      destruct (pdf_pages ing fuel filename_ priority_ trusted_ (page_num + 1) pages)
        as [rest|] eqn:Hrest; [|discriminate]. simpl.
      intros [= <-] c Hc. apply elem_of_app in Hc as [Hc | Hc].
      + destruct (Py.strip (page_text pg)) as [|x s] eqn:Hstrip;
          [injection Hpage as <-; now apply elem_of_nil in Hc|].
        simpl in Hpage. unfold _chunk_text in Hpage.
        apply chunk_loop_made_from in Hpage.
        rewrite Forall_forall in Hpage. specialize (Hpage c Hc).
        pose proof Hpage as (_ & Hp & _). cbn in Hp.
        exists pg. rewrite Hp. split; [lia|]. split.
        * replace (page_num + 1 - page_num - 1)%Z with 0%Z by lia. reflexivity.
        * split; [rewrite Hstrip; discriminate | exact Hpage].
      + destruct (IH _ _ Hrest c Hc) as (pg' & Hle & Hlook & Hnb & Hmade).
        exists pg'. split; [lia|]. split; [|split; assumption].
        replace (Z.to_nat (page c - page_num - 1))
          with (S (Z.to_nat (page c - (page_num + 1) - 1))) by lia.
        exact Hlook. }
  intros Hrun c Hc. destruct (Hgen _ _ _ Hrun c Hc) as (pg & Hle & Hlook & Hnb & Hmade).
  exists pg. split; [lia|]. split; [|split; assumption].
  now replace (page c - 1)%Z with (page c - 0 - 1)%Z by lia.
Qed.

(** A chunk of a PPTX file names a slide of the file, counted from one,
    that has a shape with visible text; its text decodes a run of
    consecutive tokens of the texts of that slide, joined by newlines. *)
Theorem pptx_chunks_come_from_their_slide
  (ing : DocumentIngestor) (fuel : nat) (slides : list (list (option string)))
  (filename_ priority_ : string) (trusted_ : bool) (chunks : list DocumentChunk) :
  _ingest_pptx ing fuel slides filename_ priority_ trusted_ = Some chunks ->
  forall c, c ∈ chunks ->
    exists slide,
      (1 <= page c)%Z /\
      slides !! Z.to_nat (page c - 1) = Some slide /\
      slide_texts slide <> [] /\
      made_from (mkProvenance filename_ (page c) "pptx" priority_ trusted_ NoMeta)
        (tok_encode (Py.join (String "010"%char EmptyString) (slide_texts slide))) c.
Proof.
  unfold _ingest_pptx.
  assert (Hgen : forall slides slide_num chunks,
            pptx_slides ing fuel filename_ priority_ trusted_ slide_num slides = Some chunks ->
            forall c, c ∈ chunks ->
              exists slide,
                (slide_num <= page c)%Z /\
                slides !! Z.to_nat (page c - slide_num) = Some slide /\
                slide_texts slide <> [] /\
                made_from (mkProvenance filename_ (page c) "pptx" priority_ trusted_ NoMeta)
                  (tok_encode (Py.join (String "010"%char EmptyString)
                                 (slide_texts slide))) c).
  { clear slides chunks.
    induction slides as [|slide slides IH]; intros slide_num chunks; simpl.
    - intros [= <-] c Hc. now apply elem_of_nil in Hc.
    - destruct (match slide_texts slide with [] => _ | _ => _ end)
        as [slide_chunks|] eqn:Hslide; [|discriminate]. simpl.
      destruct (pptx_slides ing fuel filename_ priority_ trusted_ (slide_num + 1) slides)
        as [rest|] eqn:Hrest; [|discriminate]. simpl.
      intros [= <-] c Hc. apply elem_of_app in Hc as [Hc | Hc].
      + destruct (slide_texts slide) as [|t ts] eqn:Htexts;
          [injection Hslide as <-; now apply elem_of_nil in Hc|].
        unfold _chunk_text in Hslide.
        apply chunk_loop_made_from in Hslide.
        rewrite Forall_forall in Hslide. specialize (Hslide c Hc).
        pose proof Hslide as (_ & Hp & _). cbn in Hp.
        exists slide. rewrite Hp, Htexts. split; [lia|]. split.
        * replace (slide_num - slide_num)%Z with 0%Z by lia. reflexivity.
        * split; [discriminate | exact Hslide].
      + destruct (IH _ _ Hrest c Hc) as (slide' & Hle & Hlook & Hnb & Hmade).
        exists slide'. split; [lia|]. split; [|split; assumption].
        replace (Z.to_nat (page c - slide_num))
          with (S (Z.to_nat (page c - (slide_num + 1)))) by lia.
        exact Hlook. }
  intros Hrun c Hc. exact (Hgen _ _ _ Hrun c Hc).
Qed.

End ChunkSources.

(** ** The chunks as text for the model *)

Section FormatFacts.
Import Retriever Prompt PromptSpec.

Lemma string_length_app (a b : string) :
  String.length (a +:+ b) = (String.length a + String.length b)%nat.
Proof.
  induction a as [|c a IH]; [reflexivity|].
  change (S (String.length (a +:+ b)) = S (String.length a + String.length b)).
  now rewrite IH.
Qed.

Lemma join_length sep parts :
  String.length (Py.join sep parts)
  = (total_length parts + String.length sep * (List.length parts - 1))%nat.
Proof.
  induction parts as [|p [|q parts] IH].
  - simpl. lia.
  - simpl. lia.
  - change (Py.join sep (p :: q :: parts)) with (p +:+ sep +:+ Py.join sep (q :: parts)).
    rewrite !string_length_app, IH. cbn [total_length foldr List.length]. lia.
Qed.

Lemma total_length_app l1 l2 :
  total_length (l1 ++ l2) = (total_length l1 + total_length l2)%nat.
Proof. induction l1 as [|s l1 IH]; simpl; [reflexivity | rewrite IH; lia]. Qed.

(** The loop keeps a prefix of the entries: the longest one that fits. *)
Lemma format_loop_prefix max_length : forall chunks total,
  exists k,
    (k <= List.length chunks)%nat /\
    format_loop max_length total chunks = take k (map entry chunks) /\
    (k <> 0%nat ->
     (total + Z.of_nat (total_length (take k (map entry chunks))) <= max_length)%Z) /\
    ((k < List.length chunks)%nat ->
     (total + Z.of_nat (total_length (take (S k) (map entry chunks))) > max_length)%Z).
Proof.
  induction chunks as [|chunk chunks IH]; intros total.
  - exists 0%nat. simpl. repeat split; lia.
  - cbn [format_loop List.length]. cbv zeta.
    destruct (Z.gtb_spec (total + Z.of_nat (String.length (entry chunk)))
                       max_length) as [Hgt | Hle].
    + exists 0%nat. cbn [take map total_length foldr]. repeat split; lia.
    + destruct (IH (total + Z.of_nat (String.length (entry chunk)))%Z)
        as (k & Hk & Hrun & Hfit & Hnext).
      exists (S k). rewrite Hrun. cbn [take map total_length foldr].
      fold (total_length (take k (map entry chunks))).
      split; [lia|]. split; [reflexivity|]. split.
      * intros _. destruct k as [|k]; [rewrite take_0; cbn [total_length foldr]; lia|].
        specialize (Hfit ltac:(lia)). lia.
      * intros Hlt. specialize (Hnext ltac:(lia)).
        cbn [take total_length foldr] in Hnext |- *.
        fold (total_length (take k (map entry chunks))) in Hnext |- *.
        destruct chunks as [|c' chunks']; [simpl in Hlt; lia|].
        cbn [map take total_length foldr] in Hnext |- *.
        fold (total_length (take k (map entry chunks'))) in Hnext |- *. lia.
Qed.

(** [format_retrieved_chunks] writes the entries of the first [k]
    chunks, where [k] is the largest number of leading chunks whose
    entries together have at most [max_length] characters: a chunk
    after the first one that does not fit is left out even when it
    would fit.  The separators between the entries are not counted, so
    the text has [5 * (k - 1)] characters more than the entries. *)
Theorem format_retrieved_chunks_budget
  (chunks : list RetrievedChunk) (max_length : Z) :
  exists k,
    (k <= List.length chunks)%nat /\
    format_retrieved_chunks chunks max_length
    = Py.join (nl +:+ "---" +:+ nl)%string (map entry (take k chunks)) /\
    (k <> 0%nat ->
     (Z.of_nat (total_length (map entry (take k chunks))) <= max_length)%Z) /\
    ((k < List.length chunks)%nat ->
     (Z.of_nat (total_length (map entry (take (S k) chunks))) > max_length)%Z) /\
    String.length (format_retrieved_chunks chunks max_length)
    = (total_length (map entry (take k chunks)) + 5 * (k - 1))%nat.
Proof.
  destruct (format_loop_prefix max_length chunks 0) as (k & Hk & Hrun & Hfit & Hnext).
  change (map ?f ?l) with (f <$> l) in *.
  rewrite <- !fmap_take in *.
  exists k. unfold format_retrieved_chunks. rewrite Hrun.
  split; [exact Hk|]. split; [reflexivity|].
  split; [intros Hk0; specialize (Hfit Hk0); lia|].
  split; [intros Hlt; specialize (Hnext Hlt); lia|].
  rewrite join_length, length_fmap, length_take.
  change (String.length (nl +:+ "---" +:+ nl)) with 5%nat. lia.
Qed.

End FormatFacts.

Section CitationRoundTrip.
Import Generator Prompt PromptSpec PySpec StringSpec.

Lemma span_not_close_body body rest :
  lacks "]" body ->
  span_not_close (body +:+ String "]" rest) = (body, String "]" rest).
Proof.
  induction body as [|c body IH]; intros Hb; [reflexivity|].
  destruct Hb as [Hc Hb].
  change (span_not_close (String c (body +:+ String "]" rest))
          = (String c body, String "]" rest)).
  cbn [span_not_close]. apply Ascii.eqb_neq in Hc. rewrite Hc, (IH Hb). reflexivity.
Qed.

(** A bracketed token with a body free of ["]"] is matched whole. *)
Lemma match_citation_token body rest :
  body <> EmptyString -> lacks "]" body ->
  match_citation ("[doc:" +:+ body +:+ String "]" rest)
  = Some ("[doc:" +:+ body +:+ "]")%string.
Proof.
  intros Hne Hb. unfold match_citation.
  change (Py.startswith "[doc:" ("[doc:" +:+ body +:+ String "]" rest)) with true.
  change (drop_chars 5 ("[doc:" +:+ body +:+ String "]" rest))
    with (body +:+ String "]" rest).
  rewrite (span_not_close_body body rest Hb).
  destruct body; [congruence | reflexivity].
Qed.

(** The scan passes over the characters of a match. *)
Lemma findall_skip a : forall s,
  findall_citations (String.length a) (a +:+ s) = findall_citations 0 s.
Proof.
  induction a as [|c a IH]; intros s; [reflexivity|].
  change (findall_citations (S (String.length a)) (String c (a +:+ s))
          = findall_citations 0 s).
  cbn [findall_citations]. apply IH.
Qed.

Lemma findall_take_match m rest :
  match_citation (m +:+ rest) = Some m ->
  findall_citations 0 (m +:+ rest) = m :: findall_citations 0 rest.
Proof.
  intros Hm. destruct m as [|c m].
  - apply match_citation_spec in Hm as (body & r & Hbody & _). discriminate.
  - change (String c m +:+ rest)%string with (String c (m +:+ rest)) in *.
    cbn [findall_citations]. rewrite Hm. f_equal.
    change (String.length (String c m) - 1)%nat with (String.length m - 0)%nat.
    rewrite Nat.sub_0_r. apply findall_skip.
Qed.

(** The scan finds nothing where no citation starts. *)
Lemma findall_pass a : forall s,
  starts_nowhere "[doc:" a s ->
  findall_citations 0 (a +:+ s) = findall_citations 0 s.
Proof.
  induction a as [|c a IH]; intros s Hno; [reflexivity|].
  destruct Hno as [Hstart Hno].
  change (String c a +:+ s)%string with (String c (a +:+ s)) in *.
  cbn [findall_citations]. unfold match_citation. rewrite Hstart. exact (IH s Hno).
Qed.

Lemma findall_block pre cite post rest :
  starts_nowhere "[doc:" pre (cite +:+ post +:+ rest) ->
  match_citation (cite +:+ post +:+ rest) = Some cite ->
  starts_nowhere "[doc:" post rest ->
  findall_citations 0 (pre +:+ cite +:+ post +:+ rest)
  = cite :: findall_citations 0 rest.
Proof.
  intros Hpre Hm Hpost.
  rewrite (findall_pass pre _ Hpre), (findall_take_match cite _ Hm).
  now rewrite (findall_pass post rest Hpost).
Qed.

Lemma str_of_nat_lacks c n : Py.isdigit c = false -> lacks c (Py.str_of_nat n).
Proof.
  intros Hc. unfold Py.str_of_nat, NilZero.string_of_uint.
  destruct (Nat.to_uint n); try apply (string_of_uint_lacks c _ Hc).
  split; [intros <-; discriminate | exact I].
Qed.

(** The citation of a quotable chunk is matched whole wherever it
    stands. *)
Lemma match_citation_of chunk rest :
  quotable chunk ->
  match_citation (citation_of chunk +:+ rest) = Some (citation_of chunk).
Proof.
  intros (Hf & Hi & _). unfold citation_of, citation. cbv zeta.
  set (filename := default "unknown" (m_filename _)) in *.
  set (chunk_id := default "unknown" (d_chunk_id chunk)) in *.
  set (page := default 0%Z (m_page _)).
  set (body := (filename +:+ " | p:" +:+ Py.str_of_Z page +:+ " | chunk:" +:+ chunk_id)%string).
  assert (Hbody : lacks "]" body).
  { unfold body. repeat apply lacks_app; try assumption.
    - cbn. repeat split; discriminate.
    - apply str_of_Z_lacks; [reflexivity | discriminate].
    - cbn. repeat split; discriminate. }
  assert (Hne : body <> EmptyString).
  { unfold body. destruct filename; discriminate. }
  pose proof (match_citation_token body rest Hne Hbody) as Hm.
  replace ("[doc:" +:+ filename +:+ " | p:" +:+ Py.str_of_Z page +:+ " | chunk:"
             +:+ chunk_id +:+ "]")%string
    with ("[doc:" +:+ body +:+ "]")%string
    by (unfold body; rewrite !string_app_assoc; reflexivity).
  replace (("[doc:" +:+ body +:+ "]") +:+ rest)%string
    with ("[doc:" +:+ body +:+ String "]" rest)%string
    by (rewrite !string_app_assoc; reflexivity).
  exact Hm.
Qed.

Lemma findall_blocks : forall chunks n,
  Forall quotable chunks ->
  findall_citations 0
    (Py.join (nl +:+ nl +:+ "---" +:+ nl +:+ nl)%string
       (imap (fun i chunk => block (i + n) chunk) chunks))
  = map citation_of chunks.
Proof.
  induction chunks as [|chunk chunks IH]; intros n Hall; [reflexivity|].
  apply Forall_cons in Hall as [Hq Hall].
  rewrite imap_cons.
  rewrite (imap_ext _ (fun i c => block (i + S n) c))
    by (intros i c _; simpl; f_equal; lia).
  specialize (IH (S n) Hall).
  set (sep := (nl +:+ nl +:+ "---" +:+ nl +:+ nl)%string) in *.
  set (text := default EmptyString (d_chunk_text chunk)).
  set (pre := ("Chunk " +:+ Py.str_of_nat (0 + n) +:+ ": ")%string).
  assert (Hpre : forall s, starts_nowhere "[doc:" pre s).
  { intros s. apply starts_nowhere_plain. unfold pre.
    repeat apply lacks_app.
    - cbn. repeat split; discriminate.
    - now apply str_of_nat_lacks.
    - cbn. repeat split; discriminate. }
  assert (Htext : Py.contains "[doc:" text = false) by apply Hq.
  cbn [map]. destruct chunks as [|next chunks].
  - cbn [imap Py.join].
    replace (block (0 + n) chunk)
      with (pre +:+ citation_of chunk +:+ (nl +:+ text) +:+ EmptyString)%string.
    2:{ unfold block, pre. fold text. rewrite !string_app_assoc.
        do 5 f_equal. clear. induction text as [|c t IHt]; [reflexivity|].
        change (String c (t +:+ EmptyString) = String c t). now rewrite IHt. }
    apply findall_block; [apply Hpre | now apply match_citation_of |].
    apply starts_nowhere_app.
    + apply starts_nowhere_plain. cbn. repeat split; discriminate.
    + now apply starts_nowhere_text.
  - remember (imap (fun i c => block (i + S n) c) (next :: chunks)) as blocks eqn:Hblocks.
    destruct blocks as [|b blocks]; [discriminate|].
    change (Py.join sep (block (0 + n) chunk :: b :: blocks))
      with (block (0 + n) chunk +:+ sep +:+ Py.join sep (b :: blocks))%string.
    replace (block (0 + n) chunk +:+ sep +:+ Py.join sep (b :: blocks))%string
      with (pre +:+ citation_of chunk +:+ (nl +:+ text +:+ sep)
              +:+ Py.join sep (b :: blocks))%string
      by (unfold block, pre; fold text; rewrite !string_app_assoc; reflexivity).
    rewrite <- IH.
    apply findall_block; [apply Hpre | now apply match_citation_of |].
    apply starts_nowhere_app; [|apply starts_nowhere_app].
    + apply starts_nowhere_plain. cbn. repeat split; discriminate.
    + apply starts_nowhere_text; [exact Htext|].
      cbn. repeat split; discriminate.
    + apply starts_nowhere_plain. cbn. repeat split; discriminate.
Qed.

(** The citations shown to the model are the citations read back: when
    the chunks are quotable, [_extract_citations] finds in the text of
    [_format_chunks] the citation of every chunk, once and in order, and
    nothing else. *)
Theorem prompt_citations_are_read_back (chunks : list ChunkDict) :
  Forall quotable chunks ->
  _extract_citations (_format_chunks chunks) = map citation_of chunks.
Proof.
  intros Hall. unfold _extract_citations, _format_chunks.
  exact (findall_blocks chunks 1 Hall).
Qed.

End CitationRoundTrip.

(** ** The indexer *)

Section IndexerFacts.
Import Ingest Indexer.
Context `{Embedder}.

Lemma slice_take_drop {A} (l : list A) (a n : Z) :
  (0 <= a)%Z -> (0 <= n)%Z ->
  Py.slice l a (a + n) = take (Z.to_nat n) (drop (Z.to_nat a) l).
Proof.
  intros Ha Hn. unfold Py.slice, Py.clamp_index.
  destruct (Z.ltb_spec a 0) as [|_]; [lia|].
  destruct (Z.ltb_spec (a + n) 0) as [|_]; [lia|].
  change (firstn ?k ?x) with (take k x). change (skipn ?k ?x) with (drop k x).
  destruct (Z.le_gt_cases a (Z.of_nat (List.length l))) as [Hle | Hgt].
  - rewrite (Z.min_l a) by lia.
    rewrite (take_clip _ (Z.to_nat n)), (take_clip _ (Z.to_nat (_ - _))).
    f_equal. rewrite length_drop. lia.
  - rewrite (Z.min_r a) by lia. rewrite !drop_ge by lia. now rewrite !take_nil.
Qed.

(** The loop adds one call per start and counts the chunks of the
    batches. *)
Lemma index_loop chunks batch_size starts : forall calls count,
  fold_left (index_batch chunks batch_size) starts (calls, count)
  = (calls ++ map (fun i => add_call (Py.slice chunks i (i + batch_size))) starts,
     (count + List.length
                (concat (map (fun i => Py.slice chunks i (i + batch_size)) starts)))%nat).
Proof.
  induction starts as [|i starts IH]; intros calls count; cbn [fold_left map concat].
  - rewrite app_nil_r. f_equal. simpl. lia.
  - unfold index_batch at 2. cbn [fst snd]. rewrite IH, <- app_assoc.
    f_equal. rewrite length_app. lia.
Qed.

(** Consecutive batches of [size] elements make up a prefix. *)
Lemma batches_concat {A} (l : list A) (size : nat) : forall m,
  concat (map (fun j => take size (drop (j * size) l)) (seq 0 m)) = take (m * size) l.
Proof.
  induction m as [|m IH]; [now rewrite take_0|].
  rewrite seq_S, map_app, concat_app, IH. cbn [map concat]. rewrite app_nil_r.
  rewrite take_take_drop. f_equal. lia.
Qed.

(** With a positive batch size every chunk is handed to the store
    exactly once and in order: the identifiers, the texts and the
    metadata of the calls, put end to end, are those of the chunks.
    Every call carries between one and [batch_size] chunks, and the
    number returned is the number of chunks. *)
Theorem index_chunks_adds_every_chunk_once
  (chunks : list DocumentChunk) (batch_size : Z) :
  (0 < batch_size)%Z ->
  exists calls,
    index_chunks chunks batch_size = Ok (calls, List.length chunks) /\
    concat (map a_ids calls) = map chunk_id chunks /\
    concat (map a_documents calls) = map chunk_text chunks /\
    concat (map a_metadatas calls) = map metadata_of chunks /\
    Forall (fun call =>
              (1 <= List.length (a_ids call))%nat /\
              (Z.of_nat (List.length (a_ids call)) <= batch_size)%Z /\
              a_embeddings call = embed_batch (a_documents call)) calls.
Proof.
  intros Hpos.
  set (size := Z.to_nat batch_size).
  set (n := List.length chunks).
  set (m := Z.to_nat ((Z.of_nat n + batch_size - 1) / batch_size)).
  set (batch := fun j => take size (drop (j * size) chunks)).
  assert (Hm1 : (n <= m * size)%nat).
  { unfold m, size.
    pose proof (Z.mul_div_le (Z.of_nat n + batch_size - 1) batch_size Hpos).
    pose proof (Z.mod_pos_bound (Z.of_nat n + batch_size - 1) batch_size Hpos).
    pose proof (Z.div_mod (Z.of_nat n + batch_size - 1) batch_size ltac:(lia)).
    assert (0 <= (Z.of_nat n + batch_size - 1) / batch_size)%Z
      by (apply Z.div_pos; lia).
    nia. }
  assert (Hm2 : forall j, (j < m)%nat -> (j * size < n)%nat).
  { intros j Hj. unfold m, size in *.
    pose proof (Z.mul_div_le (Z.of_nat n + batch_size - 1) batch_size Hpos).
    assert (0 <= (Z.of_nat n + batch_size - 1) / batch_size)%Z
      by (apply Z.div_pos; lia).
    nia. }
  assert (Hrun : index_chunks chunks batch_size
                 = Ok (map (fun j => add_call (batch j)) (seq 0 m),
                       List.length (concat (map batch (seq 0 m))))).
  { unfold index_chunks. destruct chunks as [|c0 chunks'] eqn:Hchunks.
    - subst n. cbn [List.length] in *. replace m with 0%nat; [reflexivity|].
      unfold m. change (Z.of_nat 0) with 0%Z.
      rewrite Z.div_small by lia. reflexivity.
    - fold n. unfold Builtins.range.
      destruct (Z.eqb_spec batch_size 0) as [|_]; [lia|].
      destruct (Z.ltb_spec 0 batch_size) as [_|]; [|lia].
      replace (Z.of_nat n - 0 + batch_size - 1)%Z
        with (Z.of_nat n + batch_size - 1)%Z by lia. fold m.
      change (Ok ?x ≫= ?k) with (k x). cbv beta.
      unfold mret, result_ret. f_equal.
      rewrite index_loop, app_nil_l, Nat.add_0_l, !map_map.
      f_equal.
      + apply map_ext. intros j. f_equal. rewrite Z.add_0_l.
        rewrite slice_take_drop by lia. unfold batch, size. f_equal. f_equal. lia.
      + f_equal. f_equal. apply map_ext. intros j. rewrite Z.add_0_l.
        rewrite slice_take_drop by lia. unfold batch, size. f_equal. f_equal. lia. }
  assert (Hall : concat (map batch (seq 0 m)) = chunks).
  { unfold batch. rewrite batches_concat. apply take_ge. fold n. exact Hm1. }
  eexists. split; [rewrite Hrun, Hall; reflexivity|].
  rewrite !map_map. cbn [a_ids a_documents a_metadatas add_call].
  repeat split.
  - rewrite <- (map_map batch (map chunk_id)), <- (concat_map chunk_id).
    now rewrite Hall.
  - rewrite <- (map_map batch (map chunk_text)), <- (concat_map chunk_text).
    now rewrite Hall.
  - rewrite <- (map_map batch (map metadata_of)), <- (concat_map metadata_of).
    now rewrite Hall.
  - apply Forall_forall. intros call Hin.
    change (map ?f ?l) with (f <$> l) in Hin.
    apply list_elem_of_fmap in Hin as (j & -> & Hj).
    apply elem_of_seq in Hj. specialize (Hm2 j ltac:(lia)).
    cbn [a_ids a_embeddings a_documents add_call].
    rewrite length_map. unfold batch. rewrite length_take, length_drop. fold n.
    repeat split; [unfold size; lia | unfold size; lia].
Qed.

(** The batch size is not checked beforehand.  With chunks to index, a
    batch size of zero raises the [ValueError] of [range] before any
    call, and a negative batch size makes no call at all and returns 0
    as if nothing had been asked; without chunks every batch size
    returns 0. *)
Theorem index_chunks_needs_a_positive_batch_size
  (chunks : list DocumentChunk) (batch_size : Z) :
  (chunks = [] -> index_chunks chunks batch_size = Ok ([], 0%nat)) /\
  (chunks <> [] -> batch_size = 0%Z ->
   index_chunks chunks batch_size
   = Raise (ValueError "range() arg 3 must not be zero")) /\
  (chunks <> [] -> (batch_size < 0)%Z ->
   index_chunks chunks batch_size = Ok ([], 0%nat)).
Proof.
  split; [intros ->; reflexivity|]. split.
  - intros Hne ->. destruct chunks; [congruence | reflexivity].
  - intros Hne Hneg. destruct chunks as [|c chunks]; [congruence|].
    unfold index_chunks, Builtins.range.
    destruct (Z.eqb_spec batch_size 0) as [|_]; [lia|].
    destruct (Z.ltb_spec 0 batch_size) as [|_]; [lia|].
    replace (Z.to_nat _) with 0%nat; [reflexivity|].
    assert (Hq : ((0 - Z.of_nat (List.length (c :: chunks)) - batch_size - 1)
                  / - batch_size <= 0)%Z).
    { cbn [List.length].
      destruct (Z.le_gt_cases 0 (0 - Z.of_nat (S (List.length chunks)) - batch_size - 1))
        as [Hnn | Hn].
      - rewrite Z.div_small by lia. lia.
      - apply Z.lt_le_incl, Z.div_lt_upper_bound; lia. }
    lia.
Qed.

End IndexerFacts.

Section IngestToRetrieve.
Import Ingest IngestSpec Indexer.
Context `{Tokenizer}.

Lemma chunk_text_stamped ing fuel text filename_ page_ file_type_ priority_ trusted_
    metadata_ chunks :
  _chunk_text ing fuel text filename_ page_ file_type_ priority_ trusted_ metadata_
  = Some chunks ->
  Forall (stamped filename_ priority_ trusted_) chunks.
Proof.
  unfold _chunk_text. intros Hrun. apply chunk_loop_made_from in Hrun.
  eapply Forall_impl; [exact Hrun|].
  intros c (Hf & _ & _ & Hp & Ht & _). repeat split; assumption.
Qed.

(** Every chunk of a file bears the name of the file without its
    directories, and the priority and the trust given to the call. *)
Lemma ingest_file_stamped ing fuel filepath content priority_ trusted_ chunks :
  ingest_file ing fuel filepath content priority_ trusted_ = Some (Ok chunks) ->
  Forall (stamped (basename filepath) priority_ trusted_) chunks.
Proof.
  intros Hrun. unfold ingest_file in Hrun.
  destruct (String.eqb _ ".pdf").
  { destruct content; try discriminate. apply fmap_Ok_inv in Hrun.
    unfold _ingest_pdf in Hrun. revert Hrun. generalize 0%Z. revert chunks.
    induction pages as [|pg pages IH]; intros chunks page_num; simpl.
    - intros [= <-]. constructor.
    - destruct (if Py.truthy (Py.strip (page_text pg)) then _ else _)
        as [page_chunks|] eqn:Hpage; [|discriminate]. simpl.
      destruct (pdf_pages ing fuel _ priority_ trusted_ (page_num + 1) pages)
        as [rest|] eqn:Hrest; [|discriminate]. simpl.
      intros [= <-]. apply Forall_app. split; [|exact (IH _ _ Hrest)].
      destruct (Py.truthy (Py.strip (page_text pg)));
        [now apply chunk_text_stamped in Hpage | injection Hpage as <-; constructor]. }
  destruct (String.eqb _ ".docx").
  { destruct content; try discriminate. apply fmap_Ok_inv in Hrun.
    now apply chunk_text_stamped in Hrun. }
  destruct (String.eqb _ ".pptx").
  { destruct content; try discriminate. apply fmap_Ok_inv in Hrun.
    unfold _ingest_pptx in Hrun. revert Hrun. generalize 1%Z. revert chunks.
    induction slides as [|slide slides IH]; intros chunks slide_num; simpl.
    - intros [= <-]. constructor.
    - destruct (match slide_texts slide with [] => _ | _ => _ end)
        as [slide_chunks|] eqn:Hslide; [|discriminate]. simpl.
      destruct (pptx_slides ing fuel _ priority_ trusted_ (slide_num + 1) slides)
        as [rest|] eqn:Hrest; [|discriminate]. simpl.
      intros [= <-]. apply Forall_app. split; [|exact (IH _ _ Hrest)].
      destruct (slide_texts slide);
        [injection Hslide as <-; constructor | now apply chunk_text_stamped in Hslide]. }
  destruct (String.eqb _ ".txt" || String.eqb _ ".text").
  { destruct content; try discriminate. apply fmap_Ok_inv in Hrun.
    now apply chunk_text_stamped in Hrun. }
  destruct (String.eqb _ ".png" || String.eqb _ ".jpg" || String.eqb _ ".jpeg");
    [|discriminate].
  injection Hrun as <-. repeat constructor.
Qed.

(** From ingestion to reranking.  The metadata indexed for a chunk of a
    file names the file without its directories and carries the
    priority and the trust given at ingestion; read back by the
    retriever it gives the boost of that priority, times 1.1 for a
    trusted file.  A priority other than rubric, slides and textbook is
    accepted at ingestion and weighs 1.0 like normal. *)
Theorem ingested_priority_drives_the_boost
  (ing : DocumentIngestor) (fuel : nat) (filepath : string) (content : Document)
  (priority_ : string) (trusted_ : bool) (chunks : list DocumentChunk) :
  ingest_file ing fuel filepath content priority_ trusted_ = Some (Ok chunks) ->
  forall c, c ∈ chunks ->
    as_retrieved (metadata_of c)
    = mkMetadata (Some (basename filepath)) (Some (page c)) (Some priority_)
        (Some trusted_) /\
    Retriever.boost_of (as_retrieved (metadata_of c))
    = (if trusted_ then (Retriever.priority_weight priority_ * (11 # 10))%Q
       else Retriever.priority_weight priority_) /\
    (priority_ ∉ ["rubric"; "slides"; "textbook"] ->
     Retriever.priority_weight priority_ = 1%Q).
Proof.
  intros Hrun c Hc. apply ingest_file_stamped in Hrun.
  rewrite Forall_forall in Hrun. destruct (Hrun c Hc) as (Hf & Hp & Ht).
  unfold as_retrieved, metadata_of. cbn. rewrite Hf, Hp, Ht.
  split; [reflexivity|]. split; [reflexivity|].
  intros Hnot. unfold Retriever.priority_weight.
  destruct (String.eqb_spec priority_ "rubric") as [->|_];
    [exfalso; apply Hnot; set_solver|].
  destruct (String.eqb_spec priority_ "slides") as [->|_];
    [exfalso; apply Hnot; set_solver|].
  destruct (String.eqb_spec priority_ "textbook") as [->|_];
    [exfalso; apply Hnot; set_solver|].
  now destruct (String.eqb priority_ "normal").
Qed.

End IngestToRetrieve.

(** ** Reading a number back *)

Section IntFacts.
Import PySpec StringSpec Builtins.

Lemma all_chars_impl (P Q : ascii -> bool) s :
  (forall c, P c = true -> Q c = true) -> all_chars P s -> all_chars Q s.
Proof.
  intros HPQ. induction s as [|c s IH]; [trivial|].
  intros [Hc Hs]. split; [exact (HPQ c Hc) | exact (IH Hs)].
Qed.

Lemma string_of_uint_decimal d : all_chars is_decimal (NilEmpty.string_of_uint d).
Proof. induction d; simpl; try exact I; (split; [reflexivity | assumption]). Qed.

Lemma is_decimal_visible c : is_decimal c = true -> negb (Py.isspace c) = true.
Proof.
  destruct c as [[] [] [] [] [] [] [] []]; vm_compute; intros Hc;
    reflexivity || discriminate.
Qed.

Lemma is_decimal_no_mark c :
  is_decimal c = true ->
  Ascii.eqb c "_" = false /\ Ascii.eqb c "-" = false /\ Ascii.eqb c "+" = false.
Proof.
  destruct c as [[] [] [] [] [] [] [] []]; vm_compute; intros Hc;
    (repeat split; reflexivity) || discriminate.
Qed.

(** A string without white space is its own [strip]. *)
Lemma strip_visible s :
  all_chars (fun c => negb (Py.isspace c)) s -> Py.strip s = s.
Proof.
  intros Hs. unfold Py.strip.
  assert (Hl : Py.lstrip s = s).
  { destruct s as [|c s]; [reflexivity|]. destruct Hs as [Hc _]. simpl.
    apply negb_true_iff in Hc. now rewrite Hc. }
  rewrite Hl. induction s as [|c s IH]; [reflexivity|].
  destruct Hs as [Hc Hs]. cbn [Py.rstrip]. rewrite IH.
  - destruct s; [|reflexivity]. apply negb_true_iff in Hc. now rewrite Hc.
  - exact Hs.
  - destruct s as [|c' s]; [reflexivity|]. destruct Hs as [Hc' _]. simpl.
    apply negb_true_iff in Hc'. now rewrite Hc'.
Qed.

Lemma int_digits_decimal s :
  all_chars is_decimal s ->
  int_digits true s = Some s /\ (s <> EmptyString -> int_digits false s = Some s).
Proof.
  induction s as [|c s IH]; intros Hs; [split; [reflexivity | congruence]|].
  destruct Hs as [Hc Hs]. destruct (IH Hs) as [IH1 _].
  destruct (is_decimal_no_mark c Hc) as (Hu & _).
  cbn [int_digits]. rewrite Hu, Hc, IH1. split; [reflexivity | intros _; reflexivity].
Qed.

Lemma string_of_uint_nonempty d :
  d <> Decimal.Nil -> NilEmpty.string_of_uint d <> EmptyString.
Proof. destruct d; [congruence | discriminate..]. Qed.

(** [int] reads back what [str] writes. *)
Lemma int_str_of_Z n : int (Py.str_of_Z n) = Ok n.
Proof.
  destruct n as [|p|p].
  - reflexivity.
  - unfold Py.str_of_Z. cbn [Z.to_int NilZero.string_of_int].
    pose proof (DecimalPos.Unsigned.to_uint_nonnil p) as Hnil.
    set (d := Pos.to_uint p) in *.
    assert (Hs : NilZero.string_of_uint d = NilEmpty.string_of_uint d)
      by (destruct d; [congruence | reflexivity..]).
    rewrite Hs. set (s := NilEmpty.string_of_uint d).
    pose proof (string_of_uint_decimal d) as Hdec. fold s in Hdec.
    pose proof (string_of_uint_nonempty d Hnil) as Hne. fold s in Hne.
    unfold int. rewrite strip_visible
      by (eapply all_chars_impl; [exact is_decimal_visible | exact Hdec]).
    destruct s as [|c s'] eqn:Es; [congruence|].
    destruct (is_decimal_no_mark c (proj1 Hdec)) as (_ & Hm & Hp).
    rewrite Hm, Hp. rewrite (proj2 (int_digits_decimal _ Hdec) Hne).
    change (Some (String c s') ≫= NilEmpty.uint_of_string)
      with (NilEmpty.uint_of_string (String c s')).
    rewrite <- Es. unfold s. rewrite NilEmpty.usu.
    unfold Z.of_uint, d. now rewrite DecimalPos.Unsigned.of_to.
  - unfold Py.str_of_Z. cbn [Z.to_int NilZero.string_of_int].
    pose proof (DecimalPos.Unsigned.to_uint_nonnil p) as Hnil.
    set (d := Pos.to_uint p) in *.
    assert (Hs : NilZero.string_of_uint d = NilEmpty.string_of_uint d)
      by (destruct d; [congruence | reflexivity..]).
    rewrite Hs. set (s := NilEmpty.string_of_uint d).
    pose proof (string_of_uint_decimal d) as Hdec. fold s in Hdec.
    pose proof (string_of_uint_nonempty d Hnil) as Hne. fold s in Hne.
    unfold int. rewrite strip_visible.
    2:{ split; [reflexivity|].
        eapply all_chars_impl; [exact is_decimal_visible | exact Hdec]. }
    change (Ascii.eqb "-" "-") with true. cbv iota beta.
    rewrite (proj2 (int_digits_decimal _ Hdec) Hne).
    change (Some s ≫= NilEmpty.uint_of_string) with (NilEmpty.uint_of_string s).
    unfold s. rewrite NilEmpty.usu.
    unfold Z.of_uint, d. now rewrite DecimalPos.Unsigned.of_to.
Qed.

End IntFacts.

(** ** The context window *)

Section SplitFacts.
Import PySpec StringSpec Builtins.

Lemma split_plain sep s :
  Py.contains sep s = false -> split_str sep 0 s = [s].
Proof.
  induction s as [|c s IH]; [reflexivity|].
  cbn [Py.contains]. intros Hs. apply orb_false_iff in Hs as [Hstart Hs].
  cbn [split_str]. rewrite Hstart, (IH Hs). reflexivity.
Qed.

Lemma split_skip sep a : forall s,
  split_str sep (String.length a) (a +:+ s) = split_str sep 0 s.
Proof.
  induction a as [|c a IH]; intros s; [reflexivity|].
  change (split_str sep (S (String.length a)) (String c (a +:+ s))
          = split_str sep 0 s).
  cbn [split_str]. apply IH.
Qed.

Lemma startswith_self p s : Py.startswith p (p +:+ s) = true.
Proof.
  induction p as [|y p IH]; [reflexivity|].
  change (String y p +:+ s)%string with (String y (p +:+ s)).
  cbn [Py.startswith]. now rewrite Ascii.eqb_refl, IH.
Qed.

(** The first piece ends where the separator first begins. *)
Lemma split_first y q a r :
  starts_nowhere (String y q) a (String y q +:+ r) ->
  split_str (String y q) 0 (a +:+ String y q +:+ r)
  = a :: split_str (String y q) 0 r.
Proof.
  induction a as [|c a IH]; intros Ha.
  - change (EmptyString +:+ String y q +:+ r)%string with (String y (q +:+ r)).
    cbn [split_str].
    change (String y (q +:+ r)) with (String y q +:+ r)%string.
    rewrite startswith_self. f_equal.
    change (String.length (String y q) - 1)%nat with (String.length q - 0)%nat.
    rewrite Nat.sub_0_r. apply split_skip.
  - destruct Ha as [Hstart Ha].
    change (String c a +:+ String y q +:+ r)%string
      with (String c (a +:+ String y q +:+ r)) in *.
    cbn [split_str]. rewrite Hstart, (IH Ha). reflexivity.
Qed.

End SplitFacts.

Section ContextWindow.
Import PySpec StringSpec Builtins IngestSpec Pages PagesSpec.
Context `{PageStore}.

(** The identifier of a chunk of a file whose name does not hold ["_c"]
    is cut in two at its last part. *)
Lemma split_chunk_id filename page_ idx :
  Py.contains "_c" filename = false ->
  split_str "_c" 0 (chunk_id_of filename page_ idx)
  = [(filename +:+ "_p" +:+ Py.str_of_Z page_)%string; Py.str_of_Z idx].
Proof.
  intros Hf. unfold chunk_id_of.
  assert (Hp : lacks "_" (Py.str_of_Z page_))
    by (apply str_of_Z_lacks; [reflexivity | discriminate]).
  assert (Hi : lacks "_" (Py.str_of_Z idx))
    by (apply str_of_Z_lacks; [reflexivity | discriminate]).
  replace (filename +:+ "_p" +:+ Py.str_of_Z page_ +:+ "_c" +:+ Py.str_of_Z idx)%string
    with ((filename +:+ "_p" +:+ Py.str_of_Z page_) +:+ "_c" +:+ Py.str_of_Z idx)%string
    by (rewrite !string_app_assoc; reflexivity).
  rewrite split_first.
  - f_equal. apply split_plain. now apply contains_lacks.
  - apply starts_nowhere_app.
    + apply starts_nowhere_text; [exact Hf|].
      change (("_p" +:+ ?x) +:+ ?y)%string with (String "_" (String "p" (x +:+ y))).
      cbn. split; [discriminate | exact I].
    + apply starts_nowhere_text.
      * change ("_p" +:+ ?x)%string with (String "_" (String "p" x)).
        cbn [Py.contains Py.startswith]. rewrite (contains_lacks "_" "c" _ Hp).
        reflexivity.
      * cbn. split; [discriminate | exact I].
Qed.

(** With a second ["_c"] before it the identifier is cut in three
    pieces or more. *)
Lemma split_after_a_match t :
  (2 <= List.length (split_str "_c" 0 t))%nat -> begins_outside "c" t ->
  forall a skip, (skip <= String.length a)%nat ->
    (2 <= List.length (split_str "_c" skip (a +:+ t)))%nat.
Proof.
  intros H1 H2. induction a as [|c a IH]; intros skip Hskip.
  - cbn in Hskip. replace skip with 0%nat by lia. exact H1.
  - change (String c a +:+ t)%string with (String c (a +:+ t)).
    destruct skip as [|k]; cbn [split_str].
    + destruct (Py.startswith "_c" (String c (a +:+ t))) eqn:Hstart.
      * cbn [List.length]. destruct a as [|c' a].
        { exfalso. change (EmptyString +:+ t)%string with t in Hstart.
          cbn [Py.startswith] in Hstart. destruct t as [|x t]; [now rewrite andb_false_r in Hstart|].
          destruct H2 as [Hx _]. apply Ascii.eqb_neq in Hx.
          rewrite Hx in Hstart. now rewrite andb_false_r in Hstart. }
        specialize (IH 1%nat ltac:(cbn; lia)).
        change (String.length "_c" - 1)%nat with 1%nat. lia.
      * specialize (IH 0%nat ltac:(lia)).
        destruct (split_str "_c" 0 (a +:+ t)) as [|p ps]; [cbn in IH; lia | exact IH].
    + apply IH. cbn in Hskip. lia.
Qed.

Lemma split_with_a_match t :
  (2 <= List.length (split_str "_c" 0 t))%nat -> begins_outside "c" t ->
  forall a, Py.contains "_c" a = true ->
    (3 <= List.length (split_str "_c" 0 (a +:+ t)))%nat.
Proof.
  intros H1 H2. induction a as [|c a IH]; intros Ha; [discriminate|].
  change (String c a +:+ t)%string with (String c (a +:+ t)).
  cbn [split_str].
  destruct (Py.startswith "_c" (String c (a +:+ t))) eqn:Hstart.
  - cbn [List.length]. change (String.length "_c" - 1)%nat with 1%nat.
    destruct a as [|c' a].
    { exfalso. change (EmptyString +:+ t)%string with t in Hstart.
      cbn [Py.startswith] in Hstart. destruct t as [|x t]; [now rewrite andb_false_r in Hstart|].
      destruct H2 as [Hx _]. apply Ascii.eqb_neq in Hx.
      rewrite Hx in Hstart. now rewrite andb_false_r in Hstart. }
    pose proof (split_after_a_match t H1 H2 (String c' a) 1%nat ltac:(cbn; lia)). lia.
  - cbn [Py.contains] in Ha.
    assert (Hno : Py.startswith "_c" (String c a) = false).
    { destruct (Py.startswith "_c" (String c a)) eqn:E; [|reflexivity].
      apply (startswith_app_true _ _ t) in E.
      change (String c a +:+ t)%string with (String c (a +:+ t)) in E. congruence. }
    rewrite Hno in Ha. specialize (IH Ha).
    destruct (split_str "_c" 0 (a +:+ t)) as [|p ps]; [cbn in IH; lia | exact IH].
Qed.

(** A file whose name holds ["_c"] gets no context: for every chunk of
    it [get_context_window] returns the empty list, for any window and
    without asking the store. *)
Theorem no_context_for_a_file_name_with_the_separator
  (filename : string) (page_ idx window_size : Z) :
  Py.contains "_c" filename = true ->
  get_context_window (chunk_id_of filename page_ idx) window_size = Ok [].
Proof.
  intros Hf. unfold get_context_window.
  set (t := ("_p" +:+ Py.str_of_Z page_ +:+ "_c" +:+ Py.str_of_Z idx)%string).
  assert (H1 : (2 <= List.length (split_str "_c" 0 t))%nat).
  { pose proof (split_chunk_id EmptyString page_ idx eq_refl) as Hsplit.
    unfold chunk_id_of in Hsplit.
    change (EmptyString +:+ ?x)%string with x in Hsplit. fold t in Hsplit.
    rewrite Hsplit. cbn. lia. }
  assert (H2 : begins_outside "c" t) by (cbn; split; [discriminate | exact I]).
  pose proof (split_with_a_match t H1 H2 filename Hf) as Hlen.
  unfold chunk_id_of. fold t.
  destruct (split_str "_c" 0 (filename +:+ t)) as [|p1 [|p2 [|p3 ps]]];
    cbn in Hlen; try lia; reflexivity.
Qed.

Lemma omap_filter_map {A B C} (f : A -> option C) (h : A -> B) (g : B -> C)
    (P : B -> Prop) `{forall b, Decision (P b)} (l : list A) :
  (forall x, f x = if decide (P (h x)) then Some (g (h x)) else None) ->
  omap f l = map g (filter P (map h l)).
Proof.
  intros Hf. induction l as [|x l IH]; [reflexivity|].
  cbn [omap list_omap map]. rewrite filter_cons, Hf.
  destruct (decide (P (h x))); cbn [map]; [f_equal|]; exact IH.
Qed.

(** For a chunk of a file whose name does not hold ["_c"],
    [get_context_window] asks the store for the chunks of the same page
    whose index is at most [window_size] away and not negative, in the
    order of the indices, and returns the rows of the answer ranked as
    the store gives them, or nothing when the store raises. *)
Theorem context_window_asks_for_the_neighbours
  (filename : string) (page_ idx window_size : Z) :
  Py.contains "_c" filename = false -> (0 <= idx)%Z ->
  get_context_window (chunk_id_of filename page_ idx) window_size
  = Ok (answer (collection_get_ids
                  (map (chunk_id_of filename page_) (neighbours idx window_size)))).
Proof.
  intros Hf Hidx. unfold get_context_window.
  rewrite (split_chunk_id filename page_ idx Hf), int_str_of_Z.
  change (Ok idx ≫= ?k) with (k idx). cbv beta.
  unfold range. change (1 =? 0)%Z with false. change (0 <? 1)%Z with true.
  cbv iota. rewrite Z.div_1_r.
  change (Ok ?x ≫= ?k) with (k x). cbv beta.
  replace (Z.to_nat (window_size + 1 - - window_size + 1 - 1))
    with (Z.to_nat (2 * window_size + 1)) by lia.
  rewrite (omap_filter_map _ (fun offset => (idx + offset)%Z)
             (chunk_id_of filename page_) (fun j => (0 <= j)%Z)).
  - unfold neighbours. rewrite map_map.
    rewrite (map_ext (fun k => (idx + (- window_size + Z.of_nat k * 1))%Z)
               (fun k => (idx - window_size + Z.of_nat k)%Z))
      by (intros k; lia).
    destruct (collection_get_ids _); reflexivity.
  - intros offset. unfold adjacent_id.
    destruct (Z.eqb_spec offset 0) as [-> | Hoff].
    + rewrite Z.add_0_r. destruct (decide (0 <= idx)%Z); [reflexivity | lia].
    + destruct (Z.geb_spec (idx + offset) 0) as [Hge | Hlt];
        destruct (decide (0 <= idx + offset)%Z); try lia; [|reflexivity].
      f_equal. unfold chunk_id_of. rewrite !string_app_assoc. reflexivity.
Qed.

End ContextWindow.

(** ** The chunks of a page *)

Section PageFacts.
Import Retriever Pages.
Context `{PageStore}.

(** What identifies a chunk of a page. *)
Local Abbreviation triple :=
  (fun c : PageChunk => (g_chunk_id c, g_chunk_text c, g_metadata c)).

Lemma imap_page_rank_triple l : forall (f : nat -> nat),
  map triple (imap (fun i => set_page_rank (f i)) l) = map triple l.
Proof.
  induction l as [|c l IH]; intros f; [reflexivity|].
  cbn [imap map]. f_equal. apply (IH (f ∘ S)).
Qed.

Lemma imap_page_rank_similarity l : forall (f : nat -> nat),
  map g_similarity (imap (fun i => set_page_rank (f i)) l) = map g_similarity l.
Proof.
  induction l as [|c l IH]; intros f; [reflexivity|].
  cbn [imap map]. f_equal. apply (IH (f ∘ S)).
Qed.

Lemma imap_page_rank_ranks l : forall k,
  map g_rank (imap (fun i => set_page_rank (k + i)) l) = seq k (List.length l).
Proof.
  induction l as [|c l IH]; intros k; [reflexivity|].
  cbn [imap map seq List.length]. rewrite Nat.add_0_r. f_equal.
  rewrite <- (IH (S k)). f_equal. apply imap_ext. intros i x _. simpl.
  f_equal. lia.
Qed.

Lemma imap_page_chunk_triple rows : forall (f : nat -> nat),
  map triple (imap (fun i => page_chunk (f i)) rows)
  = map (fun r => (r_id r, r_document r, r_metadata r)) rows.
Proof.
  induction rows as [|r rows IH]; intros f; [reflexivity|].
  cbn [imap map]. f_equal. apply (IH (f ∘ S)).
Qed.

Lemma imap_page_chunk_ranks rows : forall k,
  map g_rank (imap (fun i => page_chunk (k + i)) rows) = seq k (List.length rows).
Proof.
  induction rows as [|r rows IH]; intros k; [reflexivity|].
  cbn [imap map seq List.length]. rewrite Nat.add_0_r. f_equal.
  rewrite <- (IH (S k)). f_equal. apply imap_ext. intros i x _. simpl.
  f_equal. lia.
Qed.

Lemma page_chunks_triples rows :
  map triple (imap page_chunk rows)
  = map (fun r => (r_id r, r_document r, r_metadata r)) rows.
Proof. exact (imap_page_chunk_triple rows (fun i => i)). Qed.

Lemma page_chunks_ranks rows :
  map g_rank (imap page_chunk rows) = seq 0 (List.length rows).
Proof. exact (imap_page_chunk_ranks rows 0). Qed.

Lemma page_ranks_triples l : map triple (imap set_page_rank l) = map triple l.
Proof. exact (imap_page_rank_triple l (fun i => i)). Qed.

Lemma page_ranks_ranks l : map g_rank (imap set_page_rank l) = seq 0 (List.length l).
Proof. exact (imap_page_rank_ranks l 0). Qed.

(** [retrieve_by_page] returns every chunk that the store holds for the
    page, each once, ranked 0, 1, 2, ... by position.  Without a query,
    or with an empty one, the chunks keep the order of the store and
    the similarity 1.0.  With a query every chunk carries its cosine
    similarity to the query and no chunk has a larger similarity than
    the one before it. *)
Theorem retrieve_by_page_ranking (filename : string) (page_ : Z)
  (query : option string) :
  let rows := collection_get_page filename page_ in
  let chunks := retrieve_by_page filename page_ query in
  Permutation (map triple chunks)
    (map (fun r => (r_id r, r_document r, r_metadata r)) rows) /\
  map g_rank chunks = seq 0 (List.length rows) /\
  (default EmptyString query = EmptyString -> chunks = imap page_chunk rows) /\
  (forall q, query = Some q -> q <> EmptyString ->
     Forall (fun c => g_similarity c
                      = _cosine_similarity (embed_text q) (embed_text (g_chunk_text c)))
       chunks /\
     forall i x y, chunks !! i = Some x -> chunks !! S i = Some y ->
       (g_similarity y <= g_similarity x)%Q).
Proof.
  intros rows chunks.
  assert (Hplain : Permutation (map triple (imap page_chunk rows))
                     (map (fun r => (r_id r, r_document r, r_metadata r)) rows) /\
                   map g_rank (imap page_chunk rows) = seq 0 (List.length rows)).
  { split; [now rewrite page_chunks_triples | apply page_chunks_ranks]. }
  destruct Hplain as [Hperm Hranks].
  unfold chunks, retrieve_by_page. fold rows.
  destruct query as [q|];
    [|split; [exact Hperm|]; split; [exact Hranks|]; split;
      [reflexivity | intros q' Hq; discriminate]].
  destruct (imap page_chunk rows) as [|c0 cs] eqn:Hchunks.
  { split; [exact Hperm|]. split; [exact Hranks|]. split; [reflexivity|].
    intros q' _ _. split; [constructor | intros i x y Hx; discriminate]. }
  rewrite <- Hchunks in *. clear c0 cs Hchunks.
  destruct q as [|a q]; cbn [Py.truthy].
  { split; [exact Hperm|]. split; [exact Hranks|]. split; [reflexivity|].
    intros q' [= <-] Hne. congruence. }
  set (query := String a q).
  set (scored := map (score query) (imap page_chunk rows)).
  assert (Htriples : map triple scored = map triple (imap page_chunk rows)).
  { unfold scored. rewrite map_map. apply map_ext. reflexivity. }
  assert (Hscores : Forall (fun c => g_similarity c
                                     = _cosine_similarity (embed_text query)
                                         (embed_text (g_chunk_text c))) scored).
  { unfold scored. apply Forall_forall. intros c Hc.
    change (map ?f ?l) with (f <$> l) in Hc.
    apply list_elem_of_fmap in Hc as (c0 & -> & _). reflexivity. }
  split; [|split; [|split]].
  - rewrite page_ranks_triples.
    rewrite (Permutation_map triple (sort_desc_perm g_similarity scored)).
    rewrite Htriples. exact Hperm.
  - rewrite page_ranks_ranks.
    rewrite (Permutation_length (sort_desc_perm g_similarity scored)).
    unfold scored. rewrite length_map, length_imap. reflexivity.
  - discriminate.
  - intros q' [= <-] _. split.
    + apply Forall_forall. intros c Hc.
      apply list_elem_of_lookup in Hc as [i Hc].
      rewrite list_lookup_imap in Hc.
      destruct (sort_desc g_similarity scored !! i) as [c1|] eqn:Hc1; [|discriminate].
      injection Hc as <-. cbn.
      assert (Hin : c1 ∈ scored).
      { rewrite <- (sort_desc_perm g_similarity). eapply list_elem_of_lookup_2, Hc1. }
      rewrite Forall_forall in Hscores. exact (Hscores c1 Hin).
    + intros i x y Hx Hy.
      rewrite list_lookup_imap in Hx, Hy.
      destruct (sort_desc g_similarity scored !! i) as [x1|] eqn:Hx1; [|discriminate].
      destruct (sort_desc g_similarity scored !! S i) as [y1|] eqn:Hy1; [|discriminate].
      injection Hx as <-. injection Hy as <-. cbn.
      exact (Sorted_lookup _ _ i x1 y1 (sort_desc_Sorted g_similarity scored) Hx1 Hy1).
Qed.

End PageFacts.

(** ** The two audit logs *)

Section LogFiles.
Import ValidatorSpec.
Context `{Validator.SentenceEncoder} `{Validator.MathOracle}
        `{Retriever.VectorStore}.

Lemma string_app_same_length (u w x y : string) :
  String.length u = String.length w ->
  (u +:+ x = w +:+ y)%string -> u = w /\ x = y.
Proof.
  revert w. induction u as [|c u IH]; intros [|d w] Hlen Heq; try discriminate.
  - split; [reflexivity | exact Heq].
  - change (String c (u +:+ x) = String d (w +:+ y)) in Heq.
    injection Heq as -> Heq. injection Hlen as Hlen.
    destruct (IH w Hlen Heq) as [-> ->]. split; reflexivity.
Qed.

(** The path of a log file ends with the name of the file. *)
Lemma path_join_name a c b :
  c <> "/"%char ->
  exists p, Audit.path_join a (String c b) = (p +:+ String c b)%string.
Proof.
  intros Hc. unfold Audit.path_join. cbn [Py.startswith].
  apply not_eq_sym, Ascii.eqb_neq in Hc. rewrite Hc. cbn [andb].
  destruct (negb (Py.truthy a) || Audit.ends_with_slash a).
  - exists a. reflexivity.
  - exists (a +:+ "/")%string. now rewrite string_app_assoc.
Qed.

(** The retrieval log and the validation log of one day are two
    files, whatever the two log directories are. *)
Lemma logs_differ v r clock : retrieval_log r clock <> validation_log v clock.
Proof.
  unfold retrieval_log, validation_log.
  destruct (path_join_name (Retriever.log_dir r) "r"
              ("etrieval_" +:+ Audit.utc_yyyymmdd clock +:+ ".jsonl")) as [p Hp];
    [discriminate|].
  destruct (path_join_name (Validator.log_dir v) "v"
              ("alidation_" +:+ Audit.utc_yyyymmdd clock +:+ ".jsonl")) as [q Hq];
    [discriminate|].
  change ("retrieval_" +:+ ?x)%string with (String "r" ("etrieval_" +:+ x)).
  change ("validation_" +:+ ?x)%string with (String "v" ("alidation_" +:+ x)).
  rewrite Hp, Hq. clear Hp Hq.
  set (day := (Audit.utc_yyyymmdd clock +:+ ".jsonl")%string).
  intros Heq.
  assert (Heq' : ((p +:+ "retrieva") +:+ "l_" +:+ day
                  = (q +:+ "validatio") +:+ "n_" +:+ day)%string).
  { rewrite !string_app_assoc. exact Heq. }
  assert (Hlen : String.length (p +:+ "retrieva") = String.length (q +:+ "validatio")).
  { apply (f_equal String.length) in Heq'.
    rewrite !string_length_app in Heq'. rewrite !string_length_app.
    cbn [String.length] in Heq' |- *. lia. }
  destruct (string_app_same_length _ _ _ _ Hlen Heq') as [_ Htail].
  discriminate.
Qed.

(** A retrieval followed by a validation leaves one new record at the
    end of each of the two logs of the day, which are never the same
    file, and touches no other file. *)
Theorem retrieval_and_validation_logs_are_kept_apart
  (v : Validator.StepValidator) (r : Retriever.DocumentRetriever)
  (clock : Audit.Clock) (query : string) (top_k_arg : option nat)
  (flt : option Filter) (boost : bool) (steps : list Validator.StepDict)
  (chunks : list Validator.ChunkDict) (mode : string)
  (fs fs1 fs2 : Audit.FS) (hits : list Retriever.RetrievedChunk)
  (res : Validator.SolutionValidation) :
  Retriever.retrieve r clock query top_k_arg flt boost fs = Ok (hits, fs1) ->
  Validator.validate_solution v clock steps chunks mode fs1 = Ok (res, fs2) ->
  retrieval_log r clock <> validation_log v clock /\
  Audit.files fs2 !! retrieval_log r clock
  = Some (default [] (Audit.files fs !! retrieval_log r clock)
          ++ [Audit.RetrievalRecord (Audit.utc_isoformat clock) query
                (List.length hits) flt (map Retriever.log_row hits)]) /\
  Audit.files fs2 !! validation_log v clock
  = Some (default [] (Audit.files fs !! validation_log v clock)
          ++ [Audit.ValidationRecord (Audit.utc_isoformat clock)
                (Validator.status res) (Validator.mode res)
                (Validator.total_steps res) (Validator.supported_steps res)
                (Validator.step_validations res)]) /\
  (forall other, other <> retrieval_log r clock -> other <> validation_log v clock ->
     Audit.files fs2 !! other = Audit.files fs !! other).
Proof.
  intros Hret Hval.
  pose proof (logs_differ v r clock) as Hne.
  unfold Retriever.retrieve, Retriever._log_retrieval in Hret.
  fold (retrieval_log r clock) in Hret.
  destruct (decide (retrieval_log r clock ∈ Audit.unwritable fs)) as [Hin | Hout].
  { rewrite (proj2 (append_line_cases fs _ _) Hin) in Hret. discriminate. }
  rewrite (proj1 (append_line_cases fs _ _) Hout) in Hret.
  injection Hret as <- <-.
  unfold Validator.validate_solution, Validator._log_validation in Hval.
  fold (validation_log v clock) in Hval.
  match type of Hval with
  | context [Audit.append_line ?f ?p ?l] =>
      destruct (decide (p ∈ Audit.unwritable f)) as [Hin | Hout'];
      [rewrite (proj2 (append_line_cases f p l) Hin) in Hval; discriminate
      |rewrite (proj1 (append_line_cases f p l) Hout') in Hval]
  end.
  injection Hval as <- <-.
  split; [exact Hne|].
  match goal with
  | |- context [with_line (with_line fs ?p1 ?l1) ?p2 ?l2] =>
      destruct (with_line_files fs p1 l1) as (Hr1 & Hr2 & _);
      destruct (with_line_files (with_line fs p1 l1) p2 l2) as (Hv1 & Hv2 & _)
  end.
  split; [|split].
  - rewrite Hv2 by exact Hne. exact Hr1.
  - rewrite Hv1. rewrite Hr2 by (apply not_eq_sym; exact Hne). reflexivity.
  - intros other Ho1 Ho2. rewrite Hv2 by exact Ho2. now apply Hr2.
Qed.

End LogFiles.

(** ** Files of one name *)

Section FileNames.
Import Ingest PySpec.
Context `{Tokenizer}.




End FileNames.

(** * Further concrete runs *)

Lemma validation_entries_witness :
  let steps := [Sample.step 1 "Divide both sides by two"; Sample.step 2 "   "] in
  let chunks := [Sample.chunk "The quadratic formula gives both roots"] in
  exists r fs',
    @Validator.validate_solution (Sample.flat_encoder (1 # 2)) Sample.no_math
      Validator.default_validator Sample.clock steps chunks "prefer" Sample.empty_fs
    = Ok (r, fs') /\
    Forall (fun e => (confidence e = LOW <-> supported e = false) /\
                     Py.strip (step_text e) <> EmptyString)
      (Validator.step_validations r).
Proof.
  intros steps chunks.
  destruct (@Validator.validate_solution (Sample.flat_encoder (1 # 2)) Sample.no_math
              Validator.default_validator Sample.clock steps chunks "prefer"
              Sample.empty_fs) as [[r fs']|e] eqn:Hret; [|vm_compute in Hret; discriminate].
  exists r, fs'. split; [reflexivity|].
  pose proof (@validation_entries_are_consistent (Sample.flat_encoder (1 # 2))
                Sample.no_math Validator.default_validator Sample.clock steps chunks
                "prefer" Sample.empty_fs fs' r Hret) as Hall.
  eapply Forall_impl; [exact Hall|].
  intros e0 (Hlow & _ & _ & _ & Htext). split; assumption.
Defined.


Lemma validate_strict_mode_witness :
  (ValidatorSpec.validation_log Validator.default_validator Sample.clock
     ∉ Audit.unwritable Sample.empty_fs) /\
  exists fs',
    @StrictMode.validate_strict_mode (Sample.flat_encoder (1 # 2)) Sample.no_math
      Sample.clock "1. Divide both sides by two"
      [Sample.chunk "The quadratic formula gives both roots"] Sample.empty_fs
    = Ok (false, "No supported solution found in resources.", fs').
Proof.
  assert (Hw : ValidatorSpec.validation_log Validator.default_validator Sample.clock
               ∉ Audit.unwritable Sample.empty_fs) by apply not_elem_of_empty.
  split; [exact Hw|].
  destruct (@validate_strict_mode_verdict (Sample.flat_encoder (1 # 2)) Sample.no_math
              Sample.clock "1. Divide both sides by two"
              [Sample.chunk "The quadratic formula gives both roots"]
              Sample.empty_fs Hw)
    as (ok & answer & fs' & Hret & Hok & Hanswer & _).
  exists fs'. rewrite Hret. destruct ok.
  - exfalso. destruct Hok as [Hall _]. specialize (Hall eq_refl).
    specialize (Hall _ (list_elem_of_here _ _)). vm_compute in Hall. discriminate.
  - now rewrite Hanswer.
Defined.

Lemma boost_favours_positive_similarity_witness :
  let x := Retriever.set_rank 0 (Retriever.set_boost Fixtures.rubric_hit) in
  let y := Retriever.set_rank 1 (Retriever.set_boost Fixtures.plain_hit) in
  x ∈ Retriever._apply_priority_boost Fixtures.equal_hits /\
  y ∈ Retriever._apply_priority_boost Fixtures.equal_hits /\
  (Retriever.similarity x == Retriever.similarity y)%Q /\
  (0 < Retriever.similarity x)%Q /\
  (Retriever.rank x < Retriever.rank y)%nat.
Proof.
  intros x y.
  assert (Hx : x ∈ Retriever._apply_priority_boost Fixtures.equal_hits)
    by (vm_compute; apply list_elem_of_here).
  assert (Hy : y ∈ Retriever._apply_priority_boost Fixtures.equal_hits)
    by (vm_compute; apply list_elem_of_further, list_elem_of_here).
  assert (Heq : (Retriever.similarity x == Retriever.similarity y)%Q) by reflexivity.
  assert (Hpos : (0 < Retriever.similarity x)%Q) by reflexivity.
  split; [exact Hx|]. split; [exact Hy|]. split; [exact Heq|]. split; [exact Hpos|].
  refine (proj1 (proj2 (proj2 (boost_favours_positive_similarity Fixtures.equal_hits
                                 x y Hx Hy _ _ _ _ Heq))) Hpos).
  - reflexivity.
  - discriminate.
  - left. reflexivity.
  - reflexivity.
Defined.

Lemma uniform_boost_witness :
  RetrieverSpec.descending Retriever.similarity Fixtures.slide_hits /\
  Forall (fun c => Retriever.boost_of (Retriever.metadata c) = ((12 # 10) * (11 # 10))%Q)
    Fixtures.slide_hits /\
  map Retriever.chunk_id (Retriever._apply_priority_boost Fixtures.slide_hits)
  = ["s_p1_c0"; "s_p2_c0"; "s_p3_c0"].
Proof.
  assert (Hdesc : RetrieverSpec.descending Retriever.similarity Fixtures.slide_hits).
  { intros [|[|[|i]]] x y Hx Hy; try discriminate;
      injection Hx as <-; injection Hy as <-; vm_compute; discriminate. }
  assert (Hb : Forall (fun c => Retriever.boost_of (Retriever.metadata c)
                                = ((12 # 10) * (11 # 10))%Q) Fixtures.slide_hits)
    by (repeat (apply Forall_cons_2; [reflexivity|]); apply Forall_nil_2).
  split; [exact Hdesc|]. split; [exact Hb|].
  exact (proj1 (uniform_boost_keeps_the_order Fixtures.slide_hits _ Hdesc Hb)).
Defined.

Lemma ingested_chunk_ids_witness :
  exists chunks,
    @Ingest.ingest_file Sample.char_tokenizer Fixtures.small_ingestor 5
      "uploads/course.pdf" (Ingest.PdfDocument Fixtures.pdf_pages) "rubric" true
    = Some (Ok chunks) /\
    map Ingest.chunk_id chunks
    = ["course.pdf_p1_c0"; "course.pdf_p1_c1"; "course.pdf_p3_c0";
       "course.pdf_p3_c1"; "course.pdf_p3_c2"] /\
    NoDup (map Ingest.chunk_id chunks).
Proof.
  destruct (@Ingest.ingest_file Sample.char_tokenizer Fixtures.small_ingestor 5
              "uploads/course.pdf" (Ingest.PdfDocument Fixtures.pdf_pages) "rubric" true)
    as [[chunks|e]|] eqn:Hrun; [|vm_compute in Hrun; discriminate..].
  exists chunks. split; [reflexivity|]. split.
  - vm_compute in Hrun. injection Hrun as <-. reflexivity.
  - exact (proj1 (@ingested_chunk_ids_are_distinct Sample.char_tokenizer
                    Fixtures.small_ingestor 5 "uploads/course.pdf"
                    (Ingest.PdfDocument Fixtures.pdf_pages) "rubric" true chunks Hrun)).
Defined.

Lemma pdf_chunks_witness :
  exists chunks c,
    @Ingest._ingest_pdf Sample.char_tokenizer Fixtures.small_ingestor 5
      Fixtures.pdf_pages "course.pdf" "rubric" true = Some chunks /\
    chunks !! 2%nat = Some c /\
    Ingest.page c = 3%Z /\
    exists pg,
      Fixtures.pdf_pages !! Z.to_nat (Ingest.page c - 1) = Some pg /\
      Py.strip (Ingest.page_text pg) <> EmptyString /\
      Ingest.metadata c = Ingest.Blocks (Ingest.page_blocks pg).
Proof.
  destruct (@Ingest._ingest_pdf Sample.char_tokenizer Fixtures.small_ingestor 5
              Fixtures.pdf_pages "course.pdf" "rubric" true)
    as [chunks|] eqn:Hrun; [|vm_compute in Hrun; discriminate].
  destruct (chunks !! 2%nat) as [c|] eqn:Hc;
    [|vm_compute in Hrun; injection Hrun as <-; discriminate].
  exists chunks, c. split; [reflexivity|]. split; [exact Hc|]. split.
  - vm_compute in Hrun. injection Hrun as <-. injection Hc as <-. reflexivity.
  - destruct (@pdf_chunks_come_from_their_page Sample.char_tokenizer
                Fixtures.small_ingestor 5 Fixtures.pdf_pages "course.pdf" "rubric" true
                chunks Hrun c (list_elem_of_lookup_2 _ _ _ Hc))
      as (pg & _ & Hlook & Hnb & Hmade).
    exists pg. split; [exact Hlook|]. split; [exact Hnb|]. apply Hmade.
Defined.

Lemma pptx_chunks_witness :
  exists chunks c,
    @Ingest._ingest_pptx Sample.char_tokenizer Fixtures.small_ingestor 5
      Fixtures.pptx_slides "deck.pptx" "slides" true = Some chunks /\
    chunks !! 0%nat = Some c /\
    Ingest.page c = 2%Z /\
    exists slide,
      Fixtures.pptx_slides !! Z.to_nat (Ingest.page c - 1) = Some slide /\
      Ingest.slide_texts slide <> [].
Proof.
  destruct (@Ingest._ingest_pptx Sample.char_tokenizer Fixtures.small_ingestor 5
              Fixtures.pptx_slides "deck.pptx" "slides" true)
    as [chunks|] eqn:Hrun; [|vm_compute in Hrun; discriminate].
  destruct (chunks !! 0%nat) as [c|] eqn:Hc;
    [|vm_compute in Hrun; injection Hrun as <-; discriminate].
  exists chunks, c. split; [reflexivity|]. split; [exact Hc|]. split.
  - vm_compute in Hrun. injection Hrun as <-. injection Hc as <-. reflexivity.
  - destruct (@pptx_chunks_come_from_their_slide Sample.char_tokenizer
                Fixtures.small_ingestor 5 Fixtures.pptx_slides "deck.pptx" "slides" true
                chunks Hrun c (list_elem_of_lookup_2 _ _ _ Hc))
      as (slide & _ & Hlook & Hne & _).
    exists slide. split; [exact Hlook | exact Hne].
Defined.

Lemma prompt_citations_witness :
  Forall PromptSpec.quotable Fixtures.prompt_chunks /\
  Generator._extract_citations (Prompt._format_chunks Fixtures.prompt_chunks)
  = ["[doc:notes.pdf | p:3 | chunk:notes.pdf_p3_c0]";
     "[doc:unknown | p:0 | chunk:unknown]"].
Proof.
  assert (Hq : Forall PromptSpec.quotable Fixtures.prompt_chunks).
  { repeat (apply Forall_cons_2;
              [unfold PromptSpec.quotable; cbn; repeat split; discriminate|]).
    apply Forall_nil_2. }
  split; [exact Hq|].
  rewrite (prompt_citations_are_read_back Fixtures.prompt_chunks Hq). reflexivity.
Defined.

Lemma index_chunks_witness :
  (0 < 2)%Z /\
  exists chunks calls,
    @Ingest._ingest_text Sample.char_tokenizer Fixtures.small_ingestor 5
      "abc" "notes.txt" "normal" true = Some chunks /\
    @Indexer.index_chunks Fixtures.length_embedder chunks 2 = Ok (calls, 3%nat) /\
    map Indexer.a_ids calls
    = [["notes.txt_p1_c0"; "notes.txt_p1_c1"]; ["notes.txt_p1_c2"]] /\
    concat (map Indexer.a_ids calls) = map Ingest.chunk_id chunks.
Proof.
  assert (Hpos : (0 < 2)%Z) by lia.
  split; [exact Hpos|].
  destruct (@Ingest._ingest_text Sample.char_tokenizer Fixtures.small_ingestor 5
              "abc" "notes.txt" "normal" true)
    as [chunks|] eqn:Hrun; [|vm_compute in Hrun; discriminate].
  vm_compute in Hrun. injection Hrun as <-.
  match goal with |- exists chunks calls, Some ?l = Some chunks /\ _ =>
    destruct (@index_chunks_adds_every_chunk_once Fixtures.length_embedder l 2 Hpos)
      as (calls & Hidx & Hids & _);
    exists l, calls
  end.
  split; [reflexivity|]. split; [exact Hidx|]. split; [|exact Hids].
  vm_compute in Hidx. injection Hidx as <-. reflexivity.
Defined.

Lemma ingested_priority_witness :
  exists chunks c,
    @Ingest.ingest_file Sample.char_tokenizer Fixtures.small_ingestor 5
      "uploads/course.pdf" (Ingest.PdfDocument Fixtures.pdf_pages) "rubric" true
    = Some (Ok chunks) /\
    chunks !! 0%nat = Some c /\
    Indexer.as_retrieved (Indexer.metadata_of c)
    = mkMetadata (Some "course.pdf") (Some 1%Z) (Some "rubric") (Some true) /\
    (Retriever.boost_of (Indexer.as_retrieved (Indexer.metadata_of c)) == 143 # 100)%Q.
Proof.
  destruct (@Ingest.ingest_file Sample.char_tokenizer Fixtures.small_ingestor 5
              "uploads/course.pdf" (Ingest.PdfDocument Fixtures.pdf_pages) "rubric" true)
    as [[chunks|e]|] eqn:Hrun; [|vm_compute in Hrun; discriminate..].
  destruct (chunks !! 0%nat) as [c|] eqn:Hc;
    [|vm_compute in Hrun; injection Hrun as <-; discriminate].
  exists chunks, c. split; [reflexivity|]. split; [exact Hc|].
  destruct (@ingested_priority_drives_the_boost Sample.char_tokenizer
              Fixtures.small_ingestor 5 "uploads/course.pdf"
              (Ingest.PdfDocument Fixtures.pdf_pages) "rubric" true chunks Hrun c
              (list_elem_of_lookup_2 _ _ _ Hc)) as (Hmeta & Hboost & _).
  split.
  - rewrite Hmeta. vm_compute in Hrun. injection Hrun as <-. injection Hc as <-.
    reflexivity.
  - rewrite Hboost. reflexivity.
Defined.

Lemma no_context_witness :
  Py.contains "_c" "my_course.pdf" = true /\
  @Pages.get_context_window Fixtures.page_store "my_course.pdf_p1_c0" 1 = Ok [].
Proof.
  assert (Hf : Py.contains "_c" "my_course.pdf" = true) by reflexivity.
  split; [exact Hf|].
  exact (@no_context_for_a_file_name_with_the_separator Fixtures.page_store
           "my_course.pdf" 1 0 1 Hf).
Defined.

Lemma context_window_witness :
  Py.contains "_c" "notes.pdf" = false /\ (0 <= 0)%Z /\
  PagesSpec.neighbours 0 1 = [0%Z; 1%Z] /\
  map Pages.x_chunk_id
    (default [] (match @Pages.get_context_window Fixtures.page_store
                         "notes.pdf_p1_c0" 1 with
                 | Ok chunks => Some chunks
                 | Raise _ => None
                 end))
  = ["notes.pdf_p1_c0"; "notes.pdf_p1_c1"].
Proof.
  assert (Hf : Py.contains "_c" "notes.pdf" = false) by reflexivity.
  assert (Hidx : (0 <= 0)%Z) by lia.
  split; [exact Hf|]. split; [exact Hidx|]. split; [reflexivity|].
  change "notes.pdf_p1_c0" with (IngestSpec.chunk_id_of "notes.pdf" 1 0) at 1.
  rewrite (@context_window_asks_for_the_neighbours Fixtures.page_store
             "notes.pdf" 1 0 1 Hf Hidx).
  reflexivity.
Defined.

Lemma logs_kept_apart_witness :
  exists hits fs1 res fs2,
    @Retriever.retrieve Sample.store Sample.retriever Sample.clock "roots"
      (Some 2%nat) None true Sample.empty_fs = Ok (hits, fs1) /\
    @Validator.validate_solution (Sample.flat_encoder (1 # 2)) Sample.no_math
      Validator.default_validator Sample.clock
      [Sample.step 1 "Divide both sides by two"]
      [Sample.chunk "The quadratic formula gives both roots"] "prefer" fs1
    = Ok (res, fs2) /\
    ValidatorSpec.retrieval_log Sample.retriever Sample.clock
    <> ValidatorSpec.validation_log Validator.default_validator Sample.clock /\
    (forall other,
       other <> ValidatorSpec.retrieval_log Sample.retriever Sample.clock ->
       other <> ValidatorSpec.validation_log Validator.default_validator Sample.clock ->
       Audit.files fs2 !! other = Audit.files Sample.empty_fs !! other).
Proof.
  destruct (@Retriever.retrieve Sample.store Sample.retriever Sample.clock "roots"
              (Some 2%nat) None true Sample.empty_fs)
    as [[hits fs1]|e] eqn:Hret; [|vm_compute in Hret; discriminate].
  destruct (@Validator.validate_solution (Sample.flat_encoder (1 # 2)) Sample.no_math
              Validator.default_validator Sample.clock
              [Sample.step 1 "Divide both sides by two"]
              [Sample.chunk "The quadratic formula gives both roots"] "prefer" fs1)
    as [[res fs2]|e] eqn:Hval.
  - exists hits, fs1, res, fs2. split; [reflexivity|]. split; [exact Hval|].
    destruct (@retrieval_and_validation_logs_are_kept_apart
                (Sample.flat_encoder (1 # 2)) Sample.no_math Sample.store
                Validator.default_validator Sample.retriever Sample.clock "roots"
                (Some 2%nat) None true [Sample.step 1 "Divide both sides by two"]
                [Sample.chunk "The quadratic formula gives both roots"] "prefer"
                Sample.empty_fs fs1 fs2 hits res Hret Hval)
      as (Hne & _ & _ & Hother).
    split; [exact Hne | exact Hother].
  - exfalso. vm_compute in Hret. injection Hret as <- <-.
    vm_compute in Hval. discriminate.
Defined.

